(** * Annotations: adaptive overlay renderer of the traffic-management system

    A shallow embedding of [src/app/utils/Annotations.py] (class
    [Annotations]) and the properties of its layout logic.

    - Python numbers are [int] (as [Z]) or [float] (IEEE-754 binary64, as the
      Standard Library's [spec_float] with [prec = 53], [emax = 1024]).
    - A detection is a [dict] keyed by strings: a [gmap string pyval].
    - A frame is a numpy array that the methods mutate in place: frames live
      in a store and are passed around as references.
    - [cv2] (rasterisation, text measurement, resize) and the helper
      [BboxUtils.calculate_center_point] are collaborators that are not part
      of the file: they are the methods of type classes. *)

From Stdlib Require Import ZArith Bool List Lia.
From Stdlib Require Import Floats.SpecFloat.
From stdpp Require Import base option list strings pretty gmap.

Set Warnings "-register-all".

Local Open Scope string_scope.
Local Open Scope Z_scope.

(** ** Python floats *)

Module PyFloat.

Definition prec : Z := 53.
Definition emax : Z := 1024.

Definition of_Z (z : Z) : spec_float := binary_normalize prec emax z 0 false.

Definition add : spec_float -> spec_float -> spec_float := SFadd prec emax.
Definition sub : spec_float -> spec_float -> spec_float := SFsub prec emax.
Definition mul : spec_float -> spec_float -> spec_float := SFmul prec emax.
Definition div : spec_float -> spec_float -> spec_float := SFdiv prec emax.

(** The double a decimal literal [num / den] denotes: the correctly rounded
    quotient of two exactly representable integers. *)
Definition literal (num den : Z) : spec_float := div (of_Z num) (of_Z den).

(** An integer of any size as an unrounded mantissa, and the correctly
    rounded quotient of two integers of any size. *)
Definition raw (z : Z) : spec_float :=
  match z with
  | Z0 => S754_zero false
  | Zpos p => S754_finite false p 0
  | Zneg p => S754_finite true p 0
  end.

Definition div_Z (a b : Z) : spec_float := div (raw a) (raw b).

Definition is_zero (f : spec_float) : bool :=
  match f with S754_zero _ => true | _ => false end.

Definition is_finite (f : spec_float) : bool :=
  match f with S754_zero _ | S754_finite _ _ _ => true | _ => false end.

(** Truncation toward zero of a finite float; [None] on nan and the
    infinities. *)
Definition trunc (f : spec_float) : option Z :=
  match f with
  | S754_zero _ => Some 0
  | S754_finite s m e =>
      let a := Z.shiftl (Zpos m) e in Some (if s then - a else a)
  | _ => None
  end.

(** Exact comparison of a float with an integer. *)
Definition compare_Z (f : spec_float) (z : Z) : option comparison :=
  match f with
  | S754_nan => None
  | S754_infinity s => Some (if s then Lt else Gt)
  | S754_zero _ => Some (0 ?= z)
  | S754_finite s m e =>
      let a := if s then Zneg m else Zpos m in
      Some (if 0 <=? e then (a * 2 ^ e ?= z) else (a ?= z * 2 ^ (- e)))
  end.

(** [format(f, '.2f')]: the exact value rounded to two decimals, ties to
    even. *)
Definition two_digits (n : Z) : string :=
  (if n <? 10 then "0" else "") +:+ pretty n.

Definition round_half_even (num : Z) (k : Z) : Z :=
  let q := Z.shiftr num k in
  let r := num - Z.shiftl q k in
  let half := Z.shiftl 1 (k - 1) in
  if (half <? r) || ((r =? half) && Z.odd q) then q + 1 else q.

Definition format_2f (f : spec_float) : string :=
  match f with
  | S754_nan => "nan"
  | S754_infinity s => if s then "-inf" else "inf"
  | S754_zero s => if s then "-0.00" else "0.00"
  | S754_finite s m e =>
      let n := if 0 <=? e then Zpos m * 100 * 2 ^ e
               else round_half_even (Zpos m * 100) (- e) in
      (if s then "-" else "") +:+ pretty (n / 100) +:+ "." +:+ two_digits (n mod 100)
  end.

End PyFloat.

(** ** Python values *)

(** The exceptions that can leave the methods; [LoopFuel] stands for a
    [while] loop that has not finished when its fuel is spent. *)
Inductive exn :=
  | KeyError (key : string)
  | TypeError
  | ValueError
  | AttributeError
  | ZeroDivisionError
  | OverflowError
  | IndexError
  | Cv2Error
  | LoopFuel.

Inductive result (A : Type) :=
  | Ok (a : A)
  | Raise (e : exn).
Arguments Ok {A} a.
Arguments Raise {A} e.

Definition rbind {A B} (r : result A) (k : A -> result B) : result B :=
  match r with Ok a => k a | Raise e => Raise e end.

Inductive pynum :=
  | NInt (z : Z)
  | NFloat (f : spec_float).

Inductive pyval :=
  | VNone
  | VBool (b : bool)
  | VInt (z : Z)
  | VFloat (f : spec_float)
  | VStr (s : string)
  | VTuple (l : list pyval)
  | VList (l : list pyval)
  | VDict (d : list (string * pyval)).

(** What the interpreter does with values that the file only passes on:
    [repr] of floats and containers and [int] of a string. *)
Class PyRuntime := {
  runtime_repr : pyval -> string;
  int_of_str : string -> option Z
}.

Module Py.

Definition to_float (n : pynum) : result spec_float :=
  match n with
  | NFloat f => Ok f
  | NInt z =>
      let f := PyFloat.of_Z z in
      if PyFloat.is_finite f then Ok f else Raise OverflowError
  end.

Definition binop (iop : Z -> Z -> Z) (fop : spec_float -> spec_float -> spec_float)
    (a b : pynum) : result pynum :=
  match a, b with
  | NInt x, NInt y => Ok (NInt (iop x y))
  | _, _ =>
      rbind (to_float a) (fun fa =>
      rbind (to_float b) (fun fb => Ok (NFloat (fop fa fb))))
  end.

Definition add := binop Z.add PyFloat.add.
Definition sub := binop Z.sub PyFloat.sub.
Definition mul := binop Z.mul PyFloat.mul.

(** [a / b]: true division, always a float. Two ints are divided exactly and
    the quotient is rounded once; otherwise both become doubles first. *)
Definition truediv (a b : pynum) : result pynum :=
  match a, b with
  | NInt x, NInt y =>
      if y =? 0 then Raise ZeroDivisionError
      else
        let q := PyFloat.div_Z x y in
        if PyFloat.is_finite q then Ok (NFloat q) else Raise OverflowError
  | _, _ =>
      rbind (to_float a) (fun fa =>
      rbind (to_float b) (fun fb =>
        if PyFloat.is_zero fb then Raise ZeroDivisionError
        else Ok (NFloat (PyFloat.div fa fb))))
  end.

(** Comparisons are exact, also between an int and a float. *)
Definition compare (a b : pynum) : option comparison :=
  match a, b with
  | NInt x, NInt y => Some (x ?= y)
  | NFloat f, NFloat g => SFcompare f g
  | NFloat f, NInt y => PyFloat.compare_Z f y
  | NInt x, NFloat g => option_map CompOpp (PyFloat.compare_Z g x)
  end.

Definition lt (a b : pynum) : bool :=
  match compare a b with Some Lt => true | _ => false end.
Definition gt (a b : pynum) : bool := lt b a.

(** [max(a, b)] and [min(a, b)] keep the first argument unless the second
    is strictly better. *)
Definition max (a b : pynum) : pynum := if gt b a then b else a.
Definition min (a b : pynum) : pynum := if lt b a then b else a.

(** [int(n)] *)
Definition int (n : pynum) : result Z :=
  match n with
  | NInt z => Ok z
  | NFloat f =>
      match PyFloat.trunc f with
      | Some z => Ok z
      | None =>
          match f with S754_nan => Raise ValueError | _ => Raise OverflowError end
      end
  end.

(** A value used as a number. *)
Definition num (v : pyval) : result pynum :=
  match v with
  | VBool b => Ok (NInt (if b then 1 else 0))
  | VInt z => Ok (NInt z)
  | VFloat f => Ok (NFloat f)
  | _ => Raise TypeError
  end.

(** [v - n] and [v + n] for a value [v] of a detection. *)
Definition sub_val (v : pyval) (n : pynum) : result pynum :=
  rbind (num v) (fun a => sub a n).
Definition add_val (v : pyval) (n : pynum) : result pynum :=
  rbind (num v) (fun a => add a n).

(** [int(v)] *)
Definition int_val `{PyRuntime} (v : pyval) : result Z :=
  match v with
  | VStr s =>
      match int_of_str s with Some z => Ok z | None => Raise ValueError end
  | _ => rbind (num v) int
  end.

(** [bool(v)] *)
Definition truth (v : pyval) : bool :=
  match v with
  | VNone => false
  | VBool b => b
  | VInt z => negb (z =? 0)
  | VFloat f => negb (PyFloat.is_zero f)
  | VStr s => negb (String.eqb s "")
  | VTuple l | VList l => match l with [] => false | _ => true end
  | VDict d => match d with [] => false | _ => true end
  end.

(** The interpreter refuses to write an int of more than 4300 decimal digits
    ([sys.get_int_max_str_digits()]), on its own or inside a container. *)
Definition int_max_str_digits : nat := 4300.

Fixpoint printable (v : pyval) : bool :=
  match v with
  | VInt z => Nat.leb (String.length (pretty (Z.abs z))) int_max_str_digits
  | VTuple l | VList l => forallb printable l
  | VDict d => forallb (fun kv => printable (snd kv)) d
  | _ => true
  end.

Definition text `{PyRuntime} (v : pyval) : string :=
  match v with
  | VNone => "None"
  | VBool b => if b then "True" else "False"
  | VInt z => pretty z
  | VStr s => s
  | _ => runtime_repr v
  end.

(** [str(v)], which is also [format(v, '')] in an f-string. *)
Definition str `{PyRuntime} (v : pyval) : result string :=
  if printable v then Ok (text v) else Raise ValueError.

(** [format(v, '.2f')] *)
Definition format_2f (v : pyval) : result string :=
  match v with
  | VBool _ | VInt _ | VFloat _ =>
      rbind (num v) (fun n => rbind (to_float n) (fun f => Ok (PyFloat.format_2f f)))
  | VStr _ => Raise ValueError
  | _ => Raise TypeError
  end.

(** [d.get(key)], [d.get(key, dflt)] and [d[key]] on a detection. *)
Definition get (d : gmap string pyval) (key : string) : pyval :=
  default VNone (d !! key).
Definition get_default (d : gmap string pyval) (key : string) (dflt : pyval) : pyval :=
  default dflt (d !! key).
Definition getitem (d : gmap string pyval) (key : string) : result pyval :=
  match d !! key with Some v => Ok v | None => Raise (KeyError key) end.

(** [v.get(key, dflt)] on a value: only dicts have the method. *)
Fixpoint assoc (d : list (string * pyval)) (key : string) : option pyval :=
  match d with
  | [] => None
  | (k, v) :: d' => if String.eqb k key then Some v else assoc d' key
  end.
Definition val_get (v : pyval) (key : string) (dflt : pyval) : result pyval :=
  match v with
  | VDict d => Ok (default dflt (assoc d key))
  | _ => Raise AttributeError
  end.

End Py.

(** ** Frames and the store

    A frame is a numpy array of shape [(height, width, 3)]; [pixel y x] is
    the colour at row [y], column [x]. *)

Definition colour : Type := Z * Z * Z.

Record image := {
  height : Z;
  width : Z;
  pixel : Z -> Z -> colour
}.

(** What the methods do to the outside world, in order. *)
Inductive event :=
  | Print (detection : gmap string pyval)
  | Ellipse (frame : nat) (center axes : Z * Z) (angle start_angle end_angle : Z)
      (col : colour) (thickness : Z)
  | Rectangle (frame : nat) (pt1 pt2 : Z * Z) (col : colour) (thickness : Z)
  | Line (frame : nat) (pt1 pt2 : Z * Z) (col : colour) (thickness : Z)
  | Circle (frame : nat) (center : Z * Z) (radius : Z) (col : colour) (thickness : Z)
  | PutText (frame : nat) (text : string) (org : Z * Z) (font_scale : pynum)
      (col : colour) (thickness : Z)
  | Resize (dsize : Z * Z)
  | Paste (frame : nat) (rows cols : Z * Z) (value : image)
  | Fill (frame : nat) (rows cols : Z * Z) (col : colour).

Record state := {
  heap : gmap nat image;
  trace : list event
}.

(** Computations that read and write the store, log what they draw and may
    raise. What was written before an exception stays written. *)
Definition M (A : Type) : Type := state -> state * result A.

Definition ret {A} (a : A) : M A := fun st => (st, Ok a).
Definition bind {A B} (m : M A) (k : A -> M B) : M B :=
  fun st => match m st with
            | (st', Ok a) => k a st'
            | (st', Raise e) => (st', Raise e)
            end.
Definition lift {A} (r : result A) : M A := fun st => (st, r).
Definition raise {A} (e : exn) : M A := lift (Raise e).

#[global] Instance M_ret : MRet M := @ret.
#[global] Instance M_bind : MBind M := fun A B k m => bind m k.
#[global] Instance result_ret : MRet result := @Ok.
#[global] Instance result_bind : MBind result := fun A B k r => rbind r k.

Fixpoint for_each {A} (l : list A) (body : A -> M unit) : M unit :=
  match l with
  | [] => ret tt
  | a :: l' => body a;; for_each l' body
  end.

Definition log (ev : event) : M unit :=
  fun st => ({| heap := heap st; trace := trace st ++ [ev] |}, Ok tt).

(** The array behind a reference. A Python reference always has one; a
    reference that is not in the store is reported as a [KeyError]. *)
Definition read (frame : nat) : M image :=
  fun st => match heap st !! frame with
            | Some img => (st, Ok img)
            | None => (st, Raise (KeyError "frame"))
            end.

Definition write (frame : nat) (img : image) : M unit :=
  fun st => ({| heap := <[frame := img]> (heap st); trace := trace st |}, Ok tt).

(** A new array, at a reference that is not in use. *)
Definition alloc (img : image) : M nat :=
  fun st => let r := fresh (dom (heap st)) in
            ({| heap := <[r := img]> (heap st); trace := trace st |}, Ok r).

(** Drawing in place keeps the shape of the array. *)
Definition draw (frame : nat) (px : image -> Z -> Z -> colour) : M unit :=
  img ← read frame;
  write frame {| height := height img; width := width img; pixel := px img |}.

Module np.

(** [frame.shape[:2]] *)
Definition shape (frame : nat) : M (Z * Z) :=
  img ← read frame; ret (height img, width img).

(** [frame.copy()] *)
Definition copy (frame : nat) : M nat :=
  img ← read frame; alloc img.

(** A bound of [a:b] on an axis of length [len]: negative bounds count from
    the end, and bounds outside the axis are clipped. *)
Definition bound (i len : Z) : Z :=
  if i <? 0 then Z.max (i + len) 0 else Z.min i len.

(** The first index and the number of indices [start:stop] selects. *)
Definition slice (start stop len : Z) : Z * Z :=
  let a := bound start len in
  let b := bound stop len in
  (a, Z.max 0 (b - a)).

Definition inside (sl : Z * Z) (i : Z) : bool :=
  (fst sl <=? i) && (i <? fst sl + snd sl).

(** [frame[r0:r1, c0:c1]] *)
Definition getslice (frame : nat) (r0 r1 c0 c1 : Z) : M image :=
  img ← read frame;
  let rs := slice r0 r1 (height img) in
  let cs := slice c0 c1 (width img) in
  ret {| height := snd rs; width := snd cs;
         pixel := fun y x => pixel img (fst rs + y) (fst cs + x) |}.

(** [frame[r0:r1, c0:c1] = col], a colour triple. *)
Definition setslice_colour (frame : nat) (r0 r1 c0 c1 : Z) (col : colour) : M unit :=
  img ← read frame;
  let rs := slice r0 r1 (height img) in
  let cs := slice c0 c1 (width img) in
  log (Fill frame rs cs col);;
  write frame {| height := height img; width := width img;
                 pixel := fun y x => if inside rs y && inside cs x then col
                                     else pixel img y x |}.

(** [frame[r0:r1, c0:c1] = value], an array: its shape has to broadcast to
    the shape of the selection. *)
Definition broadcasts (n target : Z) : bool := (n =? target) || (n =? 1).

Definition setslice_array (frame : nat) (r0 r1 c0 c1 : Z) (value : image) : M unit :=
  img ← read frame;
  let rs := slice r0 r1 (height img) in
  let cs := slice c0 c1 (width img) in
  if broadcasts (height value) (snd rs) && broadcasts (width value) (snd cs) then
    log (Paste frame rs cs value);;
    write frame {| height := height img; width := width img;
                   pixel := fun y x =>
                     if inside rs y && inside cs x
                     then pixel value (if height value =? 1 then 0 else y - fst rs)
                                      (if width value =? 1 then 0 else x - fst cs)
                     else pixel img y x |}
  else raise ValueError.

End np.

(** ** The drawing backend *)

(** The rasteriser: which colour each pixel has after a primitive was drawn
    on an image, how wide and high a text is, and how an image is resampled. *)
Class Cv2 := {
  getTextSize_raw : string -> Z -> spec_float -> Z -> Z * Z;
  ellipse_raw : (Z * Z) -> (Z * Z) -> Z -> Z -> Z -> colour -> Z -> image -> Z -> Z -> colour;
  rectangle_raw : (Z * Z) -> (Z * Z) -> colour -> Z -> image -> Z -> Z -> colour;
  line_raw : (Z * Z) -> (Z * Z) -> colour -> Z -> image -> Z -> Z -> colour;
  circle_raw : (Z * Z) -> Z -> colour -> Z -> image -> Z -> Z -> colour;
  putText_raw : string -> (Z * Z) -> Z -> spec_float -> colour -> Z -> Z -> image -> Z -> Z -> colour;
  resize_raw : image -> Z * Z -> Z -> Z -> colour
}.

(** [BboxUtils.calculate_center_point], imported by the file. *)
Class BboxUtils := {
  calculate_center_point : gmap string pyval -> result (pynum * pynum)
}.

Module cv2.
Section cv2.
Context `{Cv2}.

Definition FONT_HERSHEY_DUPLEX : Z := 2.
Definition LINE_8 : Z := 8.
Definition LINE_AA : Z := 16.

(** A font scale is passed as a double. *)
Definition as_double (n : pynum) : spec_float :=
  match n with NInt z => PyFloat.of_Z z | NFloat f => f end.

(** Every integer argument becomes a C [int]: a Python int outside its
    range is refused before anything is drawn. *)
Definition fits_int (z : Z) : bool := (-2147483648 <=? z) && (z <=? 2147483647).

Definition as_ints (l : list Z) : result unit :=
  if forallb fits_int l then Ok tt else Raise Cv2Error.

(** What the drawing functions assert of their arguments. *)
Definition MAX_THICKNESS : Z := 32767.

Definition CV_Assert (b : bool) : result unit := if b then Ok tt else Raise Cv2Error.

(** An argument that is [None] is left at its default: zero for a
    coordinate, the origin for a point, the empty string for a text. *)
Definition as_coordinate (v : pyval) : result Z :=
  match v with
  | VNone => Ok 0
  | VInt z => if fits_int z then Ok z else Raise Cv2Error
  | _ => Raise Cv2Error
  end.

(** A point is a sequence of two ints. *)
Definition as_point (v : pyval) : result (Z * Z) :=
  match v with
  | VNone => Ok (0, 0)
  | VTuple [a; b] | VList [a; b] =>
      x ← as_coordinate a; y ← as_coordinate b; Ok (x, y)
  | _ => Raise Cv2Error
  end.

Definition as_text (v : pyval) : result string :=
  match v with
  | VNone => Ok ""
  | VStr s => Ok s
  | _ => Raise Cv2Error
  end.

Definition getTextSize (text : string) (font : Z) (font_scale : pynum) (thickness : Z)
  : Z * Z :=
  getTextSize_raw text font (as_double font_scale) thickness.

Definition ellipse (frame : nat) (center axes : Z * Z) (angle start_angle end_angle : Z)
    (col : colour) (thickness : Z) : M unit :=
  lift (as_ints [fst center; snd center; fst axes; snd axes; thickness]);;
  lift (CV_Assert ((0 <=? fst axes) && (0 <=? snd axes) && (thickness <=? MAX_THICKNESS)));;
  log (Ellipse frame center axes angle start_angle end_angle col thickness);;
  draw frame (ellipse_raw center axes angle start_angle end_angle col thickness).

Definition rectangle (frame : nat) (pt1 pt2 : Z * Z) (col : colour) (thickness : Z)
  : M unit :=
  lift (as_ints [fst pt1; snd pt1; fst pt2; snd pt2; thickness]);;
  lift (CV_Assert (thickness <=? MAX_THICKNESS));;
  log (Rectangle frame pt1 pt2 col thickness);;
  draw frame (rectangle_raw pt1 pt2 col thickness).

Definition line (frame : nat) (pt1 pt2 : pyval) (col : colour) (thickness : Z) : M unit :=
  p1 ← lift (as_point pt1);
  p2 ← lift (as_point pt2);
  lift (as_ints [thickness]);;
  lift (CV_Assert ((0 <? thickness) && (thickness <=? MAX_THICKNESS)));;
  log (Line frame p1 p2 col thickness);;
  draw frame (line_raw p1 p2 col thickness).

Definition circle (frame : nat) (center : pyval) (radius : Z) (col : colour)
    (thickness : Z) : M unit :=
  c ← lift (as_point center);
  lift (as_ints [radius; thickness]);;
  lift (CV_Assert ((0 <=? radius) && (thickness <=? MAX_THICKNESS)));;
  log (Circle frame c radius col thickness);;
  draw frame (circle_raw c radius col thickness).

Definition putText (frame : nat) (text : string) (org : Z * Z) (font : Z)
    (font_scale : pynum) (col : colour) (thickness : Z) (line_type : Z) : M unit :=
  lift (as_ints [fst org; snd org; font; thickness; line_type]);;
  log (PutText frame text org font_scale col thickness);;
  draw frame (putText_raw text org font (as_double font_scale) col thickness line_type).

(** [cv2.resize(src, (w, h))]: a new array; an empty source or an empty
    target size is an error. *)
Definition resize (src : image) (dsize : Z * Z) : M image :=
  lift (as_ints [fst dsize; snd dsize]);;
  if (0 <? height src) && (0 <? width src) && (0 <? fst dsize) && (0 <? snd dsize) then
    log (Resize dsize);;
    ret {| height := snd dsize; width := fst dsize; pixel := resize_raw src dsize |}
  else raise Cv2Error.

End cv2.
End cv2.

(** ** Sequences and dict items *)

Module PySeq.

(** [len(v)] *)
Definition len (v : pyval) : result Z :=
  match v with
  | VList l | VTuple l => Ok (Z.of_nat (length l))
  | VStr s => Ok (Z.of_nat (String.length s))
  | VDict d => Ok (Z.of_nat (length d))
  | _ => Raise TypeError
  end.

(** [v[i]] for an int [i]; a negative index counts from the end. *)
Definition index (v : pyval) (i : Z) : result pyval :=
  match v with
  | VList l | VTuple l =>
      let j := if i <? 0 then i + Z.of_nat (length l) else i in
      if j <? 0 then Raise IndexError
      else match l !! Z.to_nat j with Some a => Ok a | None => Raise IndexError end
  | VStr s =>
      let j := if i <? 0 then i + Z.of_nat (String.length s) else i in
      if j <? 0 then Raise IndexError
      else match String.get (Z.to_nat j) s with
           | Some c => Ok (VStr (String c EmptyString))
           | None => Raise IndexError
           end
  | VDict _ => Raise (KeyError (pretty i))
  | _ => Raise TypeError
  end.

(** [a, b = v] *)
Definition unpack2 (v : pyval) : result (pyval * pyval) :=
  match v with
  | VList [a; b] | VTuple [a; b] => Ok (a, b)
  | VList _ | VTuple _ => Raise ValueError
  | VStr s =>
      match s with
      | String a (String b EmptyString) =>
          Ok (VStr (String a EmptyString), VStr (String b EmptyString))
      | _ => Raise ValueError
      end
  | VDict [(a, _); (b, _)] => Ok (VStr a, VStr b)
  | VDict _ => Raise ValueError
  | _ => Raise TypeError
  end.

(** [d[key]] on a dict of ints. *)
Definition item (d : gmap string Z) (key : string) : result Z :=
  match d !! key with Some z => Ok z | None => Raise (KeyError key) end.

End PySeq.

(** ** [Annotations.__init__]: the styling attributes *)

Module self.

Definition bbox_colours : gmap string colour :=
  {[ "standard" := (10, 255, 10);
     "offender" := (10, 10, 255);
     "trail" := (255, 10, 10) ]}.

Definition min_corner_radius : Z := 5.
Definition max_corner_radius : Z := 30.
Definition border_radius : Z := 6.
Definition center_point_radius : Z := 5.

Definition min_thickness : Z := 1.
Definition max_thickness : Z := 5.

Definition font : Z := cv2.FONT_HERSHEY_DUPLEX.
Definition font_scale : pynum := NInt 2.
Definition font_colour : colour := (255, 255, 255).
Definition font_thickness : Z := 2.

Definition bg_colour : colour := (0, 0, 0).

Definition label_padding : Z := 25.
Definition padding : Z := 64.

Definition trail_thickness : Z := 12.
Definition end_point_thickness : Z := 24.
Definition size_factor : spec_float := PyFloat.literal 5 10.
Definition thickness_factor : spec_float := PyFloat.literal 1 100.
Definition thickness : Z := 8.

End self.

(** The [while] loop of [fetch_text_properties] is run with this much fuel;
    the loop is shown below never to run out of it. *)
Definition loop_fuel : nat := 12.

(** ** The methods of [Annotations] *)

Section Annotations.
Context `{PyRuntime} `{Cv2} `{BboxUtils}.

Definition fetch_bbox_colour (detection : gmap string pyval) : colour :=
  let offender := Py.truth (Py.get_default detection "offender" (VBool false)) in
  if offender then self.bbox_colours !!! "offender" else self.bbox_colours !!! "standard".

(** The two drawing parameters [annotate_bbox_corners] derives from the
    size of a detection, its locals [corner_radius] and [thickness]. *)
Definition corner_radius (detection_size : Z) : result Z :=
  r ← Py.mul (NInt detection_size) (NFloat self.size_factor) ≫= Py.int;
  Ok (Z.max (Z.min r self.max_corner_radius) self.min_corner_radius).

Definition corner_thickness (detection_size : Z) : result Z :=
  t ← Py.mul (NInt detection_size) (NFloat self.thickness_factor) ≫= Py.int;
  Ok (Z.max (Z.min (t * 2) self.max_thickness) self.min_thickness).

Definition annotate_bbox_corners (frame : nat) (detection : gmap string pyval) : M nat :=
  x1 ← lift (Py.getitem detection "x1" ≫= Py.int_val);
  y1 ← lift (Py.getitem detection "y1" ≫= Py.int_val);
  x2 ← lift (Py.getitem detection "x2" ≫= Py.int_val);
  y2 ← lift (Py.getitem detection "y2" ≫= Py.int_val);
  let detection_size := Z.min (x2 - x1) (y2 - y1) in
  radius ← lift (corner_radius detection_size);
  thickness ← lift (corner_thickness detection_size);
  let colour := fetch_bbox_colour detection in
  let bbox_corners :=
    [ ((x1 + radius, y1 + radius), 180, 270);
      ((x1 + radius, y2 - radius), 90, 180);
      ((x2 - radius, y1 + radius), 270, 360);
      ((x2 - radius, y2 - radius), 0, 90) ] in
  for_each bbox_corners (fun '((center_x, center_y), start_angle, end_angle) =>
    cv2.ellipse frame (center_x, center_y) (radius, radius)
      0 start_angle end_angle colour thickness);;
  ret frame.

(** The loop of [fetch_text_properties]; [steps] counts the runs of its
    body. *)
Fixpoint shrink_to_fit (fuel : nat) (label : string) (max_text_width : Z)
    (min_font_scale : pynum) (text_size : Z * Z) (current_font_scale : pynum)
    (steps : nat) : result (Z * Z * pynum * nat) :=
  if (max_text_width <? fst text_size) && Py.gt current_font_scale min_font_scale then
    match fuel with
    | O => Raise LoopFuel
    | S fuel' =>
        current_font_scale ← Py.sub current_font_scale (NFloat (PyFloat.literal 1 10));
        let text_size :=
          cv2.getTextSize label self.font current_font_scale self.font_thickness in
        shrink_to_fit fuel' label max_text_width min_font_scale text_size
          current_font_scale (S steps)
    end
  else Ok (text_size, current_font_scale, steps).

Definition fetch_text_properties (label : string) (frame : nat) : M (Z * Z * pynum) :=
  let current_font_scale := self.font_scale in
  let min_font_scale := NFloat (PyFloat.literal 8 10) in
  '(_, frame_width) ← np.shape frame;
  let max_text_width := frame_width - self.label_padding * 2 in
  let text_size :=
    cv2.getTextSize label self.font current_font_scale self.font_thickness in
  '(text_size, current_font_scale, _) ←
    lift (shrink_to_fit loop_fuel label max_text_width min_font_scale text_size
            current_font_scale 0);
  ret (text_size, current_font_scale).

Definition calculate_label_position (bbox_bottom : Z) (center_point : pynum * pynum)
    (text_size : Z * Z) : result (gmap string Z) :=
  let '(text_width, text_height) := text_size in
  x ← Py.sub (fst center_point) (NInt (text_width `div` 2)) ≫= Py.int;
  Ok ({[ "x" := x;
         "y" := bbox_bottom + text_height + self.label_padding;
         "width" := text_width + 2 * self.label_padding;
         "height" := text_height + 2 * self.label_padding ]} : gmap string Z).

Definition get_label_dimensions (label : string) (frame : nat) : M (Z * Z) :=
  '(text_width, text_height, _) ← fetch_text_properties label frame;
  let box_width := text_width + 2 * self.label_padding in
  let box_height := text_height + 2 * self.label_padding in
  ret (box_width, box_height).

Definition draw_label_background (frame : nat) (position : gmap string Z) : M nat :=
  x ← lift (PySeq.item position "x");
  y ← lift (PySeq.item position "y");
  w ← lift (PySeq.item position "width");
  h ← lift (PySeq.item position "height");
  cv2.rectangle frame (x + self.border_radius, y) (x + w - self.border_radius, y + h)
    self.bg_colour (-1);;
  cv2.rectangle frame (x, y + self.border_radius) (x + w, y + h - self.border_radius)
    self.bg_colour (-1);;
  let label_corners :=
    [ (x + self.border_radius, y + self.border_radius, 180, 270);
      (x + w - self.border_radius, y + self.border_radius, 270, 360);
      (x + self.border_radius, y + h - self.border_radius, 90, 180);
      (x + w - self.border_radius, y + h - self.border_radius, 0, 90) ] in
  for_each label_corners (fun '(center_x, center_y, start_angle, end_angle) =>
    cv2.ellipse frame (center_x, center_y) (self.border_radius, self.border_radius)
      0 start_angle end_angle self.bg_colour (-1));;
  ret frame.

Definition draw_label_text (frame : nat) (label : string) (position : gmap string Z)
    (text_size : Z * Z) (font_scale : pynum) : M nat :=
  x ← lift (PySeq.item position "x");
  let text_x := x + self.label_padding in
  y ← lift (PySeq.item position "y");
  let text_y := y + snd text_size + self.label_padding in
  cv2.putText frame label (text_x, text_y) self.font font_scale self.font_colour
    self.font_thickness cv2.LINE_AA;;
  ret frame.

Definition create_label (detection : gmap string pyval) (vision_type : string)
    (captured_at : pyval) : result string :=
  id ← Py.str (Py.get detection "ID");
  classname ← Py.str (Py.get detection "classname");
  confidence ← Py.format_2f (Py.get detection "confidence_score");
  let object_detection :=
    "ID: " +:+ id +:+ " | Class: " +:+ classname +:+
    " | Confidence Score: " +:+ confidence in
  id ← Py.str (Py.get detection "ID");
  let object_tracking := "ID: " +:+ id in
  id ← Py.str (Py.get detection "ID");
  speed ← Py.str (Py.get detection "speed");
  let speed_estimation := "ID: " +:+ id +:+ " | Speed: " +:+ speed +:+ "mph" in
  id ← Py.str (Py.get detection "ID");
  plate ← Py.val_get (Py.get_default detection "license_plate" (VDict [])) "plate_text"
            (VStr "") ≫= Py.str;
  let plate_reading := "ID: " +:+ id +:+ " | Plate: " +:+ plate in
  id ← Py.str (Py.get detection "ID");
  captured ← Py.str captured_at;
  speed ← Py.str (Py.get detection "speed");
  let traffic_violation :=
    "ID: " +:+ id +:+ " | Captured: " +:+ captured +:+ " | Speed: " +:+ speed +:+ "mph" in
  let detection_labels : gmap string string :=
    {[ "object_detection" := object_detection;
       "object_tracking" := object_tracking;
       "speed_estimation" := speed_estimation;
       "plate_reading" := plate_reading;
       "traffic_violation" := traffic_violation ]} in
  Ok (default "object_detection" (detection_labels !! vision_type)).

Definition annotate_center_point (frame : nat) (center_point : pyval) : M nat :=
  '(center_x, center_y) ← lift (PySeq.unpack2 center_point);
  cv2.circle frame (VTuple [center_x; center_y]) self.center_point_radius
    (self.bbox_colours !!! "offender") self.thickness;;
  ret frame.

Definition annotate_center_point_trail (frame : nat) (center_points : pyval) : M nat :=
  n ← lift (PySeq.len center_points);
  if n <? 2 then ret frame
  else
    for_each (seqZ 1 (n - 1)) (fun x =>
      p ← lift (PySeq.index center_points (x - 1));
      q ← lift (PySeq.index center_points x);
      cv2.line frame p q (self.bbox_colours !!! "trail") self.trail_thickness);;
    first ← lift (PySeq.index center_points 0);
    annotate_center_point frame first;;
    last ← lift (PySeq.index center_points (-1));
    annotate_center_point frame last;;
    ret frame.

Definition annotate_label (frame : nat) (detection : gmap string pyval)
    (vision_type : string) : M nat :=
  detection_label ← lift (create_label detection vision_type VNone);
  y2 ← lift (Py.getitem detection "y2" ≫= Py.int_val);
  '(center_x, center_y) ← lift (calculate_center_point detection);
  frame ← (if String.eqb vision_type "object_tracking"
           then annotate_center_point_trail frame
                  (Py.get_default detection "center_points" (VList []))
           else ret frame);
  '(text_size, font_scale) ← fetch_text_properties detection_label frame;
  label_position ← lift (calculate_label_position y2 (center_x, center_y) text_size);
  frame ← draw_label_background frame label_position;
  frame ← draw_label_text frame detection_label label_position text_size font_scale;
  ret frame.

Fixpoint annotate_frame (frame : nat) (detections : list (gmap string pyval))
    (vision_type : string) : M nat :=
  match detections with
  | [] => ret frame
  | detection :: detections =>
      frame ← annotate_bbox_corners frame detection;
      frame ← annotate_label frame detection vision_type;
      annotate_frame frame detections vision_type
  end.

(** [print('captured detection', detection)]: the call starts to write, and
    raises if the detection cannot be written. *)
Definition print (detection : gmap string pyval) : M unit :=
  log (Print detection);;
  lift (Py.str (VDict (map_to_list detection)));;
  ret tt.

Definition capture_traffic_violation (frame : nat) (detection : gmap string pyval)
    (captured_at : pyval) : M nat :=
  print detection;;
  license_plate ← lift (Py.val_get (Py.get_default detection "license_plate" (VDict []))
                          "plate_text" (VStr ""));
  x1 ← lift (Py.getitem detection "x1");
  x2 ← lift (Py.getitem detection "x2");
  y1 ← lift (Py.getitem detection "y1");
  y2 ← lift (Py.getitem detection "y2");
  captured_frame ← np.copy frame;
  annotated_frame ← annotate_bbox_corners captured_frame detection;
  '(h, w) ← np.shape annotated_frame;
  padded_x1 ← lift (d ← Py.sub_val x1 (NInt self.padding); Py.int (Py.max (NInt 0) d));
  padded_y1 ← lift (d ← Py.sub_val y1 (NInt self.padding); Py.int (Py.max (NInt 0) d));
  padded_x2 ← lift (d ← Py.add_val x2 (NInt self.padding); Py.int (Py.min (NInt w) d));
  padded_y2 ← lift (d ← Py.add_val y2 (NInt self.padding); Py.int (Py.min (NInt h) d));
  cropped_frame ← np.getslice annotated_frame
                    padded_y1 (padded_y2 + self.padding)
                    padded_x1 (padded_x2 + self.padding);
  let overlay_width := w `div` 4 in
  overlay_height ← lift (
    ratio ← Py.truediv (NInt overlay_width) (NInt (padded_x2 - padded_x1));
    Py.mul (NInt (padded_y2 - padded_y1)) ratio ≫= Py.int);
  upscaled_cropped_frame ← cv2.resize cropped_frame (overlay_width, overlay_height);
  let overlay_x := w - overlay_width - self.padding in
  let overlay_y := self.padding in
  (if (overlay_y + overlay_height <=? h) && (overlay_x + overlay_width <=? w)
   then np.setslice_array annotated_frame
          overlay_y (overlay_y + overlay_height)
          overlay_x (overlay_x + overlay_width) upscaled_cropped_frame
   else ret tt);;
  '(frame_height, _) ← np.shape annotated_frame;
  let plate_label_bg_height := frame_height `div` 14 in
  let plate_label_bg_y := overlay_y + overlay_height - plate_label_bg_height in
  let plate_label_bg_x := overlay_x in
  let plate_label_bg_width := overlay_width in
  np.setslice_colour annotated_frame
    plate_label_bg_y (overlay_y + overlay_height)
    plate_label_bg_x (overlay_x + overlay_width) (0, 0, 0);;
  license_plate ← lift (cv2.as_text license_plate);
  '(plate_text_width, plate_text_height, plate_font_scale) ←
    fetch_text_properties license_plate annotated_frame;
  let text_x := plate_label_bg_x + (plate_label_bg_width - plate_text_width) `div` 2 in
  let text_y := plate_label_bg_y + (plate_label_bg_height + plate_text_height) `div` 2 in
  cv2.putText annotated_frame license_plate (text_x, text_y) self.font plate_font_scale
    self.font_colour self.font_thickness cv2.LINE_8;;
  label ← lift (create_label detection "traffic_violation" captured_at);
  '(label_text_width, label_text_height, label_font_scale) ←
    fetch_text_properties label annotated_frame;
  let label_height := label_text_height + self.padding * 2 in
  let label_y1 := h - label_height in
  np.setslice_colour annotated_frame label_y1 h 0 w (0, 0, 0);;
  let bg_cx := w `div` 2 in
  let bg_cy := label_y1 + label_height `div` 2 in
  let label_pos_x1 := bg_cx - (label_text_width `div` 2) in
  let label_pos_y1 := bg_cy + label_text_height `div` 2 in
  cv2.putText annotated_frame label (label_pos_x1, label_pos_y1) self.font
    label_font_scale self.font_colour self.font_thickness cv2.LINE_8;;
  ret annotated_frame.

End Annotations.

(** ** A test double for the collaborators

    Text is [20 * scale] pixels wide per character and [22 * scale] pixels
    high, drawing primitives leave the pixels as they are, and resizing
    samples the nearest pixel. *)

Module Fake.

#[local] Instance runtime : PyRuntime := {|
  runtime_repr := fun _ => "?";
  int_of_str := fun _ => None
|}.

Definition scaled (n : Z) (font_scale : spec_float) : Z :=
  default 0 (PyFloat.trunc (PyFloat.mul (PyFloat.of_Z n) font_scale)).

#[local] Instance canvas : Cv2 := {|
  getTextSize_raw := fun text _ font_scale _ =>
    (scaled (20 * Z.of_nat (String.length text)) font_scale, scaled 22 font_scale);
  ellipse_raw := fun _ _ _ _ _ _ _ img => pixel img;
  rectangle_raw := fun _ _ _ _ img => pixel img;
  line_raw := fun _ _ _ _ img => pixel img;
  circle_raw := fun _ _ _ _ img => pixel img;
  putText_raw := fun _ _ _ _ _ _ _ img => pixel img;
  resize_raw := fun src dsize y x =>
    pixel src (y * height src `div` snd dsize) (x * width src `div` fst dsize)
|}.

#[local] Instance bbox_utils : BboxUtils := {|
  calculate_center_point := fun detection =>
    x1 ← Py.getitem detection "x1" ≫= Py.num;
    y1 ← Py.getitem detection "y1" ≫= Py.num;
    x2 ← Py.getitem detection "x2" ≫= Py.num;
    y2 ← Py.getitem detection "y2" ≫= Py.num;
    sx ← Py.add x1 x2;
    sy ← Py.add y1 y2;
    cx ← Py.truediv sx (NInt 2);
    cy ← Py.truediv sy (NInt 2);
    Ok (cx, cy)
|}.

(** A black frame of the given shape, alone in the store at reference 0. *)
Definition black (h w : Z) : image :=
  {| height := h; width := w; pixel := fun _ _ => (0, 0, 0) |}.

Definition store (img : image) : state :=
  {| heap := {[ 0%nat := img ]}; trace := [] |}.

Definition car (x1 y1 x2 y2 : Z) : gmap string pyval :=
  {[ "ID" := VInt 1; "classname" := VStr "car";
     "confidence_score" := VFloat (PyFloat.literal 9 10);
     "x1" := VInt x1; "y1" := VInt y1; "x2" := VInt x2; "y2" := VInt y2 ]}.

End Fake.

(** ** The written specification, for comparison

    The specification words the stroke thickness of a corner box as
    [clamp(round(size * 0.01) * 2, [min_thickness, max_thickness])]. *)

Definition clamp (v lo hi : Z) : Z := Z.max (Z.min v hi) lo.

(** [size * 0.01] rounded to the nearest integer, ties to even. *)
Definition round_hundredth (size : Z) : Z :=
  let q := size `div` 100 in
  let r := size `mod` 100 in
  if (50 <? r) || ((r =? 50) && Z.odd q) then q + 1 else q.

Definition spec_thickness (size : Z) : Z :=
  clamp (round_hundredth size * 2) self.min_thickness self.max_thickness.

(** A label box is centred on [center_x] when its two vertical edges are
    equally far from it. *)
Definition centred_on (position : gmap string Z) (center_x : Z) : Prop :=
  exists x w, position !! "x" = Some x /\ position !! "width" = Some w /\
              center_x - x = x + w - center_x.

(** The vision types [create_label] has a template for. *)
Definition vision_types : list string :=
  [ "object_detection"; "object_tracking"; "speed_estimation"; "plate_reading";
    "traffic_violation" ].

(** ** Reasoning about the store

    [touches r m Q]: running [m] leaves every array but the one at [r] as it
    was, keeps [r] allocated, and a returned value satisfies [Q]. *)


(** Exhaustive checking of an integer interval. *)
Fixpoint all_from (n : nat) (z : Z) (f : Z -> bool) : bool :=
  match n with
  | O => true
  | S n' => f z && all_from n' (z + 1) f
  end.

Definition Ok_eqb (r : result Z) (z : Z) : bool :=
  match r with Ok a => a =? z | Raise _ => false end.

(** The font scales the loop of [fetch_text_properties] goes through:
    [shrinks floor s l] when the scales after [s] are [l], each [0.1] below
    the one before, and the loop stops at the last of them at the latest. *)
Inductive shrinks (floor : pynum) : pynum -> list pynum -> Prop :=
  | shrinks_stop s :
      Py.gt s floor = false -> shrinks floor s []
  | shrinks_step s s' l :
      Py.gt s floor = true ->
      Py.sub s (NFloat (PyFloat.literal 1 10)) = Ok s' ->
      shrinks floor s' l ->
      shrinks floor s (s' :: l).

(** The twelve doubles obtained from 2 by subtracting [0.1] again and
    again. *)
Definition scales_below_2 : list pynum :=
  Eval vm_compute in
    (fix go (n : nat) (s : spec_float) : list pynum :=
       match n with
       | O => []
       | S n' => let s' := PyFloat.sub s (PyFloat.literal 1 10) in NFloat s' :: go n' s'
       end) 12%nat (PyFloat.of_Z 2).

(** ** Reading the log of drawing operations *)

(** The array an operation draws on, if it draws. *)
Definition event_frame (ev : event) : option nat :=
  match ev with
  | Print _ | Resize _ => None
  | Ellipse f _ _ _ _ _ _ _ | Rectangle f _ _ _ _ | Line f _ _ _ _
  | Circle f _ _ _ _ | PutText f _ _ _ _ _ | Paste f _ _ _ | Fill f _ _ _ => Some f
  end.

(** The pixels a rectangle or an elliptic arc can reach: the rectangle
    itself, and the box around the full ellipse. *)
Definition event_box (ev : event) : option (Z * Z * Z * Z) :=
  match ev with
  | Rectangle _ (a, b) (c, d) _ _ => Some (a, b, c, d)
  | Ellipse _ (cx, cy) (ax, ay) _ _ _ _ _ => Some (cx - ax, cy - ay, cx + ax, cy + ay)
  | _ => None
  end.

Definition within (x y w h : Z) (ev : event) : Prop :=
  match event_box ev with
  | Some (a, b, c, d) => x <= a /\ a <= c /\ c <= x + w /\ y <= b /\ b <= d /\ d <= y + h
  | None => True
  end.

Definition is_trail_event (ev : event) : bool :=
  match ev with Line _ _ _ _ _ | Circle _ _ _ _ _ => true | _ => false end.

(** A point both coordinates of which fit a C [int]. *)
Definition fits_point (p : Z * Z) : bool := cv2.fits_int (fst p) && cv2.fits_int (snd p).

(** A centre point as the tracker stores it, and the segments of a trail. *)
Definition point_val (p : Z * Z) : pyval := VTuple [VInt (fst p); VInt (snd p)].

Fixpoint segments (points : list (Z * Z)) : list ((Z * Z) * (Z * Z)) :=
  match points with
  | p :: (q :: _) as rest => (p, q) :: segments rest
  | _ => []
  end.

(** The values [format(v, '.2f')] accepts: floats, bools, and ints that a
    double can hold. *)
Definition has_2f (v : pyval) : bool :=
  match v with
  | VBool _ | VFloat _ => true
  | VInt z => PyFloat.is_finite (PyFloat.of_Z z)
  | _ => false
  end.

(** An operation that draws, draws on [r]. *)
Definition on (r : nat) (ev : event) : Prop :=
  forall f, event_frame ev = Some f -> f = r.

(** [acts r P m Q]: running [m] leaves every array but the one at [r] as it
    was, logs only operations that satisfy [P], and a returned value
    satisfies [Q]. *)
Definition acts {A} (r : nat) (P : event -> Prop) (m : M A) (Q : A -> Prop) : Prop :=
  forall st st' res, m st = (st', res) ->
    (forall k, k <> r -> heap st' !! k = heap st !! k) /\
    (exists evs, trace st' = (trace st ++ evs)%list /\ Forall P evs) /\
    (forall a, res = Ok a -> Q a).

(** * Properties *)

Section Properties.
Context {runtime : PyRuntime} {canvas : Cv2} {bbox_utils : BboxUtils}.

(** ** The store discipline of the drawing primitives *)


























(** ** The methods and the store *)



Lemma bind_run {A B} (m : M A) (k : A -> M B) st :
  (m ≫= k) st = match m st with
                | (st1, Ok a) => k a st1
                | (st1, Raise e) => (st1, Raise e)
                end.
Proof. reflexivity. Qed.

Lemma lift_bind_run {A B} (v : result A) (k : A -> M B) st :
  (lift v ≫= k) st = match v with Ok a => k a st | Raise e => (st, Raise e) end.
Proof. rewrite bind_run. unfold lift. destruct v; reflexivity. Qed.

(** The call to [print] adds its event to the log and nothing else; it
    raises [ValueError] or returns. *)
Lemma print_run (detection : gmap string pyval) (st : state) :
  exists res,
    print detection st
      = ({| heap := heap st; trace := trace st ++ [Print detection] |}, res) /\
    (res = Ok tt \/ res = Raise ValueError).
Proof.
  unfold print. rewrite bind_run. cbn [log]. rewrite lift_bind_run.
  unfold Py.str.
  destruct (Py.printable (VDict (map_to_list detection))); eauto.
Qed.


(** The right edge of the overlay is [padding] left of the right edge of the
    frame, whatever the frame: the second half of the guard before the paste
    always holds. *)
Lemma overlay_right_edge (w : Z) :
  let overlay_width := w `div` 4 in
  let overlay_x := w - overlay_width - self.padding in
  (overlay_x + overlay_width <=? w) = true /\
  (0 <= overlay_x <-> 85 <= w).
Proof.
  cbv zeta. unfold self.padding. split.
  - apply Z.leb_le. lia.
  - pose proof (Z.div_mod w 4 ltac:(lia)).
    pose proof (Z.mod_pos_bound w 4 ltac:(lia)). lia.
Qed.

(** ** Frames that are returned as they came *)

(** C10. With no detections the loop body of [annotate_frame] never runs:
    the call returns the frame it was given, and neither the store nor the
    log of drawing operations changes. *)
Theorem annotate_frame_no_detections (frame : nat) (vision_type : string) (st : state) :
  annotate_frame frame [] vision_type st = (st, Ok frame).
Proof. reflexivity. Qed.

(** C9. A trail of fewer than two centre points is not drawn: the call
    returns the frame it was given, no line and no end-point marker is
    logged, and the store is unchanged. *)
Theorem annotate_center_point_trail_short
    (frame : nat) (center_points : list pyval) (st : state) :
  (length center_points < 2)%nat ->
  annotate_center_point_trail frame (VList center_points) st = (st, Ok frame).
Proof.
  intros Hlen. unfold annotate_center_point_trail.
  rewrite lift_bind_run. cbn [PySeq.len].
  destruct (Z.ltb_spec (Z.of_nat (length center_points)) 2) as [_ | Hge].
  - reflexivity.
  - lia.
Qed.

(** ** The shrink-to-fit loop *)

Lemma shrink_to_fit_eq fuel label max_text_width floor text_size scale steps :
  shrink_to_fit fuel label max_text_width floor text_size scale steps =
  if (max_text_width <? fst text_size) && Py.gt scale floor then
    match fuel with
    | O => Raise LoopFuel
    | S fuel' =>
        Py.sub scale (NFloat (PyFloat.literal 1 10)) ≫= fun scale' =>
        shrink_to_fit fuel' label max_text_width floor
          (cv2.getTextSize label self.font scale' self.font_thickness) scale' (S steps)
    end
  else Ok (text_size, scale, steps).
Proof. destruct fuel; reflexivity. Qed.

(** Along a chain of scales the loop needs no more fuel than the chain is
    long, whatever the text measures. *)
Lemma shrink_to_fit_along floor scale chain :
  shrinks floor scale chain ->
  forall fuel label max_text_width text_size steps,
    (length chain <= fuel)%nat ->
    exists text_size' scale' steps',
      shrink_to_fit fuel label max_text_width floor text_size scale steps
        = Ok (text_size', scale', steps') /\
      (steps' <= steps + length chain)%nat /\
      (scale' = scale \/ scale' ∈ chain) /\
      (fst text_size' <= max_text_width \/ Py.gt scale' floor = false).
Proof.
  induction 1 as [s Hstop | s s' l Hgo Hsub _ IH];
    intros fuel label max_text_width text_size steps Hfuel;
    rewrite shrink_to_fit_eq.
  - rewrite Hstop, andb_false_r.
    exists text_size, s, steps. repeat split; auto. lia.
  - rewrite Hgo, andb_true_r.
    destruct (Z.ltb_spec max_text_width (fst text_size)) as [Hwide | Hfits].
    + destruct fuel as [| fuel']; [simpl in Hfuel; lia |].
      rewrite Hsub. cbn [mbind result_bind rbind].
      destruct (IH fuel' label max_text_width
                  (cv2.getTextSize label self.font s' self.font_thickness) (S steps))
        as (ts' & sc' & n' & E & Hn & Hsc & Hend).
      { simpl in Hfuel. lia. }
      exists ts', sc', n'. rewrite E. repeat split; auto.
      * simpl. lia.
      * right. destruct Hsc as [-> | Hin]; [left | right; assumption].
    + exists text_size, s, steps. repeat split; auto. lia.
Qed.

Lemma shrinks_from_2 :
  shrinks (NFloat (PyFloat.literal 8 10)) self.font_scale scales_below_2.
Proof.
  unfold scales_below_2.
  repeat (first [ apply shrinks_stop; vm_compute; reflexivity
                | apply shrinks_step;
                  [ vm_compute; reflexivity | vm_compute; reflexivity | ] ]).
Qed.

(** C7. Whatever the label, the frame width and the text sizes the backend
    reports, the loop of [fetch_text_properties] runs its body at most
    [(2 - 0.8) / 0.1 = 12] times: started as the method starts it, with twelve
    units of fuel or more, it returns, and it counts at most 12 steps. *)
Theorem shrink_to_fit_terminates (label : string) (max_text_width : Z) (extra : nat) :
  exists text_size scale steps,
    shrink_to_fit (loop_fuel + extra) label max_text_width
      (NFloat (PyFloat.literal 8 10))
      (cv2.getTextSize label self.font self.font_scale self.font_thickness)
      self.font_scale 0
    = Ok (text_size, scale, steps) /\ (steps <= 12)%nat.
Proof.
  destruct (shrink_to_fit_along _ _ _ shrinks_from_2 (loop_fuel + extra) label
              max_text_width
              (cv2.getTextSize label self.font self.font_scale self.font_thickness) 0)
    as (ts & sc & n & E & Hn & _).
  { unfold loop_fuel. simpl. lia. }
  exists ts, sc, n. split; [exact E | simpl in Hn; lia].
Qed.

Lemma last_cons {A} (l : list A) (a d : A) : List.last (a :: l) d = List.last l a.
Proof.
  revert a d. induction l as [| b l IH]; intros a d; [reflexivity |].
  change (List.last (a :: b :: l) d) with (List.last (b :: l) d).
  rewrite !IH. reflexivity.
Qed.

(** When the text is too wide at every scale, the loop goes to the end of
    the chain. *)
Lemma shrink_to_fit_too_wide floor scale chain :
  shrinks floor scale chain ->
  forall fuel label max_text_width text_size steps,
    (length chain <= fuel)%nat ->
    max_text_width < fst text_size ->
    (forall s, max_text_width
               < fst (cv2.getTextSize label self.font s self.font_thickness)) ->
    exists text_size',
      shrink_to_fit fuel label max_text_width floor text_size scale steps
        = Ok (text_size', List.last chain scale, (steps + length chain)%nat).
Proof.
  induction 1 as [s Hstop | s s' l Hgo Hsub _ IH];
    intros fuel label max_text_width text_size steps Hfuel Hwide Hall;
    rewrite shrink_to_fit_eq.
  - rewrite Hstop, andb_false_r. exists text_size. simpl.
    rewrite Nat.add_0_r. reflexivity.
  - rewrite Hgo, andb_true_r.
    destruct (Z.ltb_spec max_text_width (fst text_size)) as [_ | Hfits]; [| lia].
    destruct fuel as [| fuel']; [simpl in Hfuel; lia |].
    rewrite Hsub. cbn [mbind result_bind rbind].
    destruct (IH fuel' label max_text_width
                (cv2.getTextSize label self.font s' self.font_thickness) (S steps))
      as (ts' & E); [simpl in Hfuel; lia | apply Hall | exact Hall |].
    exists ts'. rewrite E, last_cons.
    replace (S steps + length l)%nat with (steps + length (s' :: l))%nat
      by (simpl; lia).
    reflexivity.
Qed.

(** Whatever the backend, a label that it measures too wide at every scale
    comes back with the last double of the chain, which is below [0.8]. *)
Lemma fetch_text_properties_too_wide label frame img st :
  heap st !! frame = Some img ->
  (forall s, width img - self.label_padding * 2
             < fst (cv2.getTextSize label self.font s self.font_thickness)) ->
  let scale := NFloat (S754_finite false 7205759403792787 (-53)) in
  Py.lt scale (NFloat (PyFloat.literal 8 10)) = true /\
  exists text_size,
    fetch_text_properties label frame st = (st, Ok (text_size, scale)).
Proof.
  intros Hframe Hwide scale. split; [vm_compute; reflexivity |].
  unfold fetch_text_properties.
  rewrite bind_run. unfold np.shape. rewrite bind_run. unfold read. rewrite Hframe.
  cbn [mret M_ret ret].
  rewrite lift_bind_run.
  destruct (shrink_to_fit_too_wide _ _ _ shrinks_from_2 loop_fuel label
              (width img - self.label_padding * 2)
              (cv2.getTextSize label self.font self.font_scale self.font_thickness) 0)
    as (ts & E); [unfold loop_fuel; simpl; lia | apply Hwide | exact Hwide |].
  rewrite E. exists ts. reflexivity.
Qed.

(** What [fetch_text_properties] returns on a frame of the store: it never
    runs out of fuel, it leaves the store alone, the text fits unless the
    scale is no longer above [0.8], and the scale is 2 or one of the twelve
    doubles below it. *)
Lemma fetch_text_properties_returns label frame img st :
  heap st !! frame = Some img ->
  exists text_size scale,
    fetch_text_properties label frame st = (st, Ok (text_size, scale)) /\
    (fst text_size <= width img - 2 * self.label_padding \/
     Py.gt scale (NFloat (PyFloat.literal 8 10)) = false) /\
    (scale = self.font_scale \/ scale ∈ scales_below_2).
Proof.
  intros Hframe. unfold fetch_text_properties.
  rewrite bind_run. unfold np.shape. rewrite bind_run. unfold read. rewrite Hframe.
  cbn [mret M_ret ret].
  rewrite lift_bind_run.
  destruct (shrink_to_fit_along _ _ _ shrinks_from_2 loop_fuel label
              (width img - self.label_padding * 2)
              (cv2.getTextSize label self.font self.font_scale self.font_thickness) 0)
    as (ts & sc & n & E & _ & Hsc & Hend).
  { unfold loop_fuel. simpl. lia. }
  rewrite E. exists ts, sc. split; [reflexivity |].
  split; [| exact Hsc].
  destruct Hend as [Hfit | Hfloor]; [left; lia | right; exact Hfloor].
Qed.

(** ** Corner boxes *)

Lemma all_from_spec (f : Z -> bool) (n : nat) (z : Z) :
  all_from n z f = true -> forall k, z <= k < z + Z.of_nat n -> f k = true.
Proof.
  revert z. induction n as [| n IH]; intros z Hall k Hk.
  - simpl in Hk. lia.
  - simpl in Hall. apply andb_prop in Hall as [Hz Hrest].
    destruct (Z.eq_dec k z) as [-> | Hne]; [exact Hz |].
    apply (IH (z + 1) Hrest). lia.
Qed.

Lemma Ok_eqb_eq (r : result Z) (z : Z) : Ok_eqb r z = true -> r = Ok z.
Proof.
  destruct r as [a | e]; simpl; [| discriminate].
  intros E. apply Z.eqb_eq in E. congruence.
Qed.

(** On sizes up to ten thousand pixels either way, [int(size * 0.5)] and
    [int(size * 0.01)] in double arithmetic are the quotients [size / 2] and
    [size / 100] truncated toward zero (every size is checked). *)
Lemma corner_parameters (size : Z) :
  -10000 <= size <= 10000 ->
  corner_radius size = Ok (clamp (size `quot` 2) 5 30) /\
  corner_thickness size = Ok (clamp (size `quot` 100 * 2) 1 5).
Proof.
  intros Hsize.
  assert (Hall : all_from (Z.to_nat 20001) (-10000)
            (fun z => Ok_eqb (corner_radius z) (clamp (z `quot` 2) 5 30) &&
                      Ok_eqb (corner_thickness z) (clamp (z `quot` 100 * 2) 1 5)) = true)
    by (vm_compute; reflexivity).
  pose proof (all_from_spec _ _ _ Hall size) as Hk. cbv beta in Hk.
  rewrite Z2Nat.id in Hk by lia.
  destruct (andb_prop _ _ (Hk ltac:(lia))) as [Hr Ht].
  split; apply Ok_eqb_eq; assumption.
Qed.

(** ** Double arithmetic on integers *)

Lemma digits2_pos_bounds (p : positive) :
  2 ^ (Zpos (digits2_pos p) - 1) <= Zpos p < 2 ^ Zpos (digits2_pos p).
Proof.
  induction p as [p IH | p IH |]; cbn [digits2_pos].
  - rewrite Pos2Z.inj_succ, (Pos2Z.inj_xI p).
    replace (Z.succ (Zpos (digits2_pos p)) - 1) with (Z.succ (Zpos (digits2_pos p) - 1))
      by lia.
    rewrite !Z.pow_succ_r by lia. lia.
  - rewrite Pos2Z.inj_succ, (Pos2Z.inj_xO p).
    replace (Z.succ (Zpos (digits2_pos p)) - 1) with (Z.succ (Zpos (digits2_pos p) - 1))
      by lia.
    rewrite !Z.pow_succ_r by lia. lia.
  - cbn. lia.
Qed.

Lemma digits2_pos_unique (p : positive) (d : Z) :
  2 ^ (d - 1) <= Zpos p < 2 ^ d -> Zpos (digits2_pos p) = d.
Proof.
  intros [Hlo Hhi]. pose proof (digits2_pos_bounds p) as [Blo Bhi].
  destruct (Z.lt_trichotomy (Zpos (digits2_pos p)) d) as [Hlt | [Heq | Hgt]];
    [| exact Heq |].
  - assert (2 ^ Zpos (digits2_pos p) <= 2 ^ (d - 1))
      by (apply Z.pow_le_mono_r; lia).
    lia.
  - assert (0 <= d).
    { destruct (Z.lt_ge_cases d 0) as [Hneg | Hpos]; [| exact Hpos].
      rewrite (Z.pow_neg_r 2 d Hneg) in Hhi. lia. }
    assert (2 ^ d <= 2 ^ (Zpos (digits2_pos p) - 1))
      by (apply Z.pow_le_mono_r; lia).
    lia.
Qed.

Lemma shr_1_m (mrs : shr_record) :
  0 <= shr_m mrs -> shr_m (shr_1 mrs) = shr_m mrs / 2.
Proof.
  destruct mrs as [m r s]. cbn [shr_m]. intros Hm.
  rewrite <- Z.div2_div.
  destruct m as [| [p | p |] | p]; try reflexivity; lia.
Qed.

Lemma iter_shr_1_m (n : positive) (mrs : shr_record) :
  0 <= shr_m mrs ->
  shr_m (SpecFloat.iter_pos shr_1 n mrs) = shr_m mrs / 2 ^ Zpos n.
Proof.
  revert mrs. induction n as [n IH | n IH |]; intros mrs Hm; cbn [SpecFloat.iter_pos].
  - assert (H1 : 0 <= shr_m (shr_1 mrs))
      by (rewrite shr_1_m by exact Hm; apply Z.div_pos; lia).
    assert (H2 : 0 <= shr_m (SpecFloat.iter_pos shr_1 n (shr_1 mrs)))
      by (rewrite IH by exact H1; apply Z.div_pos; [exact H1 | apply Z.pow_pos_nonneg; lia]).
    rewrite IH by exact H2. rewrite IH by exact H1. rewrite shr_1_m by exact Hm.
    assert (0 < 2 ^ Zpos n) by (apply Z.pow_pos_nonneg; lia).
    rewrite !Z.div_div by lia.
    f_equal. rewrite (Pos2Z.inj_xI n).
    replace (2 * Zpos n + 1) with (1 + Zpos n + Zpos n) by lia.
    rewrite !Z.pow_add_r by lia. lia.
  - assert (H2 : 0 <= shr_m (SpecFloat.iter_pos shr_1 n mrs))
      by (rewrite IH by exact Hm; apply Z.div_pos; [exact Hm | apply Z.pow_pos_nonneg; lia]).
    rewrite IH by exact H2. rewrite IH by exact Hm.
    assert (0 < 2 ^ Zpos n) by (apply Z.pow_pos_nonneg; lia).
    rewrite !Z.div_div by lia.
    f_equal. rewrite (Pos2Z.inj_xO n).
    replace (2 * Zpos n) with (Zpos n + Zpos n) by lia.
    rewrite !Z.pow_add_r by lia. lia.
  - rewrite shr_1_m by exact Hm. reflexivity.
Qed.

Lemma round_nearest_even_bounds (m : Z) (l : location) :
  m <= round_nearest_even m l <= m + 1.
Proof.
  destruct l as [| []]; cbn [round_nearest_even]; try destruct (Z.even m); lia.
Qed.

Lemma iter_xO (p k : positive) : Zpos (Pos.iter xO p k) = Zpos p * 2 ^ Zpos k.
Proof.
  induction k as [| k IH] using Pos.peano_ind.
  - cbn [Pos.iter]. rewrite (Pos2Z.inj_xO p). change (2 ^ 1) with 2. lia.
  - rewrite Pos.iter_succ, (Pos2Z.inj_xO (Pos.iter xO p k)), IH, Pos2Z.inj_succ, Z.pow_succ_r by lia. lia.
Qed.

Lemma shiftl_neg (a e : Z) : e <= 0 -> Z.shiftl a e = a / 2 ^ (- e).
Proof.
  intros He. rewrite <- (Z.opp_involutive e) at 1.
  rewrite Z.shiftl_opp_r, Z.shiftr_div_pow2 by lia. reflexivity.
Qed.

Lemma fexp_normal (x : Z) : -1021 <= x -> fexp 53 1024 x = x - 53.
Proof. intros Hx. unfold fexp, emin. lia. Qed.

(** A mantissa of exactly 53 digits is kept as it is. *)
Lemma binary_round_aux_exact (sx : bool) (M : positive) (e : Z) :
  Zpos (digits2_pos M) = 53 -> -1074 <= e <= 971 ->
  binary_round_aux 53 1024 sx (Zpos M) e loc_Exact = S754_finite sx M e.
Proof.
  intros HD He. unfold binary_round_aux, shr_fexp. cbn [Zdigits2]. rewrite HD.
  rewrite fexp_normal by lia.
  replace (53 + e - 53 - e) with 0 by lia.
  cbn [shr shr_record_of_loc shr_m loc_of_shr_record round_nearest_even Zdigits2].
  rewrite HD. rewrite fexp_normal by lia.
  replace (53 + e - 53 - e) with 0 by lia.
  cbn [shr shr_record_of_loc shr_m].
  destruct (Z.leb_spec e (1024 - 53)) as [_ | Hbig]; [reflexivity | lia].
Qed.

(** A product mantissa of 54 digits or more, away from the subnormals and
    from overflow, below 1 ulp: the rounded result truncates to at least the
    truncation of the exact value. *)
Lemma binary_round_aux_wide (sx : bool) (M : positive) (e : Z) :
  54 <= Zpos (digits2_pos M) ->
  -1074 <= e + Zpos (digits2_pos M) - 53 ->
  e + Zpos (digits2_pos M) - 53 < 0 ->
  exists m' e',
    binary_round_aux 53 1024 sx (Zpos M) e loc_Exact = S754_finite sx m' e' /\
    Zpos M / 2 ^ (- e) <= Z.shiftl (Zpos m') e'.
Proof.
  pose proof (digits2_pos_bounds M) as [Blo Bhi].
  set (D := Zpos (digits2_pos M)) in *. intros HD Hlow Hneg.
  unfold binary_round_aux, shr_fexp. cbn [Zdigits2]. fold D.
  rewrite fexp_normal by lia.
  replace (D + e - 53 - e) with (D - 53) by lia.
  destruct (D - 53) as [| n | n] eqn:En; try lia.
  cbn [shr shr_record_of_loc].
  set (mrs1 := SpecFloat.iter_pos shr_1 n {| shr_m := Zpos M; shr_r := false; shr_s := false |}).
  assert (Hm1 : shr_m mrs1 = Zpos M / 2 ^ Zpos n)
    by (apply (iter_shr_1_m n {| shr_m := Zpos M; shr_r := false; shr_s := false |});
        cbn [shr_m]; lia).
  assert (Hpow : 0 < 2 ^ Zpos n) by (apply Z.pow_pos_nonneg; lia).
  assert (HD1 : 2 ^ (D - 1) = 2 ^ Zpos n * 4503599627370496).
  { replace (D - 1) with (Zpos n + 52) by lia. rewrite Z.pow_add_r by lia. reflexivity. }
  assert (HD2 : 2 ^ D = 2 ^ Zpos n * 9007199254740992).
  { replace D with (Zpos n + 53) by lia. rewrite Z.pow_add_r by lia. reflexivity. }
  assert (Hlo1 : 4503599627370496 <= shr_m mrs1).
  { rewrite Hm1. apply Z.div_le_lower_bound; [exact Hpow | lia]. }
  assert (Hhi1 : shr_m mrs1 < 9007199254740992).
  { rewrite Hm1. apply Z.div_lt_upper_bound; [exact Hpow | lia]. }
  pose proof (round_nearest_even_bounds (shr_m mrs1) (loc_of_shr_record mrs1)) as Hrnd.
  set (m1 := round_nearest_even (shr_m mrs1) (loc_of_shr_record mrs1)) in *.
  assert (Hexact : Zpos M / 2 ^ (- e) = shr_m mrs1 / 2 ^ (- (e + Zpos n))).
  { rewrite Hm1, Z.div_div by (try apply Z.pow_pos_nonneg; lia).
    f_equal. rewrite <- Z.pow_add_r by lia. f_equal. lia. }
  assert (Hpow2 : 0 < 2 ^ (- (e + Zpos n))) by (apply Z.pow_pos_nonneg; lia).
  destruct m1 as [| q | q] eqn:Eq; try lia.
  destruct (Z.eq_dec (Zpos q) 9007199254740992) as [Hcarry | Hnocarry].
  - injection Hcarry as ->.
    change (Zdigits2 9007199254740992) with 54.
    rewrite fexp_normal by lia.
    replace (54 + (e + Zpos n) - 53 - (e + Zpos n)) with 1 by lia.
    cbn [shr shr_record_of_loc SpecFloat.iter_pos shr_1 shr_m orb].
    destruct (Z.leb_spec (e + Zpos n + 1) (1024 - 53)) as [_ | Hbig]; [| lia].
    eexists _, _. split; [reflexivity |].
    rewrite Hexact.
    rewrite shiftl_neg by lia.
    replace (- (e + Zpos n)) with (1 + - (e + Zpos n + 1)) by lia.
    rewrite Z.pow_add_r by lia. change (2 ^ 1) with 2.
    rewrite <- Z.div_div by (try apply Z.pow_pos_nonneg; lia).
    apply Z.div_le_mono; [apply Z.pow_pos_nonneg; lia |].
    apply Z.div_le_upper_bound; lia.
  - assert (Hq : Zpos (digits2_pos q) = 53).
    { apply digits2_pos_unique. change (2 ^ (53 - 1)) with 4503599627370496.
      change (2 ^ 53) with 9007199254740992. lia. }
    cbn [Zdigits2]. rewrite Hq.
    rewrite fexp_normal by lia.
    replace (53 + (e + Zpos n) - 53 - (e + Zpos n)) with 0 by lia.
    cbn [shr shr_record_of_loc shr_m].
    destruct (Z.leb_spec (e + Zpos n) (1024 - 53)) as [_ | Hbig]; [| lia].
    eexists _, _. split; [reflexivity |].
    rewrite Hexact.
    rewrite shiftl_neg by lia.
    apply Z.div_le_mono; [exact Hpow2 | lia].
Qed.

(** An integer below [2 ^ 53] converts exactly. *)
Lemma of_Z_exact (s : bool) (p : positive) :
  Zpos p < 2 ^ 53 ->
  exists m k,
    0 <= k <= 52 /\
    PyFloat.of_Z (if s then Zneg p else Zpos p) = S754_finite s m (- k) /\
    Zpos m = Zpos p * 2 ^ k /\
    Zpos (digits2_pos m) = 53.
Proof.
  intros Hp. pose proof (digits2_pos_bounds p) as [Blo Bhi].
  set (d := Zpos (digits2_pos p)) in *.
  assert (Hd : 1 <= d <= 53).
  { split; [subst d; lia |].
    destruct (Z.le_gt_cases d 53) as [Hle | Hgt]; [exact Hle |].
    assert (2 ^ 53 <= 2 ^ (d - 1)) by (apply Z.pow_le_mono_r; lia). lia. }
  assert (E : PyFloat.of_Z (if s then Zneg p else Zpos p)
              = binary_round 53 1024 s p 0) by (destruct s; reflexivity).
  rewrite E. unfold binary_round. fold d.
  rewrite fexp_normal by lia. unfold shl_align.
  replace (d + 0 - 53 - 0) with (d - 53) by lia.
  destruct (d - 53) as [| k | k] eqn:Ek; try lia.
  - exists p, 0. assert (Hd53 : d = 53) by lia.
    split; [lia |]. split.
    + apply binary_round_aux_exact; [exact Hd53 | lia].
    + split; [change (2 ^ 0) with 1; lia | exact Hd53].
  - assert (Hm : Zpos (Pos.iter xO p k) = Zpos p * 2 ^ Zpos k) by apply iter_xO.
    assert (Hk : Zpos k = 53 - d) by lia.
    assert (Hpow : 0 < 2 ^ Zpos k) by (apply Z.pow_pos_nonneg; lia).
    assert (HD : Zpos (digits2_pos (Pos.iter xO p k)) = 53).
    { apply digits2_pos_unique. rewrite Hm.
      assert (H1 : 2 ^ (53 - 1) = 2 ^ (d - 1) * 2 ^ Zpos k)
        by (rewrite <- Z.pow_add_r by lia; f_equal; lia).
      assert (H2 : 2 ^ 53 = 2 ^ d * 2 ^ Zpos k)
        by (rewrite <- Z.pow_add_r by lia; f_equal; lia).
      rewrite H1, H2. nia. }
    exists (Pos.iter xO p k), (Zpos k).
    split; [lia |]. split.
    + replace (d + 0 - 53) with (- Zpos k) by lia.
      apply binary_round_aux_exact; [exact HD | lia].
    + split; [exact Hm | exact HD].
Qed.

(** The product of an integer below [2 ^ 53] and a positive double that is at
    most one half: finite, of the sign of the integer, and not below the
    truncated exact product in absolute value. *)
Lemma mul_of_Z_lower (s : bool) (p mc : positive) (ec : Z) :
  Zpos p < 2 ^ 53 ->
  2 ^ 52 <= Zpos mc -> Zpos mc * 2 <= 2 ^ (- ec) -> -100 <= ec <= 0 ->
  exists m' e',
    PyFloat.mul (PyFloat.of_Z (if s then Zneg p else Zpos p)) (S754_finite false mc ec)
      = S754_finite s m' e' /\
    Zpos p * Zpos mc / 2 ^ (- ec) <= Z.shiftl (Zpos m') e'.
Proof.
  intros Hp Hmc1 Hmc2 Hec.
  destruct (of_Z_exact s p Hp) as (m & k & Hk & E & Hm & HD).
  rewrite E. unfold PyFloat.mul, SFmul. rewrite xorb_false_r.
  pose proof (digits2_pos_bounds m) as [Blo Bhi]. rewrite HD in Blo, Bhi.
  change (2 ^ (53 - 1)) with 4503599627370496 in Blo.
  change (2 ^ 53) with 9007199254740992 in Bhi.
  change (2 ^ 52) with 4503599627370496 in Hmc1.
  pose proof (digits2_pos_bounds (m * mc)) as [Plo Phi].
  set (D := Zpos (digits2_pos (m * mc))) in *.
  rewrite Pos2Z.inj_mul in Plo, Phi.
  assert (Hprod_lo : 2 ^ 104 <= Zpos m * Zpos mc)
    by (change (2 ^ 104) with (4503599627370496 * 4503599627370496); nia).
  assert (Hprod_hi : Zpos m * Zpos mc < 2 ^ (52 - ec)).
  { replace (52 - ec) with (52 + - ec) by lia. rewrite Z.pow_add_r by lia.
    change (2 ^ 52) with 4503599627370496. nia. }
  assert (HD1 : 105 <= D).
  { destruct (Z.le_gt_cases 105 D) as [Hle | Hgt]; [exact Hle |].
    assert (2 ^ D <= 2 ^ 104) by (apply Z.pow_le_mono_r; lia). lia. }
  assert (HD2 : D <= 52 - ec).
  { destruct (Z.le_gt_cases D (52 - ec)) as [Hle | Hgt]; [exact Hle |].
    assert (2 ^ (52 - ec) <= 2 ^ (D - 1)) by (apply Z.pow_le_mono_r; lia). lia. }
  destruct (binary_round_aux_wide s (m * mc) (- k + ec)) as (m' & e' & E' & Hbound);
    fold D; try lia.
  exists m', e'. split; [exact E' |].
  etransitivity; [| exact Hbound].
  rewrite Pos2Z.inj_mul, Hm.
  replace (- (- k + ec)) with (k + - ec) by lia.
  rewrite Z.pow_add_r by lia.
  replace (Zpos p * 2 ^ k * Zpos mc) with (Zpos p * Zpos mc * 2 ^ k) by lia.
  replace (2 ^ k * 2 ^ (- ec)) with (2 ^ (- ec) * 2 ^ k) by lia.
  rewrite Z.div_mul_cancel_r; [lia | |]; apply Z.pow_nonzero; lia.
Qed.

(** [int(n * c)] for an integer [n] below [2 ^ 53] in absolute value and a
    positive double [c] of at most one half. *)
Lemma mul_int_lower (s : bool) (p mc : positive) (ec : Z) :
  Zpos p < 2 ^ 53 ->
  2 ^ 52 <= Zpos mc -> Zpos mc * 2 <= 2 ^ (- ec) -> -100 <= ec <= 0 ->
  exists r,
    Py.mul (NInt (if s then Zneg p else Zpos p)) (NFloat (S754_finite false mc ec))
      ≫= Py.int = Ok r /\
    if s then r <= 0 else Zpos p * Zpos mc / 2 ^ (- ec) <= r.
Proof.
  intros Hp Hmc1 Hmc2 Hec.
  destruct (mul_of_Z_lower s p mc ec Hp Hmc1 Hmc2 Hec) as (m' & e' & E' & Hbound).
  destruct (of_Z_exact s p Hp) as (m & k & _ & E & _).
  unfold Py.mul, Py.binop, Py.to_float. cbv zeta.
  rewrite E in E' |- *. cbn [PyFloat.is_finite rbind]. rewrite E'.
  cbn [mbind result_bind rbind Py.int PyFloat.trunc].
  eexists. split; [reflexivity |].
  assert (0 <= Z.shiftl (Zpos m') e') by (apply Z.shiftl_nonneg; lia).
  destruct s; lia.
Qed.

(** For every size below [2 ^ 53] either way, [int(size * 0.5)] and
    [int(size * 0.01)] in double arithmetic, clamped as the method clamps
    them, are the clamped quotients [size / 2] and [size / 100 * 2] truncated
    toward zero: beyond ten thousand pixels both are at their bounds. *)
Lemma corner_parameters_wide (size : Z) :
  - 2 ^ 53 < size < 2 ^ 53 ->
  corner_radius size = Ok (clamp (size `quot` 2) 5 30) /\
  corner_thickness size = Ok (clamp (size `quot` 100 * 2) 1 5).
Proof.
  intros Hsize.
  destruct (Z_le_dec (-10000) size) as [Hlo |]; [destruct (Z_le_dec size 10000) |].
  { apply corner_parameters. lia. }
  - destruct size as [| p | p]; try lia.
    assert (Hhalf : 5000 <= Zpos p `quot` 2).
    { rewrite Z.quot_div_nonneg by lia. apply Z.div_le_lower_bound; lia. }
    assert (Hcent : 100 <= Zpos p `quot` 100).
    { rewrite Z.quot_div_nonneg by lia. apply Z.div_le_lower_bound; lia. }
    unfold corner_radius, corner_thickness.
    change self.size_factor with (S754_finite false 4503599627370496 (-53)).
    change self.thickness_factor with (S754_finite false 5764607523034235 (-59)).
    destruct (mul_int_lower false p 4503599627370496 (-53)) as (r & Er & Hr);
      [lia | vm_compute; discriminate | vm_compute; discriminate | lia |].
    destruct (mul_int_lower false p 5764607523034235 (-59)) as (t & Et & Ht);
      [lia | vm_compute; discriminate | vm_compute; discriminate | lia |].
    rewrite Er, Et. cbn [mbind result_bind rbind].
    assert (30 <= r).
    { etransitivity; [| exact Hr]. apply Z.div_le_lower_bound; [reflexivity |].
      change (2 ^ (- -53)) with 9007199254740992. lia. }
    assert (3 <= t).
    { etransitivity; [| exact Ht]. apply Z.div_le_lower_bound; [reflexivity |].
      change (2 ^ (- -59)) with 576460752303423488. lia. }
    unfold clamp, self.max_corner_radius, self.min_corner_radius, self.max_thickness,
      self.min_thickness.
    split; f_equal; lia.
  - destruct size as [| p | p]; try lia.
    assert (Hhalf : Zneg p `quot` 2 <= 0).
    { change (Zneg p) with (- Zpos p). rewrite Z.quot_opp_l by lia.
      pose proof (Z.quot_pos (Zpos p) 2). lia. }
    assert (Hcent : Zneg p `quot` 100 <= 0).
    { change (Zneg p) with (- Zpos p). rewrite Z.quot_opp_l by lia.
      pose proof (Z.quot_pos (Zpos p) 100). lia. }
    unfold corner_radius, corner_thickness.
    change self.size_factor with (S754_finite false 4503599627370496 (-53)).
    change self.thickness_factor with (S754_finite false 5764607523034235 (-59)).
    destruct (mul_int_lower true p 4503599627370496 (-53)) as (r & Er & Hr);
      [lia | vm_compute; discriminate | vm_compute; discriminate | lia |].
    destruct (mul_int_lower true p 5764607523034235 (-59)) as (t & Et & Ht);
      [lia | vm_compute; discriminate | vm_compute; discriminate | lia |].
    rewrite Er, Et. cbn [mbind result_bind rbind].
    unfold clamp, self.max_corner_radius, self.min_corner_radius, self.max_thickness,
      self.min_thickness.
    split; f_equal; lia.
Qed.

Lemma fits_int_spec (z : Z) :
  cv2.fits_int z = true <-> -2147483648 <= z <= 2147483647.
Proof. unfold cv2.fits_int. rewrite andb_true_iff, !Z.leb_le. reflexivity. Qed.

Lemma as_ints_ok (l : list Z) :
  Forall (fun z => cv2.fits_int z = true) l -> cv2.as_ints l = Ok tt.
Proof.
  intros Hall. unfold cv2.as_ints.
  assert (E : forallb cv2.fits_int l = true).
  { induction Hall as [| z l Hz _ IH]; [reflexivity |].
    cbn [forallb]. rewrite Hz, IH. reflexivity. }
  rewrite E. reflexivity.
Qed.

Lemma ellipse_run frame img st center axes angle start_angle end_angle col thickness :
  heap st !! frame = Some img ->
  cv2.as_ints [fst center; snd center; fst axes; snd axes; thickness] = Ok tt ->
  cv2.CV_Assert ((0 <=? fst axes) && (0 <=? snd axes) && (thickness <=? cv2.MAX_THICKNESS))
    = Ok tt ->
  exists st',
    cv2.ellipse frame center axes angle start_angle end_angle col thickness st
      = (st', Ok tt) /\
    trace st' =
      (trace st ++ [Ellipse frame center axes angle start_angle end_angle col thickness])%list /\
    is_Some (heap st' !! frame).
Proof.
  intros Hframe Hints Hassert. unfold cv2.ellipse, draw.
  rewrite lift_bind_run, Hints, lift_bind_run, Hassert.
  rewrite bind_run. cbn [log]. rewrite bind_run. unfold read. cbn [heap].
  rewrite Hframe. eexists. split; [reflexivity |]. cbn [trace heap].
  split; [reflexivity |]. rewrite lookup_insert_eq. eauto.
Qed.

(** An arc of a corner box: its centre has to fit a C [int], its radius and
    thickness always do. *)
Lemma corner_arc_run frame img st cx cy r start_angle end_angle col t :
  heap st !! frame = Some img ->
  cv2.fits_int cx = true -> cv2.fits_int cy = true ->
  5 <= r <= 30 -> 1 <= t <= 5 ->
  exists st',
    cv2.ellipse frame (cx, cy) (r, r) 0 start_angle end_angle col t st = (st', Ok tt) /\
    trace st' =
      (trace st ++ [Ellipse frame (cx, cy) (r, r) 0 start_angle end_angle col t])%list /\
    is_Some (heap st' !! frame).
Proof.
  intros Hframe Hx Hy Hr Ht. apply (ellipse_run frame img); [exact Hframe | |].
  - apply as_ints_ok. cbn [fst snd].
    repeat constructor; try assumption; apply fits_int_spec; lia.
  - cbn [fst snd]. unfold cv2.MAX_THICKNESS.
    rewrite !(proj2 (Z.leb_le _ _)) by lia. reflexivity.
Qed.

(** C4, as the code has it. For a detection whose box is
    [(x1, y1, x2, y2)] after [int(...)], with
    [size = min(x2 - x1, y2 - y1)], [annotate_bbox_corners] draws exactly four
    arcs, each with radius [clamp(int(size * 0.5), [5, 30])] and thickness
    [clamp(int(size * 0.01) * 2, [1, 5])], where [int] truncates toward zero.
    The only condition is the one the drawing backend sets: the centres of
    the four arcs fit a C [int]. *)
Theorem annotate_bbox_corners_draws
    (frame : nat) (img : image) (detection : gmap string pyval)
    (x1 y1 x2 y2 : Z) (st : state) :
  Py.getitem detection "x1" ≫= Py.int_val = Ok x1 ->
  Py.getitem detection "y1" ≫= Py.int_val = Ok y1 ->
  Py.getitem detection "x2" ≫= Py.int_val = Ok x2 ->
  Py.getitem detection "y2" ≫= Py.int_val = Ok y2 ->
  heap st !! frame = Some img ->
  let size := Z.min (x2 - x1) (y2 - y1) in
  let radius := clamp (size `quot` 2) self.min_corner_radius self.max_corner_radius in
  let thickness := clamp (size `quot` 100 * 2) self.min_thickness self.max_thickness in
  let colour := fetch_bbox_colour detection in
  cv2.fits_int (x1 + radius) = true -> cv2.fits_int (y1 + radius) = true ->
  cv2.fits_int (x2 - radius) = true -> cv2.fits_int (y2 - radius) = true ->
  exists st',
    annotate_bbox_corners frame detection st = (st', Ok frame) /\
    trace st' = (trace st ++
      [ Ellipse frame (x1 + radius, y1 + radius) (radius, radius) 0 180 270 colour thickness;
        Ellipse frame (x1 + radius, y2 - radius) (radius, radius) 0 90 180 colour thickness;
        Ellipse frame (x2 - radius, y1 + radius) (radius, radius) 0 270 360 colour thickness;
        Ellipse frame (x2 - radius, y2 - radius) (radius, radius) 0 0 90 colour thickness ])%list.
Proof.
  intros Hx1 Hy1 Hx2 Hy2 Hframe size radius thickness colour Fx1 Fy1 Fx2 Fy2.
  assert (Hradius : 5 <= radius <= 30)
    by (subst radius; unfold clamp, self.min_corner_radius, self.max_corner_radius; lia).
  assert (Hthickness : 1 <= thickness <= 5)
    by (subst thickness; unfold clamp, self.min_thickness, self.max_thickness; lia).
  assert (Hsize : - 2 ^ 53 < size < 2 ^ 53).
  { apply fits_int_spec in Fx1, Fy1, Fx2, Fy2.
    change (2 ^ 53) with 9007199254740992. subst size. lia. }
  destruct (corner_parameters_wide size Hsize) as [Hr Ht].
  change (clamp (size `quot` 2) 5 30) with radius in Hr.
  change (clamp (size `quot` 100 * 2) 1 5) with thickness in Ht.
  unfold annotate_bbox_corners.
  rewrite lift_bind_run, Hx1, lift_bind_run, Hy1, lift_bind_run, Hx2, lift_bind_run, Hy2.
  cbv zeta. fold size.
  rewrite lift_bind_run, Hr, lift_bind_run, Ht.
  fold colour. clearbody radius thickness colour.
  rewrite bind_run. cbn [for_each]. cbv beta iota.
  destruct (corner_arc_run frame img st (x1 + radius) (y1 + radius) radius
              180 270 colour thickness Hframe Fx1 Fy1 Hradius Hthickness)
    as (st1 & E1 & T1 & [img1 F1]).
  destruct (corner_arc_run frame img1 st1 (x1 + radius) (y2 - radius) radius
              90 180 colour thickness F1 Fx1 Fy2 Hradius Hthickness)
    as (st2 & E2 & T2 & [img2 F2]).
  destruct (corner_arc_run frame img2 st2 (x2 - radius) (y1 + radius) radius
              270 360 colour thickness F2 Fx2 Fy1 Hradius Hthickness)
    as (st3 & E3 & T3 & [img3 F3]).
  destruct (corner_arc_run frame img3 st3 (x2 - radius) (y2 - radius) radius
              0 90 colour thickness F3 Fx2 Fy2 Hradius Hthickness)
    as (st4 & E4 & T4 & _).
  rewrite bind_run, E1, bind_run, E2, bind_run, E3, bind_run, E4.
  exists st4. split; [reflexivity |].
  rewrite T4, T3, T2, T1. rewrite <- !app_assoc. reflexivity.
Qed.

(** ** Labels *)

(** On integer centre points [calculate_label_position] puts the left edge of
    the box at [center_x - text_width // 2]; the box is
    [text_width + 2 * label_padding] wide, so its middle lies to the right of
    [center_x]. *)
Lemma calculate_label_position_int (bbox_bottom center_x text_width text_height : Z)
    (center_y : pynum) :
  exists position,
    calculate_label_position bbox_bottom (NInt center_x, center_y)
      (text_width, text_height) = Ok position /\
    position !! "x" = Some (center_x - text_width `div` 2) /\
    position !! "y" = Some (bbox_bottom + text_height + self.label_padding) /\
    position !! "width" = Some (text_width + 2 * self.label_padding) /\
    position !! "height" = Some (text_height + 2 * self.label_padding) /\
    ~ centred_on position center_x.
Proof.
  eexists. split; [reflexivity |].
  assert (L : forall (a b c d : Z),
            let position : gmap string Z :=
              {[ "x" := a; "y" := b; "width" := c; "height" := d ]} in
            position !! "x" = Some a /\ position !! "y" = Some b /\
            position !! "width" = Some c /\ position !! "height" = Some d).
  { intros a b c d position. subst position. repeat split; reflexivity. }
  destruct (L (center_x - text_width `div` 2)
              (bbox_bottom + text_height + self.label_padding)
              (text_width + 2 * self.label_padding)
              (text_height + 2 * self.label_padding)) as (Lx & Ly & Lw & Lh).
  repeat split; try assumption.
  intros (x & w & Ex & Ew & Hmid).
  rewrite Lx in Ex. rewrite Lw in Ew.
  injection Ex as <-. injection Ew as <-.
  unfold self.label_padding in Hmid.
  pose proof (Z.div_mod text_width 2 ltac:(lia)).
  pose proof (Z.mod_pos_bound text_width 2 ltac:(lia)).
  lia.
Qed.

Lemma str_printable (v : pyval) : Py.printable v = true -> Py.str v = Ok (Py.text v).
Proof. intros Hv. unfold Py.str. rewrite Hv. reflexivity. Qed.

Lemma str_unprintable (v : pyval) : Py.printable v = false -> Py.str v = Raise ValueError.
Proof. intros Hv. unfold Py.str. rewrite Hv. reflexivity. Qed.

Lemma str_returns (v : pyval) (s : string) :
  Py.str v = Ok s <-> Py.printable v = true /\ s = Py.text v.
Proof.
  unfold Py.str. destruct (Py.printable v); split.
  - intros [= <-]. auto.
  - intros [_ ->]. reflexivity.
  - discriminate.
  - intros [[=] _].
Qed.

(** [create_label] with every field formatted once: formatting the ID again
    for the next template gives what it gave for the first. *)
Lemma create_label_run detection vision_type captured_at :
  create_label detection vision_type captured_at =
    (id ← Py.str (Py.get detection "ID");
     classname ← Py.str (Py.get detection "classname");
     confidence ← Py.format_2f (Py.get detection "confidence_score");
     speed ← Py.str (Py.get detection "speed");
     plate ← Py.val_get (Py.get_default detection "license_plate" (VDict []))
               "plate_text" (VStr "") ≫= Py.str;
     captured ← Py.str captured_at;
     let detection_labels : gmap string string :=
       {[ "object_detection" :=
            "ID: " +:+ id +:+ " | Class: " +:+ classname +:+
            " | Confidence Score: " +:+ confidence;
          "object_tracking" := "ID: " +:+ id;
          "speed_estimation" := "ID: " +:+ id +:+ " | Speed: " +:+ speed +:+ "mph";
          "plate_reading" := "ID: " +:+ id +:+ " | Plate: " +:+ plate;
          "traffic_violation" :=
            "ID: " +:+ id +:+ " | Captured: " +:+ captured +:+
            " | Speed: " +:+ speed +:+ "mph" ]} in
     Ok (default "object_detection" (detection_labels !! vision_type))).
Proof.
  unfold create_label.
  destruct (Py.str (Py.get detection "ID")) as [id | e];
    cbn [mbind result_bind rbind]; [| reflexivity].
  destruct (Py.str (Py.get detection "classname")) as [classname | e];
    cbn [mbind result_bind rbind]; [| reflexivity].
  destruct (Py.format_2f (Py.get detection "confidence_score")) as [confidence | e];
    cbn [mbind result_bind rbind]; [| reflexivity].
  destruct (Py.str (Py.get detection "speed")) as [speed | e];
    cbn [mbind result_bind rbind]; [| reflexivity].
  destruct (Py.val_get (Py.get_default detection "license_plate" (VDict []))
              "plate_text" (VStr "")) as [plate | e];
    cbn [mbind result_bind rbind]; [| reflexivity].
  destruct (Py.str plate) as [plate_text | e];
    cbn [mbind result_bind rbind]; [| reflexivity].
  destruct (Py.str captured_at) as [captured | e];
    cbn [mbind result_bind rbind]; reflexivity.
Qed.

(** [create_label] formats the confidence score of every detection, whatever
    the vision type: without a score it raises, with [TypeError] unless the
    ID or the class name cannot be written, which is found first. *)
Lemma create_label_needs_confidence detection vision_type captured_at :
  detection !! "confidence_score" = None ->
  create_label detection vision_type captured_at =
    Raise (if Py.printable (Py.get detection "ID") &&
              Py.printable (Py.get detection "classname")
           then TypeError else ValueError).
Proof.
  intros Hnone. rewrite create_label_run.
  assert (Hscore : Py.get detection "confidence_score" = VNone)
    by (unfold Py.get; rewrite Hnone; reflexivity).
  rewrite Hscore.
  destruct (Py.printable (Py.get detection "ID")) eqn:Hid;
    [rewrite (str_printable _ Hid) | rewrite (str_unprintable _ Hid); reflexivity].
  destruct (Py.printable (Py.get detection "classname")) eqn:Hclass;
    [rewrite (str_printable _ Hclass) | rewrite (str_unprintable _ Hclass)];
    reflexivity.
Qed.

Lemma vision_types_lookup (od ot se pr tv : string) (vision_type : string) :
  vision_type ∉ vision_types ->
  ({[ "object_detection" := od; "object_tracking" := ot; "speed_estimation" := se;
      "plate_reading" := pr; "traffic_violation" := tv ]} : gmap string string)
    !! vision_type = None.
Proof.
  intros Hnot. unfold vision_types in Hnot.
  repeat (rewrite lookup_insert_ne by (intros <-; apply Hnot; set_solver)).
  rewrite lookup_singleton_ne by (intros <-; apply Hnot; set_solver).
  reflexivity.
Qed.

(** For a vision type it has no template for, [create_label] returns the
    dictionary default, the 16 characters [object_detection]; the label of
    the [object_detection] template begins with [ID: ]. *)
Lemma create_label_unrecognised detection vision_type captured_at label :
  vision_type ∉ vision_types ->
  create_label detection vision_type captured_at = Ok label ->
  label = "object_detection" /\
  exists rest, create_label detection "object_detection" captured_at
               = Ok ("ID: " +:+ rest).
Proof.
  intros Hnot. rewrite !create_label_run.
  destruct (Py.str (Py.get detection "ID")) as [id | e];
    cbn [mbind result_bind rbind]; [| discriminate].
  destruct (Py.str (Py.get detection "classname")) as [classname | e];
    cbn [mbind result_bind rbind]; [| discriminate].
  destruct (Py.format_2f (Py.get detection "confidence_score")) as [conf | e];
    cbn [mbind result_bind rbind]; [| discriminate].
  destruct (Py.str (Py.get detection "speed")) as [speed | e];
    cbn [mbind result_bind rbind]; [| discriminate].
  destruct (Py.val_get (Py.get_default detection "license_plate" (VDict []))
              "plate_text" (VStr "") ≫= Py.str) as [plate | e];
    cbn [mbind result_bind rbind]; [| discriminate].
  destruct (Py.str captured_at) as [captured | e];
    cbn [mbind result_bind rbind]; [| discriminate].
  cbv zeta.
  rewrite vision_types_lookup by assumption.
  intros [= <-]. split; [reflexivity |].
  eexists. reflexivity.
Qed.

End Properties.

(** * The properties on concrete frames

    The test double of [Fake] stands in for the collaborators. *)

Section Scenarios.
#[local] Existing Instance Fake.runtime.
#[local] Existing Instance Fake.canvas.
#[local] Existing Instance Fake.bbox_utils.

Ltac run_as st res E :=
  match goal with
  | |- context [let '(_, _) := ?m in _] => destruct m as [st res] eqn:E
  end;
  vm_compute in E; injection E as <- <-.

Ltac in_trace := cbn [trace]; repeat constructor.

(** ** Violation capture *)

(** C1. A frame 40 pixels wide and 200 high with a car at (10,10)-(30,30):
    the overlay is 10 pixels wide and 23 high and would start at column
    [40 - 10 - 64 = -34], left of the frame. The guard only looks at the
    bottom and the right edge, so the overlay is pasted all the same; the
    negative bounds wrap around and it lands on columns 6 to 15. *)
Lemma capture_traffic_violation_pastes_off_frame :
  let w := 40 in
  let overlay_x := w - w `div` 4 - self.padding in
  let '(st', res) :=
    capture_traffic_violation 0 (Fake.car 10 10 30 30) VNone
      (Fake.store (Fake.black 200 w)) in
  overlay_x = -34 /\ res = Ok 1%nat /\
  exists value, Paste 1 (64, 23) (6, 10) value ∈ trace st'.
Proof.
  cbv zeta. run_as st' res E.
  split; [reflexivity |]. split; [reflexivity |].
  eexists. in_trace.
Qed.

(** On a frame 70 pixels wide the same call does not skip the overlay
    either: the selection it assigns to is empty and the assignment raises,
    after the corner box was drawn and before any bar is. *)
Lemma capture_traffic_violation_raises_off_frame :
  let w := 70 in
  let overlay_x := w - w `div` 4 - self.padding in
  let '(st', res) :=
    capture_traffic_violation 0 (Fake.car 10 10 30 30) VNone
      (Fake.store (Fake.black 200 w)) in
  overlay_x = -11 /\ res = Raise ValueError /\
  forall ev, ev ∈ trace st' ->
    match ev with Fill _ _ _ _ | PutText _ _ _ _ _ _ | Paste _ _ _ _ => False | _ => True end.
Proof.
  cbv zeta. run_as st' res E.
  split; [reflexivity |]. split; [reflexivity |].
  intros ev Hev. cbn [trace] in Hev.
  repeat (apply elem_of_cons in Hev as [-> | Hev]; [exact I |]).
  apply elem_of_nil in Hev. contradiction.
Qed.

(** An overlay that is too high for the frame is skipped, and both bars and
    both texts are drawn: a 640 x 480 frame and a box (100,0)-(150,480), whose
    crop scales to 160 x 431, more than the 416 rows below the top margin. *)
Lemma capture_traffic_violation_skips_high_overlay :
  let '(st', res) :=
    capture_traffic_violation 0 (Fake.car 100 0 150 480) (VInt 7)
      (Fake.store (Fake.black 480 640)) in
  res = Ok 1%nat /\
  (forall rows cols value, Paste 1 rows cols value ∉ trace st') /\
  Resize (160, 431) ∈ trace st' /\
  Fill 1 (461, 19) (416, 160) (0, 0, 0) ∈ trace st' /\
  PutText 1 "" (496, 500) (NInt 2) (255, 255, 255) 2 ∈ trace st' /\
  Fill 1 (335, 145) (0, 640) (0, 0, 0) ∈ trace st' /\
  exists org scale,
    PutText 1 "ID: 1 | Captured: 7 | Speed: Nonemph" org scale (255, 255, 255) 2
      ∈ trace st'.
Proof.
  run_as st' res E.
  split; [reflexivity |]. split.
  { intros rows cols value Hin. cbn [trace] in Hin.
    repeat (apply elem_of_cons in Hin as [Heq | Hin]; [discriminate Heq |]).
    apply elem_of_nil in Hin. contradiction. }
  repeat split; try (in_trace; fail).
  eexists _, _. in_trace.
Qed.

(** A call that returns: on a 640 x 480 frame with a car at
    (100,100)-(200,200) the evidence frame is a second array, and the
    caller's array is as it was. *)
Lemma capture_traffic_violation_returns :
  let st := Fake.store (Fake.black 480 640) in
  let '(st', res) := capture_traffic_violation 0 (Fake.car 100 100 200 200) VNone st in
  res = Ok 1%nat /\ heap st' !! 0%nat = heap st !! 0%nat /\ is_Some (heap st' !! 1%nat) /\
  exists value, Paste 1 (64, 160) (416, 160) value ∈ trace st'.
Proof.
  cbv zeta. run_as st' res E.
  split; [reflexivity |]. split; [reflexivity |].
  split; [eexists; reflexivity |].
  eexists. in_trace.
Qed.

(** ** Labels *)

(** C2. For the vision type [lane_detection], which has no template, the
    label of a car with ID 1 and score 0.9 is the dictionary default
    [object_detection] itself, not the label the [object_detection] template
    gives for it. *)
Lemma create_label_default_is_not_a_label :
  create_label (Fake.car 100 100 200 200) "lane_detection" VNone
    = Ok "object_detection" /\
  create_label (Fake.car 100 100 200 200) "object_detection" VNone
    = Ok "ID: 1 | Class: car | Confidence Score: 0.90".
Proof. split; vm_compute; reflexivity. Qed.

(** C3. A detection without a confidence score cannot be labelled, not even
    for a vision type whose label does not show the score: every template is
    formatted on every call, and formatting [None] to two decimals raises. *)
Lemma create_label_without_confidence_raises :
  let detection := delete "confidence_score" (Fake.car 100 100 200 200) in
  detection !! "confidence_score" = None /\
  create_label detection "object_tracking" VNone = Raise TypeError /\
  create_label detection "speed_estimation" VNone = Raise TypeError.
Proof. repeat split; vm_compute; reflexivity. Qed.

(** The other optional fields do get a placeholder. *)
Lemma create_label_placeholders :
  let detection : gmap string pyval :=
    {[ "ID" := VInt 1; "confidence_score" := VFloat (PyFloat.literal 9 10) ]} in
  create_label detection "object_detection" VNone
    = Ok "ID: 1 | Class: None | Confidence Score: 0.90" /\
  create_label detection "speed_estimation" VNone = Ok "ID: 1 | Speed: Nonemph" /\
  create_label detection "plate_reading" VNone = Ok "ID: 1 | Plate: ".
Proof. repeat split; vm_compute; reflexivity. Qed.

(** C8. Below a box with bottom 200 and centre x 150, a text of 200 x 44
    pixels gets the label box [x = 50, y = 269, width = 250, height = 94]: it
    spans the columns 50 to 300, with its middle at 175 and not at 150. *)
Lemma calculate_label_position_is_off_centre :
  exists position,
    calculate_label_position 200 (NInt 150, NInt 150) (200, 44) = Ok position /\
    position !! "x" = Some 50 /\ position !! "y" = Some 269 /\
    position !! "width" = Some 250 /\ position !! "height" = Some 94 /\
    ~ centred_on position 150.
Proof.
  destruct (calculate_label_position_int 200 150 200 44 (NInt 150))
    as (position & E & Ex & Ey & Ew & Eh & Hoff).
  exists position. repeat split; assumption.
Qed.

(** ** Corner boxes *)

(** C4, scenario A: the box (100,100)-(200,200) has size 100, radius 30 and
    thickness 2. *)
Lemma annotate_bbox_corners_draws_witness :
  let detection := Fake.car 100 100 200 200 in
  let st := Fake.store (Fake.black 480 640) in
  (Py.getitem detection "x1" ≫= Py.int_val = Ok 100 /\
   Py.getitem detection "y1" ≫= Py.int_val = Ok 100 /\
   Py.getitem detection "x2" ≫= Py.int_val = Ok 200 /\
   Py.getitem detection "y2" ≫= Py.int_val = Ok 200 /\
   heap st !! 0%nat = Some (Fake.black 480 640) /\
   cv2.fits_int 130 = true /\ cv2.fits_int 170 = true) /\
  exists st',
    annotate_bbox_corners 0 detection st = (st', Ok 0%nat) /\
    trace st' =
      [ Ellipse 0 (130, 130) (30, 30) 0 180 270 (10, 255, 10) 2;
        Ellipse 0 (130, 170) (30, 30) 0 90 180 (10, 255, 10) 2;
        Ellipse 0 (170, 130) (30, 30) 0 270 360 (10, 255, 10) 2;
        Ellipse 0 (170, 170) (30, 30) 0 0 90 (10, 255, 10) 2 ].
Proof.
  cbv zeta.
  assert (H1 : Py.getitem (Fake.car 100 100 200 200) "x1" ≫= Py.int_val = Ok 100)
    by reflexivity.
  assert (H2 : Py.getitem (Fake.car 100 100 200 200) "y1" ≫= Py.int_val = Ok 100)
    by reflexivity.
  assert (H3 : Py.getitem (Fake.car 100 100 200 200) "x2" ≫= Py.int_val = Ok 200)
    by reflexivity.
  assert (H4 : Py.getitem (Fake.car 100 100 200 200) "y2" ≫= Py.int_val = Ok 200)
    by reflexivity.
  assert (H5 : heap (Fake.store (Fake.black 480 640)) !! 0%nat = Some (Fake.black 480 640))
    by reflexivity.
  assert (H6 : cv2.fits_int 130 = true) by reflexivity.
  assert (H7 : cv2.fits_int 170 = true) by reflexivity.
  split; [repeat split; assumption |].
  exact (annotate_bbox_corners_draws 0 (Fake.black 480 640) (Fake.car 100 100 200 200)
           100 100 200 200 (Fake.store (Fake.black 480 640)) H1 H2 H3 H4 H5 H6 H6 H7 H7).
Defined.

(** C4, as the specification words it, fails. The written formula rounds
    [size * 0.01] to the nearest integer; the code truncates it. For the box (100,100)-(260,260), of size 160, the written
    formula gives thickness [clamp(round(1.6) * 2, [1, 5]) = 4], and the arcs
    are drawn with thickness 2. *)
Lemma annotate_bbox_corners_thickness_not_rounded :
  let size := Z.min (260 - 100) (260 - 100) in
  let '(st', res) :=
    annotate_bbox_corners 0 (Fake.car 100 100 260 260) (Fake.store (Fake.black 480 640)) in
  spec_thickness size = 4 /\
  corner_thickness size = Ok 2 /\
  res = Ok 0%nat /\
  trace st' =
    [ Ellipse 0 (130, 130) (30, 30) 0 180 270 (10, 255, 10) 2;
      Ellipse 0 (130, 230) (30, 30) 0 90 180 (10, 255, 10) 2;
      Ellipse 0 (230, 130) (30, 30) 0 270 360 (10, 255, 10) 2;
      Ellipse 0 (230, 230) (30, 30) 0 0 90 (10, 255, 10) 2 ] /\
  ~ (forall ev, ev ∈ trace st' ->
       match ev with
       | Ellipse _ _ _ _ _ _ _ thickness => thickness = spec_thickness size
       | _ => True
       end).
Proof.
  cbv zeta. run_as st' res E.
  split; [reflexivity |]. split; [vm_compute; reflexivity |].
  split; [reflexivity |]. split; [reflexivity |].
  intros Hall.
  specialize (Hall (Ellipse 0 (130, 130) (30, 30) 0 180 270 (10, 255, 10) 2)).
  cbn [trace] in Hall. specialize (Hall ltac:(repeat constructor)).
  vm_compute in Hall. discriminate Hall.
Qed.

(** ** Text size *)

(** C6. A label that is too wide for the frame at every scale comes back
    with the scale that twelve subtractions of [0.1] from 2 give in double
    arithmetic, [0.7999999999999993], which is below the minimum [0.8]. *)
Lemma fetch_text_properties_below_minimum :
  let label := "ID: 1 | Class: car | Confidence Score: 0.90" in
  let st := Fake.store (Fake.black 480 640) in
  let scale := NFloat (S754_finite false 7205759403792787 (-53)) in
  fetch_text_properties label 0 st = (st, Ok (687, 17, scale)) /\
  Py.lt scale (NFloat (PyFloat.literal 8 10)) = true /\
  PyFloat.literal 8 10 = S754_finite false 7205759403792794 (-53) /\
  640 - 2 * self.label_padding < 687.
Proof. repeat split; vm_compute; reflexivity. Qed.

(** The bound of C7 is reached: on that label the loop body runs twelve
    times. *)
Lemma shrink_to_fit_twelve_steps :
  let label := "ID: 1 | Class: car | Confidence Score: 0.90" in
  exists text_size scale,
    shrink_to_fit loop_fuel label (640 - self.label_padding * 2)
      (NFloat (PyFloat.literal 8 10))
      (cv2.getTextSize label self.font self.font_scale self.font_thickness)
      self.font_scale 0
    = Ok (text_size, scale, 12%nat).
Proof. eexists _, _. vm_compute. reflexivity. Qed.

(** ** Trails *)

(** C9 on a trail of one point. *)
Lemma annotate_center_point_trail_short_witness :
  let st := Fake.store (Fake.black 480 640) in
  (length [VTuple [VInt 320; VInt 240]] < 2)%nat /\
  annotate_center_point_trail 0 (VList [VTuple [VInt 320; VInt 240]]) st = (st, Ok 0%nat).
Proof.
  cbv zeta. split; [simpl; lia |].
  apply annotate_center_point_trail_short. simpl. lia.
Defined.

(** Scenario D: three points make two segments and two end-point markers. *)
Lemma annotate_center_point_trail_three_points :
  let points := VList [VTuple [VInt 0; VInt 0]; VTuple [VInt 10; VInt 10];
                       VTuple [VInt 20; VInt 20]] in
  let '(st', res) :=
    annotate_center_point_trail 0 points (Fake.store (Fake.black 480 640)) in
  res = Ok 0%nat /\
  trace st' =
    [ Line 0 (0, 0) (10, 10) (255, 10, 10) 12;
      Line 0 (10, 10) (20, 20) (255, 10, 10) 12;
      Circle 0 (0, 0) 5 (10, 10, 255) 8;
      Circle 0 (20, 20) 5 (10, 10, 255) 8 ].
Proof. cbv zeta. run_as st' res E. split; reflexivity. Qed.

(** A trail whose last point is [None]: the backend takes [None] for the
    origin and draws the segment, the marker of the first point is drawn, and
    unpacking the last point raises. *)
Lemma annotate_center_point_trail_none_point :
  let points := VList [VTuple [VInt 10; VInt 10]; VNone] in
  let '(st', res) :=
    annotate_center_point_trail 0 points (Fake.store (Fake.black 480 640)) in
  res = Raise TypeError /\
  trace st' =
    [ Line 0 (10, 10) (0, 0) (255, 10, 10) 12;
      Circle 0 (10, 10) 5 (10, 10, 255) 8 ].
Proof. cbv zeta. run_as st' res E. split; reflexivity. Qed.

End Scenarios.

(** * Further properties of the methods *)

Section Effects.
Context {runtime : PyRuntime} {canvas : Cv2} {bbox_utils : BboxUtils}.

(** ** Stores, logs and results together *)

Lemma acts_weaken {A} r P (m : M A) (Q Q' : A -> Prop) :
  acts r P m Q -> (forall a, Q a -> Q' a) -> acts r P m Q'.
Proof.
  intros Hm HQ st st' res E. destruct (Hm _ _ _ E) as (Hk & Hev & Ha).
  repeat split; auto.
Qed.

Lemma acts_ret {A} r P (a : A) : acts r P (mret a) (fun x => x = a).
Proof.
  intros st st' res E. inversion E; subst. split; [auto |]. split.
  - exists []. rewrite app_nil_r. auto.
  - intros ? [= <-]; reflexivity.
Qed.

Lemma acts_lift {A} r P (v : result A) : acts r P (lift v) (fun x => v = Ok x).
Proof.
  intros st st' res E. inversion E; subst. split; [auto |]. split.
  - exists []. rewrite app_nil_r. auto.
  - intros ? ->; reflexivity.
Qed.

Lemma acts_raise {A} r P e : acts r P (@raise A e) (fun _ => False).
Proof.
  intros st st' res E. inversion E; subst. split; [auto |]. split.
  - exists []. rewrite app_nil_r. auto.
  - intros ? [=].
Qed.

Lemma acts_bind {A B} r P (m : M A) (k : A -> M B) (Q : A -> Prop) (Q' : B -> Prop) :
  acts r P m Q -> (forall a, Q a -> acts r P (k a) Q') -> acts r P (m ≫= k) Q'.
Proof.
  intros Hm Hk st st' res E.
  unfold mbind, M_bind, bind in E.
  destruct (m st) as [st1 [a | e]] eqn:Em.
  - destruct (Hm _ _ _ Em) as (M1 & (evs1 & T1 & F1) & M3).
    destruct (Hk a (M3 a eq_refl) _ _ _ E) as (K1 & (evs2 & T2 & F2) & K3).
    split; [intros k0 Hne; rewrite K1, M1; auto |]. split; [| exact K3].
    exists (evs1 ++ evs2)%list. rewrite T2, T1, app_assoc. split; [reflexivity |].
    apply Forall_app. auto.
  - inversion E; subst. destruct (Hm _ _ _ Em) as (M1 & Hev & M3).
    repeat split; auto. intros ? [=].
Qed.

Lemma acts_log r (P : event -> Prop) ev : P ev -> acts r P (log ev) (fun _ => True).
Proof.
  intros HP st st' res E. inversion E; subst. cbn [heap trace].
  split; [auto |]. split; [| auto].
  exists [ev]. split; [reflexivity | auto].
Qed.

Lemma acts_read r P frame : acts r P (read frame) (fun _ => True).
Proof.
  intros st st' res E. unfold read in E.
  destruct (heap st !! frame); inversion E; subst;
    (split; [auto |]; split; [exists []; rewrite app_nil_r; auto | auto]).
Qed.

Lemma acts_write r P img : acts r P (write r img) (fun _ => True).
Proof.
  intros st st' res E. inversion E; subst; cbn [heap trace].
  split; [intros k Hne; apply lookup_insert_ne; auto |].
  split; [exists []; rewrite app_nil_r; auto | auto].
Qed.

Lemma acts_if {A} r P (b : bool) (m1 m2 : M A) Q :
  acts r P m1 Q -> acts r P m2 Q -> acts r P (if b then m1 else m2) Q.
Proof. destruct b; auto. Qed.

Lemma acts_for_each {A} r P (l : list A) (body : A -> M unit) :
  (forall a, acts r P (body a) (fun _ => True)) ->
  acts r P (for_each l body) (fun _ => True).
Proof.
  intros Hbody. induction l as [| a l IH]; simpl.
  - eapply acts_weaken; [apply acts_ret | auto].
  - eapply acts_bind; [apply Hbody | intros; apply IH].
Qed.

Ltac act_prim :=
  first [ apply acts_ret | apply acts_lift | apply acts_raise
        | apply acts_log | apply acts_read | apply acts_write ].

(** Walks through a method; what is left to show is that each logged
    operation satisfies the predicate. *)
Ltac act :=
  cbv beta zeta;
  lazymatch goal with
  | |- acts _ _ (_ ≫= _) _ =>
      first [ eapply acts_bind; [ act_prim | intros ? Hpost; hnf in Hpost; subst; act ]
            | eapply acts_bind with (Q := fun _ => True); [ act | intros; act ] ]
  | |- acts _ _ (if _ then _ else _) _ => apply acts_if; act
  | |- acts _ _ (match ?x with _ => _ end) _ => destruct x; act
  | |- acts _ _ (for_each _ _) _ =>
      eapply acts_weaken; [ apply acts_for_each; intros; act | auto ]
  | |- acts _ _ _ _ => eapply acts_weaken; [ act_prim | intros; subst; auto ]
  | |- _ => idtac
  end.

Ltac unfold_drawing :=
  unfold cv2.ellipse, cv2.rectangle, cv2.line, cv2.circle, cv2.putText, cv2.resize,
    np.shape, np.getslice, np.setslice_colour, np.setslice_array, draw.

(** ** Corner boxes, for every detection *)

Lemma corner_radius_bounds size r :
  corner_radius size = Ok r -> self.min_corner_radius <= r <= self.max_corner_radius.
Proof.
  unfold corner_radius.
  destruct (Py.mul (NInt size) (NFloat self.size_factor) ≫= Py.int) as [v | e];
    cbn [mbind result_bind rbind]; [| discriminate].
  intros [= <-]. unfold self.min_corner_radius, self.max_corner_radius. lia.
Qed.

Lemma corner_thickness_bounds size t :
  corner_thickness size = Ok t -> t = 1 \/ t = 2 \/ t = 4 \/ t = 5.
Proof.
  unfold corner_thickness.
  destruct (Py.mul (NInt size) (NFloat self.thickness_factor) ≫= Py.int) as [v | e];
    cbn [mbind result_bind rbind]; [| discriminate].
  intros [= <-]. unfold self.min_thickness, self.max_thickness.
  assert (Hv : v <= 0 \/ v = 1 \/ v = 2 \/ 3 <= v) by lia.
  destruct Hv as [Hv | [Hv | [Hv | Hv]]]; lia.
Qed.

Lemma log_draw_run frame img st ev px :
  heap st !! frame = Some img ->
  exists st',
    (log ev;; draw frame px) st = (st', Ok tt) /\
    trace st' = (trace st ++ [ev])%list /\
    is_Some (heap st' !! frame).
Proof.
  intros Hframe. unfold draw.
  rewrite bind_run. cbn [log]. rewrite bind_run. unfold read. cbn [heap].
  rewrite Hframe. eexists. split; [reflexivity |]. cbn [trace heap].
  split; [reflexivity |]. rewrite lookup_insert_eq. eauto.
Qed.

(** An arc is drawn, or refused by the backend before anything is drawn. *)
Lemma ellipse_cases frame img st center axes angle start_angle end_angle col thickness :
  heap st !! frame = Some img ->
  (exists st',
     cv2.ellipse frame center axes angle start_angle end_angle col thickness st
       = (st', Ok tt) /\
     trace st' =
       (trace st ++
          [Ellipse frame center axes angle start_angle end_angle col thickness])%list /\
     is_Some (heap st' !! frame)) \/
  cv2.ellipse frame center axes angle start_angle end_angle col thickness st
    = (st, Raise Cv2Error).
Proof.
  intros Hframe. unfold cv2.ellipse.
  rewrite lift_bind_run. unfold cv2.as_ints.
  destruct (forallb cv2.fits_int _); [| right; reflexivity].
  rewrite lift_bind_run. unfold cv2.CV_Assert.
  destruct ((0 <=? fst axes) && (0 <=? snd axes) && (thickness <=? cv2.MAX_THICKNESS));
    [| right; reflexivity].
  left. apply (log_draw_run _ _ _ _ _ Hframe).
Qed.

(** The coordinates and the drawing parameters never fail the way the
    backend does. *)
Lemma int_val_no_cv2 (v : pyval) : Py.int_val v <> Raise Cv2Error.
Proof.
  intros Hraise. unfold Py.int_val, Py.num, Py.int, rbind in Hraise.
  repeat case_match; discriminate.
Qed.

Lemma getitem_int_no_cv2 (d : gmap string pyval) (key : string) :
  Py.getitem d key ≫= Py.int_val <> Raise Cv2Error.
Proof.
  unfold Py.getitem. destruct (d !! key); cbn [mbind result_bind rbind];
    [apply int_val_no_cv2 | discriminate].
Qed.

Lemma mul_int_no_cv2 (n : Z) (c : spec_float) :
  Py.mul (NInt n) (NFloat c) ≫= Py.int <> Raise Cv2Error.
Proof.
  intros Hraise. unfold Py.mul, Py.binop, Py.to_float in Hraise. cbv zeta in Hraise.
  destruct (PyFloat.is_finite (PyFloat.of_Z n));
    cbn [mbind result_bind rbind] in Hraise; [| discriminate].
  unfold Py.int in Hraise.
  destruct (PyFloat.trunc _); [discriminate |].
  destruct (PyFloat.mul _ _); discriminate.
Qed.

Lemma corner_radius_no_cv2 (size : Z) : corner_radius size <> Raise Cv2Error.
Proof.
  unfold corner_radius. pose proof (mul_int_no_cv2 size self.size_factor) as Hmul.
  destruct (Py.mul (NInt size) (NFloat self.size_factor) ≫= Py.int);
    cbn [mbind result_bind rbind]; [discriminate | exact Hmul].
Qed.

Lemma corner_thickness_no_cv2 (size : Z) : corner_thickness size <> Raise Cv2Error.
Proof.
  unfold corner_thickness. pose proof (mul_int_no_cv2 size self.thickness_factor) as Hmul.
  destruct (Py.mul (NInt size) (NFloat self.thickness_factor) ≫= Py.int);
    cbn [mbind result_bind rbind]; [discriminate | exact Hmul].
Qed.

(** Either a coordinate or a drawing parameter cannot be computed, and then
    nothing happens; or all four arcs are drawn; or the backend refuses one of
    them, after the arcs before it were drawn. *)
Lemma annotate_bbox_corners_cases frame img detection st :
  heap st !! frame = Some img ->
  (exists e, annotate_bbox_corners frame detection st = (st, Raise e) /\ e <> Cv2Error) \/
  (exists x1 y1 x2 y2 r t,
     Py.getitem detection "x1" ≫= Py.int_val = Ok x1 /\
     Py.getitem detection "y1" ≫= Py.int_val = Ok y1 /\
     Py.getitem detection "x2" ≫= Py.int_val = Ok x2 /\
     Py.getitem detection "y2" ≫= Py.int_val = Ok y2 /\
     corner_radius (Z.min (x2 - x1) (y2 - y1)) = Ok r /\
     corner_thickness (Z.min (x2 - x1) (y2 - y1)) = Ok t /\
     ((exists st',
         annotate_bbox_corners frame detection st = (st', Ok frame) /\
         trace st' = (trace st ++
           [ Ellipse frame (x1 + r, y1 + r) (r, r) 0 180 270 (fetch_bbox_colour detection) t;
             Ellipse frame (x1 + r, y2 - r) (r, r) 0 90 180 (fetch_bbox_colour detection) t;
             Ellipse frame (x2 - r, y1 + r) (r, r) 0 270 360 (fetch_bbox_colour detection) t;
             Ellipse frame (x2 - r, y2 - r) (r, r) 0 0 90 (fetch_bbox_colour detection) t
           ])%list) \/
      (exists st' evs,
         annotate_bbox_corners frame detection st = (st', Raise Cv2Error) /\
         trace st' = (trace st ++ evs)%list /\ (length evs <= 3)%nat))).
Proof.
  intros Hframe. unfold annotate_bbox_corners.
  rewrite lift_bind_run.
  destruct (Py.getitem detection "x1" ≫= Py.int_val) as [x1 | e] eqn:Hx1;
    [| left; exists e; split;
       [reflexivity | intros ->; exact (getitem_int_no_cv2 _ _ Hx1)]].
  rewrite lift_bind_run.
  destruct (Py.getitem detection "y1" ≫= Py.int_val) as [y1 | e] eqn:Hy1;
    [| left; exists e; split;
       [reflexivity | intros ->; exact (getitem_int_no_cv2 _ _ Hy1)]].
  rewrite lift_bind_run.
  destruct (Py.getitem detection "x2" ≫= Py.int_val) as [x2 | e] eqn:Hx2;
    [| left; exists e; split;
       [reflexivity | intros ->; exact (getitem_int_no_cv2 _ _ Hx2)]].
  rewrite lift_bind_run.
  destruct (Py.getitem detection "y2" ≫= Py.int_val) as [y2 | e] eqn:Hy2;
    [| left; exists e; split;
       [reflexivity | intros ->; exact (getitem_int_no_cv2 _ _ Hy2)]].
  cbv zeta. rewrite lift_bind_run.
  destruct (corner_radius (Z.min (x2 - x1) (y2 - y1))) as [r | e] eqn:Hr;
    [| left; exists e; split;
       [reflexivity | intros ->; exact (corner_radius_no_cv2 _ Hr)]].
  rewrite lift_bind_run.
  destruct (corner_thickness (Z.min (x2 - x1) (y2 - y1))) as [t | e] eqn:Ht;
    [| left; exists e; split;
       [reflexivity | intros ->; exact (corner_thickness_no_cv2 _ Ht)]].
  right. exists x1, y1, x2, y2, r, t.
  do 6 (split; [assumption || reflexivity |]).
  set (colour := fetch_bbox_colour detection). clearbody colour.
  rewrite bind_run. cbn [for_each]. cbv beta iota.
  destruct (ellipse_cases frame img st (x1 + r, y1 + r) (r, r)
              0 180 270 colour t Hframe) as [(st1 & E1 & T1 & [img1 F1]) | E1];
    rewrite bind_run, E1;
    [| right; exists st, []; rewrite app_nil_r; repeat split; cbn [length]; lia].
  destruct (ellipse_cases frame img1 st1 (x1 + r, y2 - r) (r, r)
              0 90 180 colour t F1) as [(st2 & E2 & T2 & [img2 F2]) | E2];
    rewrite bind_run, E2;
    [| right; eexists _, _; split; [reflexivity |]; split;
       [exact T1 | cbn [length]; lia]].
  destruct (ellipse_cases frame img2 st2 (x2 - r, y1 + r) (r, r)
              0 270 360 colour t F2) as [(st3 & E3 & T3 & [img3 F3]) | E3];
    rewrite bind_run, E3;
    [| right; eexists _, _; split; [reflexivity |]; split;
       [rewrite T2, T1, <- app_assoc; reflexivity | cbn [length app]; lia]].
  destruct (ellipse_cases frame img3 st3 (x2 - r, y2 - r) (r, r)
              0 0 90 colour t F3) as [(st4 & E4 & T4 & _) | E4];
    rewrite bind_run, E4;
    [| right; eexists _, _; split; [reflexivity |]; split;
       [rewrite T3, T2, T1, <- !app_assoc; reflexivity | cbn [length app]; lia]].
  left. exists st4. split; [reflexivity |].
  rewrite T4, T3, T2, T1. rewrite <- !app_assoc. reflexivity.
Qed.


(** X2. When [annotate_bbox_corners] returns on a frame of the store, it
    returns that frame and has drawn exactly four arcs on it, in the colour
    of [fetch_bbox_colour], centred [r] inside the four corners of the box:
    whatever the size of the box, the radius [r] is between 5 and 30 and the
    thickness is 1, 2, 4 or 5. *)
Theorem annotate_bbox_corners_arcs
    (frame : nat) (img : image) (detection : gmap string pyval) (st st' : state) (out : nat) :
  heap st !! frame = Some img ->
  annotate_bbox_corners frame detection st = (st', Ok out) ->
  out = frame /\
  exists x1 y1 x2 y2 r t,
    Py.getitem detection "x1" ≫= Py.int_val = Ok x1 /\
    Py.getitem detection "y1" ≫= Py.int_val = Ok y1 /\
    Py.getitem detection "x2" ≫= Py.int_val = Ok x2 /\
    Py.getitem detection "y2" ≫= Py.int_val = Ok y2 /\
    5 <= r <= 30 /\ (t = 1 \/ t = 2 \/ t = 4 \/ t = 5) /\
    trace st' = (trace st ++
      [ Ellipse frame (x1 + r, y1 + r) (r, r) 0 180 270 (fetch_bbox_colour detection) t;
        Ellipse frame (x1 + r, y2 - r) (r, r) 0 90 180 (fetch_bbox_colour detection) t;
        Ellipse frame (x2 - r, y1 + r) (r, r) 0 270 360 (fetch_bbox_colour detection) t;
        Ellipse frame (x2 - r, y2 - r) (r, r) 0 0 90 (fetch_bbox_colour detection) t ])%list.
Proof.
  intros Hframe Hrun.
  destruct (annotate_bbox_corners_cases frame img detection st Hframe)
    as [(e' & E & _) | (x1 & y1 & x2 & y2 & r & t & H1 & H2 & H3 & H4 & Hr & Ht &
                        [(st1 & E & T) | (st1 & evs & E & _)])];
    rewrite E in Hrun; try discriminate Hrun.
  injection Hrun as <- <-. split; [reflexivity |].
  exists x1, y1, x2, y2, r, t. repeat split; try assumption.
  - apply (corner_radius_bounds _ _ Hr).
  - apply (corner_radius_bounds _ _ Hr).
  - apply (corner_thickness_bounds _ _ Ht).
Qed.

(** X3. A larger box never gets a smaller radius or a thinner stroke (sizes
    up to ten thousand pixels either way). *)
Theorem corner_parameters_monotone (size size' r r' t t' : Z) :
  -10000 <= size -> size <= size' -> size' <= 10000 ->
  corner_radius size = Ok r -> corner_radius size' = Ok r' ->
  corner_thickness size = Ok t -> corner_thickness size' = Ok t' ->
  r <= r' /\ t <= t'.
Proof.
  intros Hlo Hle Hhi Hr Hr' Ht Ht'.
  destruct (corner_parameters size ltac:(lia)) as [Er Et].
  destruct (corner_parameters size' ltac:(lia)) as [Er' Et'].
  rewrite Er in Hr. rewrite Er' in Hr'. rewrite Et in Ht. rewrite Et' in Ht'.
  injection Hr as <-. injection Hr' as <-. injection Ht as <-. injection Ht' as <-.
  pose proof (Z.quot_le_mono size size' 2 ltac:(lia) Hle).
  pose proof (Z.quot_le_mono size size' 100 ltac:(lia) Hle).
  unfold clamp. lia.
Qed.

(** ** Text size, for every backend *)

(** The loop stops at the first scale of the chain at which the text fits,
    and hands back the measurement taken at that scale. *)
Lemma shrink_to_fit_first_fit floor scale chain :
  shrinks floor scale chain ->
  forall fuel label max_text_width steps,
    (length chain <= fuel)%nat ->
    exists n scale',
      shrink_to_fit fuel label max_text_width floor
        (cv2.getTextSize label self.font scale self.font_thickness) scale steps
      = Ok (cv2.getTextSize label self.font scale' self.font_thickness, scale',
            (steps + n)%nat) /\
      (scale :: chain) !! n = Some scale' /\
      (forall j sj, (j < n)%nat -> (scale :: chain) !! j = Some sj ->
         max_text_width < fst (cv2.getTextSize label self.font sj self.font_thickness)) /\
      (fst (cv2.getTextSize label self.font scale' self.font_thickness) <= max_text_width \/
       Py.gt scale' floor = false).
Proof.
  induction 1 as [s Hstop | s s' l Hgo Hsub _ IH];
    intros fuel label max_text_width steps Hfuel;
    rewrite shrink_to_fit_eq.
  - rewrite Hstop, andb_false_r. exists 0%nat, s.
    rewrite Nat.add_0_r. repeat split; auto. intros j sj Hj. lia.
  - rewrite Hgo, andb_true_r.
    destruct (Z.ltb_spec max_text_width
                (fst (cv2.getTextSize label self.font s self.font_thickness)))
      as [Hwide | Hfits].
    + destruct fuel as [| fuel']; [simpl in Hfuel; lia |].
      rewrite Hsub. cbn [mbind result_bind rbind].
      destruct (IH fuel' label max_text_width (S steps)) as (n & sc & E & Hn & Hbefore & Hend).
      { simpl in Hfuel. lia. }
      exists (S n), sc. rewrite E.
      replace (S steps + n)%nat with (steps + S n)%nat by lia.
      repeat split; auto.
      intros j sj Hj Hlook. destruct j as [| j].
      * injection Hlook as <-. exact Hwide.
      * apply (Hbefore j sj); [lia | exact Hlook].
    + exists 0%nat, s. rewrite Nat.add_0_r. repeat split; auto.
      intros j sj Hj. lia.
Qed.

Lemma fetch_text_properties_run label frame img st :
  heap st !! frame = Some img ->
  exists n scale,
    fetch_text_properties label frame st
      = (st, Ok (cv2.getTextSize label self.font scale self.font_thickness, scale)) /\
    (self.font_scale :: scales_below_2) !! n = Some scale /\
    (forall j sj, (j < n)%nat -> (self.font_scale :: scales_below_2) !! j = Some sj ->
       width img - self.label_padding * 2
       < fst (cv2.getTextSize label self.font sj self.font_thickness)) /\
    (fst (cv2.getTextSize label self.font scale self.font_thickness)
       <= width img - self.label_padding * 2 \/
     Py.gt scale (NFloat (PyFloat.literal 8 10)) = false).
Proof.
  intros Hframe. unfold fetch_text_properties.
  rewrite bind_run. unfold np.shape. rewrite bind_run. unfold read. rewrite Hframe.
  cbn [mret M_ret ret].
  rewrite lift_bind_run.
  destruct (shrink_to_fit_first_fit _ _ _ shrinks_from_2 loop_fuel label
              (width img - self.label_padding * 2) 0)
    as (n & sc & E & Hn & Hbefore & Hend).
  { unfold loop_fuel. simpl. lia. }
  rewrite E. exists n, sc. repeat split; auto.
Qed.

Lemma scales_in_range :
  Forall (fun s => Py.lt s (NFloat (S754_finite false 7205759403792787 (-53))) = false /\
                   Py.gt s (NInt 2) = false)
    (self.font_scale :: scales_below_2).
Proof.
  unfold scales_below_2.
  repeat (apply Forall_cons; split; [split; vm_compute; reflexivity |]).
  apply Forall_nil; exact I.
Qed.

(** X4. On a frame of the store [fetch_text_properties] always returns, and
    changes neither the store nor the log. The size it returns is the
    measurement of the label at the scale it returns, and that scale lies
    between [0.7999999999999993] and 2, whatever the backend measures. *)
Theorem fetch_text_properties_consistent
    (label : string) (frame : nat) (img : image) (st : state) :
  heap st !! frame = Some img ->
  exists scale,
    fetch_text_properties label frame st
      = (st, Ok (cv2.getTextSize label self.font scale self.font_thickness, scale)) /\
    Py.lt scale (NFloat (S754_finite false 7205759403792787 (-53))) = false /\
    Py.gt scale (NInt 2) = false.
Proof.
  intros Hframe.
  destruct (fetch_text_properties_run label frame img st Hframe)
    as (n & scale & E & Hn & _ & _).
  exists scale. split; [exact E |].
  exact (proj1 (Forall_lookup _ _) scales_in_range n scale Hn).
Qed.

(** X5. The scale [fetch_text_properties] returns is the first one of
    2, 1.9, 1.7999999999999998, ... at which the label is no wider than the
    frame less twice the label padding: at every scale before it the label
    was measured too wide. If it does not fit at the returned scale either,
    that scale is no longer above 0.8. *)
Theorem fetch_text_properties_first_fit
    (label : string) (frame : nat) (img : image) (st st' : state)
    (text_size : Z * Z) (scale : pynum) :
  heap st !! frame = Some img ->
  fetch_text_properties label frame st = (st', Ok (text_size, scale)) ->
  exists n,
    (self.font_scale :: scales_below_2) !! n = Some scale /\
    (forall j sj, (j < n)%nat -> (self.font_scale :: scales_below_2) !! j = Some sj ->
       width img - 2 * self.label_padding
       < fst (cv2.getTextSize label self.font sj self.font_thickness)) /\
    (fst text_size <= width img - 2 * self.label_padding \/
     Py.gt scale (NFloat (PyFloat.literal 8 10)) = false).
Proof.
  intros Hframe Hrun.
  destruct (fetch_text_properties_run label frame img st Hframe)
    as (n & sc & E & Hn & Hbefore & Hend).
  rewrite E in Hrun. injection Hrun as _ <- <-.
  exists n. split; [exact Hn |]. split.
  - intros j sj Hj Hlook. specialize (Hbefore j sj Hj Hlook). lia.
  - destruct Hend as [Hfit | Hfloor]; [left; lia | right; exact Hfloor].
Qed.

(** ** Label geometry *)

(** X6. [get_label_dimensions] is the text size of [fetch_text_properties]
    with the label padding on both sides of each axis, and it is the width
    and height of the box [calculate_label_position] makes for that text
    size; it changes neither the store nor the log. *)
Theorem get_label_dimensions_agrees
    (label : string) (frame : nat) (img : image) (st : state) :
  heap st !! frame = Some img ->
  exists text_width text_height scale,
    fetch_text_properties label frame st = (st, Ok (text_width, text_height, scale)) /\
    get_label_dimensions label frame st
      = (st, Ok (text_width + 2 * self.label_padding,
                 text_height + 2 * self.label_padding)) /\
    forall bbox_bottom center_point position,
      calculate_label_position bbox_bottom center_point (text_width, text_height)
        = Ok position ->
      position !! "width" = Some (text_width + 2 * self.label_padding) /\
      position !! "height" = Some (text_height + 2 * self.label_padding).
Proof.
  intros Hframe.
  destruct (fetch_text_properties_run label frame img st Hframe) as (n & scale & E & _).
  destruct (cv2.getTextSize label self.font scale self.font_thickness)
    as [text_width text_height] eqn:Hsize.
  exists text_width, text_height, scale. split; [exact E |]. split.
  - unfold get_label_dimensions. rewrite bind_run, E. reflexivity.
  - intros bbox_bottom center_point position. unfold calculate_label_position.
    destruct (Py.sub (fst center_point) (NInt (text_width `div` 2)) ≫= Py.int) as [x | e];
      cbn [mbind result_bind rbind]; [| discriminate].
    intros [= <-]. split; reflexivity.
Qed.


Lemma rectangle_run frame img st pt1 pt2 col thickness :
  heap st !! frame = Some img ->
  Forall (fun z => cv2.fits_int z = true)
    [fst pt1; snd pt1; fst pt2; snd pt2; thickness] ->
  thickness <= cv2.MAX_THICKNESS ->
  exists st',
    cv2.rectangle frame pt1 pt2 col thickness st = (st', Ok tt) /\
    trace st' = (trace st ++ [Rectangle frame pt1 pt2 col thickness])%list /\
    is_Some (heap st' !! frame).
Proof.
  intros Hframe Hfits Hthickness. unfold cv2.rectangle.
  rewrite lift_bind_run, (as_ints_ok _ Hfits), lift_bind_run.
  rewrite (proj2 (Z.leb_le _ _) Hthickness). cbn [cv2.CV_Assert].
  apply (log_draw_run _ _ _ _ _ Hframe).
Qed.

Lemma putText_run frame img st text org font font_scale col thickness line_type :
  heap st !! frame = Some img ->
  Forall (fun z => cv2.fits_int z = true) [fst org; snd org; font; thickness; line_type] ->
  exists st',
    cv2.putText frame text org font font_scale col thickness line_type st = (st', Ok tt) /\
    trace st' = (trace st ++ [PutText frame text org font_scale col thickness])%list /\
    is_Some (heap st' !! frame).
Proof.
  intros Hframe Hfits. unfold cv2.putText.
  rewrite lift_bind_run, (as_ints_ok _ Hfits).
  apply (log_draw_run _ _ _ _ _ Hframe).
Qed.

(** A filled corner of a label box. *)
Lemma label_corner_run frame img st cx cy start_angle end_angle :
  heap st !! frame = Some img ->
  cv2.fits_int cx = true -> cv2.fits_int cy = true ->
  exists st',
    cv2.ellipse frame (cx, cy) (self.border_radius, self.border_radius)
      0 start_angle end_angle self.bg_colour (-1) st = (st', Ok tt) /\
    trace st' =
      (trace st ++
         [Ellipse frame (cx, cy) (self.border_radius, self.border_radius)
            0 start_angle end_angle self.bg_colour (-1)])%list /\
    is_Some (heap st' !! frame).
Proof.
  intros Hframe Hx Hy. apply (ellipse_run frame img); [exact Hframe | | reflexivity].
  apply as_ints_ok. cbn [fst snd]. repeat constructor; assumption || reflexivity.
Qed.

Lemma item_lookup (d : gmap string Z) key z : d !! key = Some z -> PySeq.item d key = Ok z.
Proof. intros E. unfold PySeq.item. rewrite E. reflexivity. Qed.

(** X8. On a frame of the store and a position with its four keys, all of
    whose corner coordinates fit a C [int], [draw_label_background] draws two
    filled rectangles and four filled quarter ellipses of radius
    [border_radius] in the background colour. When the box is at least twice
    the border radius wide and high, none of them reaches outside the box
    [x .. x + width] by [y .. y + height]. *)
Theorem draw_label_background_inside
    (frame : nat) (img : image) (position : gmap string Z) (x y w h : Z) (st : state) :
  heap st !! frame = Some img ->
  position !! "x" = Some x -> position !! "y" = Some y ->
  position !! "width" = Some w -> position !! "height" = Some h ->
  let b := self.border_radius in
  let evs :=
    [ Rectangle frame (x + b, y) (x + w - b, y + h) self.bg_colour (-1);
      Rectangle frame (x, y + b) (x + w, y + h - b) self.bg_colour (-1);
      Ellipse frame (x + b, y + b) (b, b) 0 180 270 self.bg_colour (-1);
      Ellipse frame (x + w - b, y + b) (b, b) 0 270 360 self.bg_colour (-1);
      Ellipse frame (x + b, y + h - b) (b, b) 0 90 180 self.bg_colour (-1);
      Ellipse frame (x + w - b, y + h - b) (b, b) 0 0 90 self.bg_colour (-1) ] in
  Forall (fun z => cv2.fits_int z = true)
    [x; x + b; x + w - b; x + w; y; y + b; y + h - b; y + h] ->
  exists st',
    draw_label_background frame position st = (st', Ok frame) /\
    trace st' = (trace st ++ evs)%list /\
    (2 * b <= w -> 2 * b <= h -> Forall (within x y w h) evs).
Proof.
  intros Hframe Hx Hy Hw Hh b evs Hfits.
  repeat (apply Forall_cons in Hfits as [? Hfits]).
  unfold draw_label_background.
  rewrite lift_bind_run, (item_lookup _ _ _ Hx), lift_bind_run, (item_lookup _ _ _ Hy),
    lift_bind_run, (item_lookup _ _ _ Hw), lift_bind_run, (item_lookup _ _ _ Hh).
  fold b.
  destruct (rectangle_run frame img st (x + b, y) (x + w - b, y + h) self.bg_colour (-1)
              Hframe) as (st1 & E1 & T1 & [img1 F1]);
    [cbn [fst snd]; repeat constructor; assumption || reflexivity
    | unfold cv2.MAX_THICKNESS; lia |].
  destruct (rectangle_run frame img1 st1 (x, y + b) (x + w, y + h - b) self.bg_colour (-1)
              F1) as (st2 & E2 & T2 & [img2 F2]);
    [cbn [fst snd]; repeat constructor; assumption || reflexivity
    | unfold cv2.MAX_THICKNESS; lia |].
  destruct (label_corner_run frame img2 st2 (x + b) (y + b) 180 270 F2)
    as (st3 & E3 & T3 & [img3 F3]); [assumption | assumption |].
  destruct (label_corner_run frame img3 st3 (x + w - b) (y + b) 270 360 F3)
    as (st4 & E4 & T4 & [img4 F4]); [assumption | assumption |].
  destruct (label_corner_run frame img4 st4 (x + b) (y + h - b) 90 180 F4)
    as (st5 & E5 & T5 & [img5 F5]); [assumption | assumption |].
  destruct (label_corner_run frame img5 st5 (x + w - b) (y + h - b) 0 90 F5)
    as (st6 & E6 & T6 & _); [assumption | assumption |].
  fold b in E3, E4, E5, E6, T3, T4, T5, T6.
  assert (Hb : 0 <= b) by (subst b; unfold self.border_radius; lia).
  clearbody b.
  exists st6. split; [| split].
  - rewrite bind_run, E1, bind_run, E2. cbv zeta. rewrite bind_run. cbn [for_each].
    cbv beta iota.
    rewrite bind_run, E3, bind_run, E4, bind_run, E5, bind_run, E6. reflexivity.
  - subst evs. rewrite T6, T5, T4, T3, T2, T1. rewrite <- !app_assoc. reflexivity.
  - intros Hwide Hhigh. subst evs.
    repeat (apply Forall_cons; split; [unfold within; cbn [event_box]; lia |]).
    apply Forall_nil; exact I.
Qed.

(** X9. The text of a label is placed inside the box that
    [calculate_label_position] makes for its size: [draw_label_text] starts it
    [label_padding] right of the left edge, which leaves [label_padding] to
    the right edge as well, and puts its baseline [label_padding] above the
    bottom edge. The origin of the text,
    [(x + label_padding, y + text_height + label_padding)], has to fit a C
    [int]. *)
Theorem draw_label_text_margins
    (frame : nat) (img : image) (label : string) (bbox_bottom : Z)
    (center_point : pynum * pynum) (text_width text_height : Z) (font_scale : pynum)
    (position : gmap string Z) (x y w h : Z) (st : state) :
  heap st !! frame = Some img ->
  calculate_label_position bbox_bottom center_point (text_width, text_height) = Ok position ->
  position !! "x" = Some x -> position !! "y" = Some y ->
  position !! "width" = Some w -> position !! "height" = Some h ->
  cv2.fits_int (x + self.label_padding) = true ->
  cv2.fits_int (y + text_height + self.label_padding) = true ->
  exists st' text_x text_y,
    draw_label_text frame label position (text_width, text_height) font_scale st
      = (st', Ok frame) /\
    trace st' = (trace st ++
      [PutText frame label (text_x, text_y) font_scale self.font_colour
         self.font_thickness])%list /\
    text_x - x = self.label_padding /\
    (x + w) - (text_x + text_width) = self.label_padding /\
    (y + h) - text_y = self.label_padding.
Proof.
  intros Hframe Hpos Hx Hy Hw Hh Fx Fy. unfold calculate_label_position in Hpos.
  destruct (Py.sub (fst center_point) (NInt (text_width `div` 2)) ≫= Py.int) as [x0 | e];
    cbn [mbind result_bind rbind] in Hpos; [| discriminate].
  injection Hpos as <-.
  assert (Ew : w = text_width + 2 * self.label_padding)
    by (apply (inj Some); rewrite <- Hw; reflexivity).
  assert (Eh : h = text_height + 2 * self.label_padding)
    by (apply (inj Some); rewrite <- Hh; reflexivity).
  set (position := ({[ "x" := x0;
                        "y" := bbox_bottom + text_height + self.label_padding;
                        "width" := text_width + 2 * self.label_padding;
                        "height" := text_height + 2 * self.label_padding ]}
                     : gmap string Z)) in *.
  clearbody position.
  destruct (putText_run frame img st label
              (x + self.label_padding, y + text_height + self.label_padding)
              self.font font_scale self.font_colour self.font_thickness cv2.LINE_AA Hframe)
    as (st1 & E1 & T1 & _).
  { cbn [fst snd]. repeat constructor; assumption || reflexivity. }
  exists st1, (x + self.label_padding), (y + text_height + self.label_padding).
  split; [| split; [exact T1 | lia]].
  unfold draw_label_text.
  rewrite lift_bind_run, (item_lookup _ _ _ Hx). cbv zeta.
  rewrite lift_bind_run, (item_lookup _ _ _ Hy). cbv zeta. cbn [snd].
  rewrite bind_run, E1. reflexivity.
Qed.

(** ** Which array the methods draw on *)

Ltac act_with prim :=
  cbv beta zeta;
  lazymatch goal with
  | |- acts ?r _ (_ ≫= _) _ =>
      first [ eapply acts_bind; [ prim | intros ? Hpost; hnf in Hpost; subst; act_with prim ]
            | eapply acts_bind with (Q := fun out => out = r);
              [ act_with prim | intros ? Hpost; hnf in Hpost; subst; act_with prim ]
            | eapply acts_bind with (Q := fun _ => True);
              [ act_with prim | intros; act_with prim ] ]
  | |- acts _ _ (if _ then _ else _) _ => apply acts_if; act_with prim
  | |- acts _ _ (match ?x with _ => _ end) _ => destruct x; act_with prim
  | |- acts _ _ (for_each _ _) _ =>
      eapply acts_weaken; [ apply acts_for_each; intros; act_with prim | auto ]
  | |- acts _ _ _ _ => eapply acts_weaken; [ prim | intros; subst; auto ]
  | |- _ => idtac
  end.

Ltac on_frame := try (intros ? Hon; cbn in Hon; congruence).

Lemma acts_annotate_bbox_corners frame detection :
  acts frame (on frame) (annotate_bbox_corners frame detection) (fun out => out = frame).
Proof. unfold annotate_bbox_corners. unfold_drawing. act_with act_prim; on_frame. Qed.

Lemma acts_fetch_text_properties r P label frame :
  acts r P (fetch_text_properties label frame) (fun _ => True).
Proof. unfold fetch_text_properties. unfold_drawing. act_with act_prim. Qed.

Lemma acts_draw_label_background frame position :
  acts frame (on frame) (draw_label_background frame position) (fun out => out = frame).
Proof. unfold draw_label_background. unfold_drawing. act_with act_prim; on_frame. Qed.

Lemma acts_draw_label_text frame label position text_size font_scale :
  acts frame (on frame) (draw_label_text frame label position text_size font_scale)
    (fun out => out = frame).
Proof. unfold draw_label_text. unfold_drawing. act_with act_prim; on_frame. Qed.

Lemma acts_annotate_center_point_trail frame center_points :
  acts frame (on frame) (annotate_center_point_trail frame center_points)
    (fun out => out = frame).
Proof.
  unfold annotate_center_point_trail, annotate_center_point. unfold_drawing.
  act_with act_prim; on_frame.
Qed.

Lemma acts_annotate_label frame detection vision_type :
  acts frame (on frame) (annotate_label frame detection vision_type)
    (fun out => out = frame).
Proof.
  unfold annotate_label.
  act_with ltac:(first [ act_prim | apply acts_annotate_center_point_trail
                       | apply acts_fetch_text_properties
                       | apply acts_draw_label_background
                       | apply acts_draw_label_text ]).
Qed.

Lemma acts_annotate_frame frame detections vision_type :
  acts frame (on frame) (annotate_frame frame detections vision_type)
    (fun out => out = frame).
Proof.
  induction detections as [| detection detections IH]; cbn [annotate_frame].
  - apply acts_ret.
  - eapply acts_bind; [apply acts_annotate_bbox_corners |].
    intros ? ->.
    eapply acts_bind; [apply acts_annotate_label |].
    intros ? ->. exact IH.
Qed.

(** X12. [annotate_frame] works in place: whatever the detections and the
    vision type, and whether it returns or raises, every arc, rectangle,
    line, circle and text it draws is drawn on the frame it was given, every
    other array of the store is left as it was, and the frame it returns is
    the one it was given. *)
Theorem annotate_frame_in_place
    (frame : nat) (detections : list (gmap string pyval)) (vision_type : string)
    (st st' : state) (res : result nat) :
  annotate_frame frame detections vision_type st = (st', res) ->
  (forall k, k <> frame -> heap st' !! k = heap st !! k) /\
  (exists evs, trace st' = (trace st ++ evs)%list /\
               Forall (fun ev => forall f, event_frame ev = Some f -> f = frame) evs) /\
  (forall out, res = Ok out -> out = frame).
Proof. apply acts_annotate_frame. Qed.

Lemma bind_assoc_run {A B C} (m : M A) (k : A -> M B) (h : B -> M C) st :
  ((m ≫= k) ≫= h) st = (m ≫= fun a => k a ≫= h) st.
Proof.
  rewrite !bind_run. destruct (m st) as [st1 [a | e]]; [| reflexivity].
  rewrite bind_run. reflexivity.
Qed.

(** X13. Annotating with a list of detections is annotating with its first
    part and then, on the frame that comes back, with the rest; if the first
    part raises, the rest is not drawn. *)
Theorem annotate_frame_app
    (frame : nat) (detections more : list (gmap string pyval)) (vision_type : string)
    (st : state) :
  annotate_frame frame (detections ++ more) vision_type st =
  match annotate_frame frame detections vision_type st with
  | (st', Ok frame') => annotate_frame frame' more vision_type st'
  | (st', Raise e) => (st', Raise e)
  end.
Proof.
  revert frame st. induction detections as [| detection detections IH]; intros frame st.
  - reflexivity.
  - cbn [app annotate_frame]. rewrite !bind_run.
    destruct (annotate_bbox_corners frame detection st) as [st1 [f1 | e]]; [| reflexivity].
    rewrite !bind_run.
    destruct (annotate_label f1 detection vision_type st1) as [st2 [f2 | e]];
      [| reflexivity].
    apply IH.
Qed.

(** X11. Only the vision type [object_tracking] draws a trail: for every
    other vision type [annotate_label] logs no line and no circle, whatever
    centre points the detection carries. *)
Theorem annotate_label_no_trail
    (frame : nat) (detection : gmap string pyval) (vision_type : string)
    (st st' : state) (res : result nat) :
  vision_type <> "object_tracking" ->
  annotate_label frame detection vision_type st = (st', res) ->
  exists evs, trace st' = (trace st ++ evs)%list /\
              Forall (fun ev => is_trail_event ev = false) evs.
Proof.
  intros Hvt Hrun.
  assert (A : acts frame (fun ev => is_trail_event ev = false)
                (annotate_label frame detection vision_type) (fun _ => True)).
  { unfold annotate_label.
    destruct (String.eqb_spec vision_type "object_tracking") as [-> | _]; [congruence |].
    unfold fetch_text_properties, draw_label_background, draw_label_text.
    unfold_drawing. act_with act_prim; reflexivity. }
  destruct (A _ _ _ Hrun) as (_ & Hev & _). exact Hev.
Qed.

(** ** Trails *)

Lemma last_at {A} (l : list A) (d : A) :
  l <> [] -> l !! Nat.pred (length l) = Some (List.last l d).
Proof.
  induction l as [| a l IH]; intros Hne; [congruence |].
  destruct l as [| b l]; [reflexivity |].
  change (List.last (a :: b :: l) d) with (List.last (b :: l) d).
  rewrite <- IH by discriminate. reflexivity.
Qed.

Lemma index_nat (l : list pyval) (k : nat) (a : pyval) :
  l !! k = Some a -> PySeq.index (VList l) (Z.of_nat k) = Ok a.
Proof.
  intros E. unfold PySeq.index.
  destruct (Z.ltb_spec (Z.of_nat k) 0) as [Hneg | _]; [lia |].
  destruct (Z.ltb_spec (Z.of_nat k) 0) as [Hneg | _]; [lia |].
  rewrite Nat2Z.id, E. reflexivity.
Qed.

Lemma as_point_val (p : Z * Z) :
  fits_point p = true -> cv2.as_point (point_val p) = Ok p.
Proof.
  destruct p as [px py]. unfold fits_point. cbn [fst snd].
  rewrite andb_true_iff. intros [Hx Hy].
  cbn [cv2.as_point point_val cv2.as_coordinate fst snd]. rewrite Hx, Hy. reflexivity.
Qed.

Lemma last_Forall {A} (P : A -> Prop) (l : list A) (d : A) :
  Forall P l -> P d -> P (List.last l d).
Proof.
  intros Hall Hd. induction Hall as [| a l Ha _ IH]; [exact Hd |].
  destruct l as [| b l]; [exact Ha | exact IH].
Qed.

Lemma line_run frame img st p q col thickness :
  heap st !! frame = Some img ->
  fits_point p = true -> fits_point q = true ->
  0 < thickness <= cv2.MAX_THICKNESS ->
  exists st',
    cv2.line frame (point_val p) (point_val q) col thickness st = (st', Ok tt) /\
    trace st' = (trace st ++ [Line frame p q col thickness])%list /\
    is_Some (heap st' !! frame).
Proof.
  intros Hframe Hp Hq Hthickness. unfold cv2.line.
  rewrite lift_bind_run, (as_point_val _ Hp), lift_bind_run, (as_point_val _ Hq).
  rewrite lift_bind_run, as_ints_ok
    by (repeat constructor; apply fits_int_spec; unfold cv2.MAX_THICKNESS in *; lia).
  rewrite lift_bind_run.
  rewrite (proj2 (Z.ltb_lt _ _) (proj1 Hthickness)),
    (proj2 (Z.leb_le _ _) (proj2 Hthickness)).
  cbn [andb cv2.CV_Assert].
  apply (log_draw_run _ _ _ _ _ Hframe).
Qed.

Lemma annotate_center_point_run frame img st p :
  heap st !! frame = Some img ->
  fits_point p = true ->
  exists st',
    annotate_center_point frame (point_val p) st = (st', Ok frame) /\
    trace st' = (trace st ++
      [Circle frame p self.center_point_radius (self.bbox_colours !!! "offender")
         self.thickness])%list /\
    is_Some (heap st' !! frame).
Proof.
  intros Hframe Hp. unfold annotate_center_point.
  rewrite lift_bind_run.
  assert (Hunpack : PySeq.unpack2 (point_val p) = Ok (VInt (fst p), VInt (snd p)))
    by reflexivity.
  rewrite Hunpack. cbv beta iota.
  rewrite bind_run. unfold cv2.circle.
  change (VTuple [VInt (fst p); VInt (snd p)]) with (point_val p).
  rewrite lift_bind_run, (as_point_val _ Hp).
  rewrite lift_bind_run.
  change (cv2.as_ints [self.center_point_radius; self.thickness]) with (@Ok unit tt).
  rewrite lift_bind_run.
  change (cv2.CV_Assert ((0 <=? self.center_point_radius) &&
                      (self.thickness <=? cv2.MAX_THICKNESS))) with (@Ok unit tt).
  destruct (log_draw_run frame img st
              (Circle frame p self.center_point_radius
                 (self.bbox_colours !!! "offender") self.thickness)
              (circle_raw p self.center_point_radius
                 (self.bbox_colours !!! "offender") self.thickness) Hframe)
    as (st1 & E1 & T1 & F1).
  rewrite E1. exists st1. repeat split; assumption.
Qed.

(** The loop over [range(1, len(center_points))], started anywhere in the
    list. *)
Lemma trail_lines frame col thickness (rest pre : list (Z * Z)) (p : Z * Z) img st :
  heap st !! frame = Some img ->
  0 < thickness <= cv2.MAX_THICKNESS ->
  Forall (fun q => fits_point q = true) (p :: rest) ->
  exists st',
    for_each (seqZ (Z.of_nat (length pre) + 1) (Z.of_nat (length rest)))
      (fun x =>
         a ← lift (PySeq.index (VList (point_val <$> (pre ++ p :: rest)%list)) (x - 1));
         b ← lift (PySeq.index (VList (point_val <$> (pre ++ p :: rest)%list)) x);
         cv2.line frame a b col thickness) st = (st', Ok tt) /\
    trace st' = (trace st ++
      map (fun s => Line frame (fst s) (snd s) col thickness) (segments (p :: rest)))%list /\
    is_Some (heap st' !! frame).
Proof.
  intros Hframe Hthickness.
  revert pre p img st Hframe.
  induction rest as [| q rest IH]; intros pre p img st Hframe Hfits.
  - exists st. cbn [length seqZ]. split; [reflexivity |].
    cbn [segments map]. rewrite app_nil_r. split; [reflexivity | eauto].
  - apply Forall_cons in Hfits as [Hp Hfits].
    pose proof (Forall_inv Hfits) as Hq. cbv beta in Hq.
    rewrite seqZ_cons by (cbn [length]; lia).
    cbn [for_each]. rewrite bind_run.
    assert (Ha : (point_val <$> (pre ++ p :: q :: rest)%list) !! length pre = Some (point_val p)).
    { rewrite list_lookup_fmap, list_lookup_middle by reflexivity. reflexivity. }
    assert (Hb : (point_val <$> (pre ++ p :: q :: rest)%list) !! S (length pre)
                 = Some (point_val q)).
    { rewrite list_lookup_fmap.
      change (pre ++ p :: q :: rest)%list with (pre ++ [p] ++ q :: rest)%list.
      rewrite app_assoc.
      rewrite list_lookup_middle by (rewrite length_app; cbn [length]; lia).
      reflexivity. }
    rewrite lift_bind_run.
    replace (Z.of_nat (length pre) + 1 - 1) with (Z.of_nat (length pre)) by lia.
    rewrite (index_nat _ _ _ Ha).
    rewrite lift_bind_run.
    replace (Z.of_nat (length pre) + 1) with (Z.of_nat (S (length pre))) by lia.
    rewrite (index_nat _ _ _ Hb).
    destruct (line_run frame img st p q col thickness Hframe Hp Hq Hthickness)
      as (st1 & E1 & T1 & [img1 F1]).
    rewrite E1.
    destruct (IH (pre ++ [p])%list q img1 st1 F1 Hfits) as (st2 & E2 & T2 & F2).
    exists st2. split; [| split; [| exact F2]].
    + rewrite <- E2. rewrite length_app. cbn [length].
      replace (Z.succ (Z.of_nat (S (length pre)))) with (Z.of_nat (length pre + 1) + 1)
        by lia.
      replace (Z.pred (Z.of_nat (S (length rest)))) with (Z.of_nat (length rest)) by lia.
      rewrite <- app_assoc. reflexivity.
    + rewrite T2, T1. cbn [segments map fst snd]. rewrite <- app_assoc. reflexivity.
Qed.

(** X10. A trail of two or more integer points, each of which fits a pair
    of C [int]s, on a frame of the store is drawn as the segments between
    consecutive points, in order, in the trail colour with thickness 12,
    followed by a marker on the first and a marker on the last point (radius
    5, offender colour, thickness 8); the frame that was given is returned. *)
Theorem annotate_center_point_trail_draws
    (frame : nat) (img : image) (p0 p1 : Z * Z) (rest : list (Z * Z)) (st : state) :
  heap st !! frame = Some img ->
  let points := p0 :: p1 :: rest in
  Forall (fun p => fits_point p = true) points ->
  exists st',
    annotate_center_point_trail frame (VList (point_val <$> points)) st = (st', Ok frame) /\
    trace st' = (trace st ++
      map (fun s => Line frame (fst s) (snd s) (self.bbox_colours !!! "trail")
                      self.trail_thickness) (segments points) ++
      [ Circle frame p0 self.center_point_radius (self.bbox_colours !!! "offender")
          self.thickness;
        Circle frame (List.last points p0) self.center_point_radius
          (self.bbox_colours !!! "offender") self.thickness ])%list.
Proof.
  intros Hframe points Hfits.
  pose proof (Forall_inv Hfits) as Hp0. cbv beta in Hp0.
  pose proof (last_Forall _ points p0 Hfits Hp0) as Hlastfits. cbv beta in Hlastfits.
  unfold annotate_center_point_trail.
  rewrite lift_bind_run. cbn [PySeq.len].
  destruct (Z.ltb_spec (Z.of_nat (length (point_val <$> points))) 2) as [Hshort | _].
  { rewrite length_fmap in Hshort. subst points. cbn [length] in Hshort. lia. }
  destruct (trail_lines frame (self.bbox_colours !!! "trail") self.trail_thickness
              (p1 :: rest) [] p0 img st Hframe) as (st1 & E1 & T1 & [img1 F1]);
    [unfold self.trail_thickness, cv2.MAX_THICKNESS; lia | exact Hfits |].
  cbn [app] in E1.
  rewrite bind_run.
  replace (Z.of_nat (length (point_val <$> points)) - 1)
    with (Z.of_nat (length (p1 :: rest)))
    by (rewrite length_fmap; subst points; cbn [length]; lia).
  change (Z.of_nat (@length (Z * Z) []) + 1) with 1 in E1. fold points in E1.
  rewrite E1.
  rewrite lift_bind_run.
  assert (Hfirst : (point_val <$> points) !! 0%nat = Some (point_val p0)) by reflexivity.
  change 0 with (Z.of_nat 0) at 1.
  rewrite (index_nat _ _ _ Hfirst).
  destruct (annotate_center_point_run frame img1 st1 p0 F1 Hp0)
    as (st2 & E2 & T2 & [img2 F2]).
  rewrite bind_run, E2.
  rewrite lift_bind_run.
  assert (Hlast : PySeq.index (VList (point_val <$> points)) (-1)
                  = Ok (point_val (List.last points p0))).
  { unfold PySeq.index. cbn [Z.ltb Z.compare].
    rewrite length_fmap.
    destruct (Z.ltb_spec (-1 + Z.of_nat (length points)) 0) as [Hneg | _].
    { subst points. cbn [length] in Hneg. lia. }
    rewrite list_lookup_fmap.
    replace (Z.to_nat (-1 + Z.of_nat (length points))) with (Nat.pred (length points))
      by lia.
    rewrite (last_at points p0) by (subst points; discriminate).
    reflexivity. }
  rewrite Hlast.
  destruct (annotate_center_point_run frame img2 st2 (List.last points p0) F2 Hlastfits)
    as (st3 & E3 & T3 & _).
  rewrite bind_run, E3.
  exists st3. split; [reflexivity |].
  rewrite T3, T2, T1. rewrite <- !app_assoc. reflexivity.
Qed.

(** ** Labels, for every detection *)

Lemma format_2f_has_2f (v : pyval) :
  (exists s, Py.format_2f v = Ok s) <-> has_2f v = true.
Proof.
  destruct v as [| b | z | f | s | l | l | d]; cbn [Py.format_2f has_2f].
  - split; [intros [s [=]] | discriminate].
  - split; [reflexivity | intros _]. destruct b; eexists; reflexivity.
  - cbn [Py.num rbind]. unfold Py.to_float.
    destruct (PyFloat.is_finite (PyFloat.of_Z z)); cbn [rbind].
    + split; eauto.
    + split; [intros [s [=]] | discriminate].
  - split; [reflexivity | intros _]. eexists; reflexivity.
  - split; [intros [s' [=]] | discriminate].
  - split; [intros [s [=]] | discriminate].
  - split; [intros [s [=]] | discriminate].
  - split; [intros [s [=]] | discriminate].
Qed.

(** Walks through the fields [create_label] formats, in the normal form of
    [create_label_run]. *)
Ltac label_fields detection captured_at tac :=
  destruct (Py.str (Py.get detection "ID")) as [id | ?];
    cbn [mbind result_bind rbind]; [| tac];
  destruct (Py.str (Py.get detection "classname")) as [classname | ?];
    cbn [mbind result_bind rbind]; [| tac];
  destruct (Py.format_2f (Py.get detection "confidence_score")) as [confidence | ?];
    cbn [mbind result_bind rbind]; [| tac];
  destruct (Py.str (Py.get detection "speed")) as [speed | ?];
    cbn [mbind result_bind rbind]; [| tac];
  destruct (Py.val_get (Py.get_default detection "license_plate" (VDict []))
              "plate_text" (VStr "") ≫= Py.str) as [plate | ?];
    cbn [mbind result_bind rbind]; [| tac].

(** X14. Whether [create_label] raises, and what, does not depend on the
    vision type: every template is formatted on every call, so a detection
    and a timestamp that fail for one vision type fail the same way for
    every other. *)
Theorem create_label_raises_alike
    (detection : gmap string pyval) (vision_type vision_type' : string)
    (captured_at : pyval) (e : exn) :
  create_label detection vision_type captured_at = Raise e ->
  create_label detection vision_type' captured_at = Raise e.
Proof.
  rewrite !create_label_run.
  label_fields detection captured_at ltac:(auto).
  destruct (Py.str captured_at) as [captured | ?];
    cbn [mbind result_bind rbind]; [discriminate | auto].
Qed.

(** X17. [create_label] returns exactly when the ID, the class name, the
    speed, the plate text and the timestamp can be written (no int of more
    than 4300 digits), the confidence score is there and is a float, a bool
    or an int that a double can hold, and the license plate is missing or is
    a dict; this is the same for every vision type. *)
Theorem create_label_returns_iff
    (detection : gmap string pyval) (vision_type : string) (captured_at : pyval) :
  (exists label, create_label detection vision_type captured_at = Ok label) <->
  Py.printable (Py.get detection "ID") = true /\
  Py.printable (Py.get detection "classname") = true /\
  (exists score, detection !! "confidence_score" = Some score /\ has_2f score = true) /\
  Py.printable (Py.get detection "speed") = true /\
  (detection !! "license_plate" = None \/
   exists plate, detection !! "license_plate" = Some (VDict plate) /\
                 Py.printable (default (VStr "") (Py.assoc plate "plate_text")) = true) /\
  Py.printable captured_at = true.
Proof.
  rewrite create_label_run.
  assert (Hstr : forall v, (exists s, Py.str v = Ok s) <-> Py.printable v = true).
  { intros v. unfold Py.str. destruct (Py.printable v); split; eauto.
    - intros [s [=]].
    - discriminate. }
  assert (Hscore :
            (exists s, Py.format_2f (Py.get detection "confidence_score") = Ok s) <->
            exists score, detection !! "confidence_score" = Some score /\
                          has_2f score = true).
  { rewrite format_2f_has_2f. unfold Py.get.
    destruct (detection !! "confidence_score") as [score |]; cbn [default]; split.
    - eauto.
    - intros (score' & [= <-] & Hs). exact Hs.
    - discriminate.
    - intros (score' & [=] & _). }
  assert (Hplate :
            (exists s, Py.val_get (Py.get_default detection "license_plate" (VDict []))
                         "plate_text" (VStr "") ≫= Py.str = Ok s) <->
            (detection !! "license_plate" = None \/
             exists plate, detection !! "license_plate" = Some (VDict plate) /\
               Py.printable (default (VStr "") (Py.assoc plate "plate_text")) = true)).
  { unfold Py.get_default.
    destruct (detection !! "license_plate") as [v |].
    - change (default (VDict []) (Some v)) with v.
      destruct v as [| | | | | | | plate]; cbn [Py.val_get mbind result_bind rbind];
        try (split; [ intros [? Hs]; discriminate Hs
                    | intros [Hn | (? & Hp & _)]; discriminate ]).
      rewrite Hstr. split.
      + intros Hp. right. eauto.
      + intros [Hn | (p & Hp & Hpr)]; [discriminate Hn |].
        injection Hp as <-. exact Hpr.
    - change (Py.val_get (default (VDict []) None) "plate_text" (VStr ""))
        with (@Ok pyval (VStr "")).
      cbn [mbind result_bind rbind].
      split; [auto | intros _]. apply Hstr. reflexivity. }
  rewrite <- (Hstr (Py.get detection "ID")), <- (Hstr (Py.get detection "classname")),
    <- Hscore, <- (Hstr (Py.get detection "speed")), <- Hplate, <- (Hstr captured_at).
  label_fields detection captured_at
    ltac:(split; [intros [? [=]] | intros Hall; repeat destruct Hall as [[? [=]] Hall];
                                   try destruct Hall as [? [=]]]).
  destruct (Py.str captured_at) as [captured | ?]; cbn [mbind result_bind rbind].
  - split; [intros _; repeat split; eauto | eauto].
  - split; [intros [? [=]] |].
    intros (_ & _ & _ & _ & _ & [? [=]]).
Qed.

Lemma labels_lookup_other (od ot se pr tv tv' : string) (vision_type : string) :
  vision_type <> "traffic_violation" ->
  ({[ "object_detection" := od; "object_tracking" := ot; "speed_estimation" := se;
      "plate_reading" := pr; "traffic_violation" := tv ]} : gmap string string)
    !! vision_type =
  ({[ "object_detection" := od; "object_tracking" := ot; "speed_estimation" := se;
      "plate_reading" := pr; "traffic_violation" := tv' ]} : gmap string string)
    !! vision_type.
Proof.
  intros Hne.
  destruct (decide (vision_type = "object_detection")) as [-> | H1];
    [rewrite !lookup_insert_eq; reflexivity |].
  rewrite !(lookup_insert_ne _ "object_detection") by congruence.
  destruct (decide (vision_type = "object_tracking")) as [-> | H2];
    [rewrite !lookup_insert_eq; reflexivity |].
  rewrite !(lookup_insert_ne _ "object_tracking") by congruence.
  destruct (decide (vision_type = "speed_estimation")) as [-> | H3];
    [rewrite !lookup_insert_eq; reflexivity |].
  rewrite !(lookup_insert_ne _ "speed_estimation") by congruence.
  destruct (decide (vision_type = "plate_reading")) as [-> | H4];
    [rewrite !lookup_insert_eq; reflexivity |].
  rewrite !(lookup_insert_ne _ "plate_reading") by congruence.
  rewrite !lookup_singleton_ne by congruence. reflexivity.
Qed.

(** X15. The timestamp shows in the [traffic_violation] label only: for
    every other vision type [create_label] gives the same result for any
    two timestamps that can be written. *)
Theorem create_label_ignores_timestamp
    (detection : gmap string pyval) (vision_type : string) (captured_at captured_at' : pyval) :
  vision_type <> "traffic_violation" ->
  Py.printable captured_at = true -> Py.printable captured_at' = true ->
  create_label detection vision_type captured_at
  = create_label detection vision_type captured_at'.
Proof.
  intros Hne Hc Hc'. rewrite !create_label_run.
  rewrite (str_printable _ Hc), (str_printable _ Hc').
  label_fields detection captured_at ltac:(reflexivity).
  cbv zeta. f_equal. f_equal. apply labels_lookup_other. exact Hne.
Qed.

Lemma append_empty_r (s : string) : s +:+ "" = s.
Proof.
  induction s as [| c s IH]; [reflexivity |].
  change (String c s +:+ "") with (String c (s +:+ "")). rewrite IH. reflexivity.
Qed.

(** X16. For each of the five vision types it has a template for, the label
    [create_label] returns begins with [ID: ] and the detection's ID as
    [str] writes it ([None] when the detection has none). *)
Theorem create_label_begins_with_id
    (detection : gmap string pyval) (vision_type : string) (captured_at : pyval)
    (label : string) :
  vision_type ∈ vision_types ->
  create_label detection vision_type captured_at = Ok label ->
  exists rest, label = "ID: " +:+ Py.text (Py.get detection "ID") +:+ rest.
Proof.
  intros Hin. rewrite create_label_run.
  destruct (Py.str (Py.get detection "ID")) as [id | ?] eqn:Hid;
    cbn [mbind result_bind rbind]; [| discriminate].
  apply str_returns in Hid as [_ ->].
  destruct (Py.str (Py.get detection "classname")) as [classname | ?];
    cbn [mbind result_bind rbind]; [| discriminate].
  destruct (Py.format_2f (Py.get detection "confidence_score")) as [confidence | ?];
    cbn [mbind result_bind rbind]; [| discriminate].
  destruct (Py.str (Py.get detection "speed")) as [speed | ?];
    cbn [mbind result_bind rbind]; [| discriminate].
  destruct (Py.val_get (Py.get_default detection "license_plate" (VDict []))
              "plate_text" (VStr "") ≫= Py.str) as [plate | ?];
    cbn [mbind result_bind rbind]; [| discriminate].
  destruct (Py.str captured_at) as [captured | ?];
    cbn [mbind result_bind rbind]; [| discriminate].
  cbv zeta. unfold vision_types in Hin.
  repeat (apply elem_of_cons in Hin as [-> | Hin]);
    [ .. | apply elem_of_nil in Hin; contradiction ];
    repeat (rewrite lookup_insert_ne by discriminate);
    first [ rewrite lookup_insert_eq | rewrite lookup_singleton_eq ];
    cbn [default]; intros [= <-]; eauto.
  exists "". rewrite append_empty_r. reflexivity.
Qed.

(** ** Violation capture, for every detection *)

(** X18. Without one of the four box coordinates [capture_traffic_violation]
    raises before it copies the frame: the detection has been printed, no
    array has been added to the store or changed, and nothing has been
    drawn. *)
Theorem capture_traffic_violation_needs_box
    (frame : nat) (detection : gmap string pyval) (captured_at : pyval) (st : state)
    (key : string) :
  key ∈ ["x1"; "x2"; "y1"; "y2"] ->
  detection !! key = None ->
  let '(st', res) := capture_traffic_violation frame detection captured_at st in
  (exists e, res = Raise e) /\
  heap st' = heap st /\
  trace st' = (trace st ++ [Print detection])%list.
Proof.
  intros Hkey Hnone. unfold capture_traffic_violation.
  rewrite bind_run.
  destruct (print_run detection st) as (printed & Eprint & Hprinted). rewrite Eprint.
  set (st0 := {| heap := heap st; trace := (trace st ++ [Print detection])%list |}).
  assert (Hstop : forall e : exn,
            (exists e', @Raise nat e = Raise e') /\ heap st0 = heap st /\
            trace st0 = (trace st ++ [Print detection])%list).
  { intros e. repeat split; eauto. }
  clearbody st0.
  destruct Hprinted as [-> | ->]; [| apply Hstop].
  rewrite lift_bind_run.
  destruct (Py.val_get (Py.get_default detection "license_plate" (VDict []))
              "plate_text" (VStr "")) as [plate | e]; [| apply Hstop].
  unfold Py.getitem.
  rewrite lift_bind_run.
  destruct (detection !! "x1") as [x1 |] eqn:Hx1; [| apply Hstop].
  rewrite lift_bind_run.
  destruct (detection !! "x2") as [x2 |] eqn:Hx2; [| apply Hstop].
  rewrite lift_bind_run.
  destruct (detection !! "y1") as [y1 |] eqn:Hy1; [| apply Hstop].
  rewrite lift_bind_run.
  destruct (detection !! "y2") as [y2 |] eqn:Hy2; [| apply Hstop].
  exfalso.
  repeat (apply elem_of_cons in Hkey as [-> | Hkey]; [congruence |]).
  apply elem_of_nil in Hkey. exact Hkey.
Qed.

(** X19. Whatever [capture_traffic_violation] draws, pastes or fills, it does
    on an array that was not in the store before the call, never on the frame
    it was given; this holds for every detection and timestamp, and also when
    the call raises half way. *)
Theorem capture_traffic_violation_draws_on_copy
    (frame : nat) (detection : gmap string pyval) (captured_at : pyval) (st : state) :
  let '(st', res) := capture_traffic_violation frame detection captured_at st in
  exists evs,
    trace st' = (trace st ++ Print detection :: evs)%list /\
    Forall (fun ev => forall f, event_frame ev = Some f ->
                        f <> frame /\ heap st !! f = None) evs.
Proof.
  unfold capture_traffic_violation.
  rewrite bind_run.
  destruct (print_run detection st) as (printed & Eprint & Hprinted). rewrite Eprint.
  set (st0 := {| heap := heap st; trace := (trace st ++ [Print detection])%list |}).
  assert (E0 : heap st0 = heap st) by reflexivity.
  assert (T0 : trace st0 = (trace st ++ [Print detection])%list) by reflexivity.
  assert (Hstop : forall e : exn, exists evs,
            trace st0 = (trace st ++ Print detection :: evs)%list /\
            Forall (fun ev => forall f, event_frame ev = Some f ->
                                f <> frame /\ heap st !! f = None) evs).
  { intros e. exists []. split; [exact T0 | apply Forall_nil; exact I]. }
  clearbody st0.
  destruct Hprinted as [-> | ->]; [| apply Hstop; exact ValueError].
  do 5 (rewrite lift_bind_run;
        match goal with |- context [match ?v with Ok _ => _ | Raise _ => _ end] =>
          destruct v as [? | ?]; [| apply Hstop; assumption] end).
  rewrite bind_run. unfold np.copy at 1. rewrite bind_run. unfold read at 1.
  destruct (heap st0 !! frame) as [img |] eqn:Eframe; [| apply Hstop; exact ValueError].
  clear Hstop. cbn [alloc].
  set (new := fresh (dom (heap st0))).
  assert (Hnew : heap st !! new = None).
  { rewrite <- E0. apply not_elem_of_dom. apply is_fresh. }
  assert (Hne : new <> frame) by (rewrite <- E0 in Hnew; congruence).
  set (st1 := {| heap := <[new := img]> (heap st0); trace := trace st0 |}).
  assert (T1 : trace st1 = trace st0) by reflexivity.
  match goal with |- context [?m st1] =>
    assert (A : acts new (on new) m (fun out => out = new)) end.
  { clearbody st1 new. unfold_drawing.
    act_with ltac:(first [ act_prim | apply acts_annotate_bbox_corners
                         | apply acts_fetch_text_properties ]); on_frame. }
  clearbody st1.
  match goal with |- context [?m st1] => destruct (m st1) as [st' res] eqn:Erun end.
  destruct (A _ _ _ Erun) as (_ & (evs & T & Hon) & _).
  exists evs. split.
  - rewrite T, T1, T0, <- app_assoc. reflexivity.
  - eapply Forall_impl; [exact Hon |].
    intros ev Hev f Hf. rewrite (Hev f Hf). split; assumption.
Qed.

Lemma bind_ok {A B} (m : M A) (k : A -> M B) st st' b :
  (m ≫= k) st = (st', Ok b) ->
  exists a st1, m st = (st1, Ok a) /\ k a st1 = (st', Ok b).
Proof.
  rewrite bind_run. destruct (m st) as [st1 [a | e]]; [eauto | discriminate].
Qed.

Lemma lift_ok {A} (v : result A) st st' a :
  lift v st = (st', Ok a) -> v = Ok a /\ st' = st.
Proof. unfold lift. intros [= -> ->]. auto. Qed.

Lemma shape_ok frame st st' r : np.shape frame st = (st', Ok r) -> st' = st.
Proof.
  unfold np.shape. rewrite bind_run. unfold read.
  destruct (heap st !! frame); [| discriminate]. intros [= -> _]. reflexivity.
Qed.

Lemma fetch_text_properties_ok label frame st st' r :
  fetch_text_properties label frame st = (st', Ok r) -> st' = st.
Proof.
  unfold fetch_text_properties. intros Hrun.
  apply bind_ok in Hrun as ([h w] & st1 & Eshape & Hrun).
  apply shape_ok in Eshape as ->.
  apply bind_ok in Hrun as (a & st2 & Elift & Hrun).
  apply lift_ok in Elift as [_ ->].
  destruct a as [[ts sc] n]. injection Hrun as -> _. reflexivity.
Qed.

Lemma setslice_colour_ok frame r0 r1 c0 c1 col st st' u :
  np.setslice_colour frame r0 r1 c0 c1 col st = (st', Ok u) ->
  exists rows cols, trace st' = (trace st ++ [Fill frame rows cols col])%list.
Proof.
  unfold np.setslice_colour. rewrite bind_run. unfold read.
  destruct (heap st !! frame) as [img |]; [| discriminate].
  cbv zeta. rewrite bind_run. cbn [log write]. intros [= <- _].
  eexists _, _. reflexivity.
Qed.

Lemma putText_ok frame text org font font_scale col thickness line_type st st' u :
  cv2.putText frame text org font font_scale col thickness line_type st = (st', Ok u) ->
  trace st' = (trace st ++ [PutText frame text org font_scale col thickness])%list.
Proof.
  unfold cv2.putText, draw. rewrite lift_bind_run.
  destruct (cv2.as_ints _); [| discriminate].
  rewrite bind_run. cbn [log]. rewrite bind_run.
  unfold read. cbn [heap].
  destruct (heap st !! frame) as [img |]; [| discriminate].
  cbn [write]. intros [= <- _]. reflexivity.
Qed.

Ltac ok_step_as H s a E :=
  rewrite bind_run in H;
  match type of H with
  | (let '(_, _) := ?r in _) = _ =>
      let e := fresh "e" in
      destruct r as [s [a | e]] eqn:E; [| discriminate H]
  end.

Ltac ok_step H :=
  let s := fresh "s" in let a := fresh "a" in let E := fresh "E" in
  ok_step_as H s a E; clear E.

(** X20. Every evidence frame that [capture_traffic_violation] returns
    carries both bars and both texts: the last four operations on it are the
    black plate bar, the plate text, the black bottom bar and the
    [traffic_violation] label of the detection, in the font colour and font
    thickness of the class. The plate text is a string, or [None], which the
    backend draws as the empty text. *)
Theorem capture_traffic_violation_bars_and_texts
    (frame : nat) (detection : gmap string pyval) (captured_at : pyval)
    (st st' : state) (out : nat) :
  capture_traffic_violation frame detection captured_at st = (st', Ok out) ->
  exists plate_text plate label before rows cols org scale rows' cols' org' scale',
    Py.val_get (Py.get_default detection "license_plate" (VDict [])) "plate_text" (VStr "")
      = Ok plate_text /\
    (plate_text = VStr plate \/ plate_text = VNone /\ plate = "") /\
    create_label detection "traffic_violation" captured_at = Ok label /\
    trace st' = (before ++
      [ Fill out rows cols (0, 0, 0);
        PutText out plate org scale self.font_colour self.font_thickness;
        Fill out rows' cols' (0, 0, 0);
        PutText out label org' scale' self.font_colour self.font_thickness ])%list.
Proof.
  intros Hrun. unfold capture_traffic_violation in Hrun.
  ok_step Hrun.
  rewrite lift_bind_run in Hrun.
  destruct (Py.val_get (Py.get_default detection "license_plate" (VDict []))
              "plate_text" (VStr "")) as [license_plate | e] eqn:Eplate;
    [| discriminate Hrun].
  do 15 (ok_step Hrun; cbv beta zeta in Hrun;
         try match type of Hrun with
             | (let '(_, _) := ?a in _) _ = _ => destruct a
             end).
  ok_step_as Hrun s18 r18 Eshape. clear Eshape. destruct r18 as [frame_height ?].
  ok_step_as Hrun s19 u19 Ebar.
  apply setslice_colour_ok in Ebar as (rows & cols & Tbar).
  rewrite lift_bind_run in Hrun.
  destruct (cv2.as_text license_plate) as [plate | e] eqn:Etext; [| discriminate Hrun].
  ok_step_as Hrun s21 r21 Efetch.
  apply fetch_text_properties_ok in Efetch as ->.
  destruct r21 as [[ptw pth] pscale].
  ok_step_as Hrun s22 u22 Eput.
  apply putText_ok in Eput.
  rewrite lift_bind_run in Hrun.
  destruct (create_label detection "traffic_violation" captured_at) as [label | e]
    eqn:Elabel; [| discriminate Hrun].
  ok_step_as Hrun s24 r24 Efetch.
  apply fetch_text_properties_ok in Efetch as ->.
  destruct r24 as [[ltw lth] lscale]. cbv zeta in Hrun.
  ok_step_as Hrun s25 u25 Ebar'.
  apply setslice_colour_ok in Ebar' as (rows' & cols' & Tbar').
  ok_step_as Hrun s26 u26 Eput'.
  apply putText_ok in Eput'.
  injection Hrun as <- <-.
  assert (Hplate : license_plate = VStr plate \/ license_plate = VNone /\ plate = "").
  { destruct license_plate; try discriminate Etext; injection Etext as <-; auto. }
  eexists license_plate, plate, label, (trace s18), rows, cols, _, pscale, rows', cols', _,
    lscale.
  split; [reflexivity |]. split; [exact Hplate |]. split; [reflexivity |].
  rewrite Eput', Tbar', Eput, Tbar. rewrite <- !app_assoc.
  apply (f_equal (app (trace s18))). cbn [app]. reflexivity.
Qed.

End Effects.

(** * The further properties on concrete frames *)

Section MoreScenarios.
#[local] Existing Instance Fake.runtime.
#[local] Existing Instance Fake.canvas.
#[local] Existing Instance Fake.bbox_utils.


(** X2 on the car of scenario A. *)
Lemma annotate_bbox_corners_arcs_witness :
  let detection := Fake.car 100 100 200 200 in
  let st := Fake.store (Fake.black 480 640) in
  let st' := fst (annotate_bbox_corners 0 detection st) in
  heap st !! 0%nat = Some (Fake.black 480 640) /\
  annotate_bbox_corners 0 detection st = (st', Ok 0%nat) /\
  exists r t, 5 <= r <= 30 /\ (t = 1 \/ t = 2 \/ t = 4 \/ t = 5) /\
    trace st' =
      [ Ellipse 0 (100 + r, 100 + r) (r, r) 0 180 270 (10, 255, 10) t;
        Ellipse 0 (100 + r, 200 - r) (r, r) 0 90 180 (10, 255, 10) t;
        Ellipse 0 (200 - r, 100 + r) (r, r) 0 270 360 (10, 255, 10) t;
        Ellipse 0 (200 - r, 200 - r) (r, r) 0 0 90 (10, 255, 10) t ].
Proof.
  cbv zeta.
  assert (H1 : heap (Fake.store (Fake.black 480 640)) !! 0%nat = Some (Fake.black 480 640))
    by reflexivity.
  assert (H2 : annotate_bbox_corners 0 (Fake.car 100 100 200 200)
                 (Fake.store (Fake.black 480 640))
               = (fst (annotate_bbox_corners 0 (Fake.car 100 100 200 200)
                         (Fake.store (Fake.black 480 640))), Ok 0%nat))
    by (vm_compute; reflexivity).
  split; [exact H1 |]. split; [exact H2 |].
  destruct (annotate_bbox_corners_arcs 0 _ _ _ _ _ H1 H2)
    as (_ & x1 & y1 & x2 & y2 & r & t & E1 & E2 & E3 & E4 & Hr & Ht & T).
  vm_compute in E1. vm_compute in E2. vm_compute in E3. vm_compute in E4.
  injection E1 as <-. injection E2 as <-. injection E3 as <-. injection E4 as <-.
  exists r, t. split; [exact Hr |]. split; [exact Ht |]. exact T.
Defined.

(** X3 on the sizes 40 and 250. *)
Lemma corner_parameters_monotone_witness :
  (-10000 <= 40 /\ 40 <= 250 /\ 250 <= 10000 /\
   corner_radius 40 = Ok 20 /\ corner_radius 250 = Ok 30 /\
   corner_thickness 40 = Ok 1 /\ corner_thickness 250 = Ok 4) /\
  20 <= 30 /\ 1 <= 4.
Proof.
  assert (H1 : -10000 <= 40) by lia.
  assert (H2 : 40 <= 250) by lia.
  assert (H3 : 250 <= 10000) by lia.
  assert (H4 : corner_radius 40 = Ok 20) by (vm_compute; reflexivity).
  assert (H5 : corner_radius 250 = Ok 30) by (vm_compute; reflexivity).
  assert (H6 : corner_thickness 40 = Ok 1) by (vm_compute; reflexivity).
  assert (H7 : corner_thickness 250 = Ok 4) by (vm_compute; reflexivity).
  split; [repeat split; assumption |].
  exact (corner_parameters_monotone 40 250 20 30 1 4 H1 H2 H3 H4 H5 H6 H7).
Defined.

(** X4 on a short label. *)
Lemma fetch_text_properties_consistent_witness :
  let st := Fake.store (Fake.black 480 640) in
  heap st !! 0%nat = Some (Fake.black 480 640) /\
  exists scale,
    fetch_text_properties "ID: 1" 0 st
      = (st, Ok (cv2.getTextSize "ID: 1" self.font scale self.font_thickness, scale)) /\
    Py.lt scale (NFloat (S754_finite false 7205759403792787 (-53))) = false /\
    Py.gt scale (NInt 2) = false.
Proof.
  cbv zeta.
  assert (H1 : heap (Fake.store (Fake.black 480 640)) !! 0%nat = Some (Fake.black 480 640))
    by reflexivity.
  split; [exact H1 |].
  exact (fetch_text_properties_consistent "ID: 1" 0 _ _ H1).
Defined.

(** X5 on a label of 22 characters, which fits at the fourth scale tried. *)
Lemma fetch_text_properties_first_fit_witness :
  let label := "ID: 1 | Speed: 31.5mph" in
  let st := Fake.store (Fake.black 480 800) in
  let scale := NFloat (S754_finite false 7656119366529842 (-52)) in
  heap st !! 0%nat = Some (Fake.black 480 800) /\
  fetch_text_properties label 0 st = (st, Ok (747, 37, scale)) /\
  exists n,
    (self.font_scale :: scales_below_2) !! n = Some scale /\
    (forall j sj, (j < n)%nat -> (self.font_scale :: scales_below_2) !! j = Some sj ->
       width (Fake.black 480 800) - 2 * self.label_padding
       < fst (cv2.getTextSize label self.font sj self.font_thickness)) /\
    (fst (747, 37) <= width (Fake.black 480 800) - 2 * self.label_padding \/
     Py.gt scale (NFloat (PyFloat.literal 8 10)) = false).
Proof.
  cbv zeta.
  assert (H1 : heap (Fake.store (Fake.black 480 800)) !! 0%nat = Some (Fake.black 480 800))
    by reflexivity.
  assert (H2 : fetch_text_properties "ID: 1 | Speed: 31.5mph" 0
                 (Fake.store (Fake.black 480 800))
               = (Fake.store (Fake.black 480 800),
                  Ok (747, 37, NFloat (S754_finite false 7656119366529842 (-52)))))
    by (vm_compute; reflexivity).
  split; [exact H1 |]. split; [exact H2 |].
  exact (fetch_text_properties_first_fit _ 0 _ _ _ _ _ H1 H2).
Defined.

(** X6 on a short label. *)
Lemma get_label_dimensions_agrees_witness :
  let st := Fake.store (Fake.black 480 640) in
  heap st !! 0%nat = Some (Fake.black 480 640) /\
  exists text_width text_height scale,
    fetch_text_properties "ID: 1" 0 st = (st, Ok (text_width, text_height, scale)) /\
    get_label_dimensions "ID: 1" 0 st
      = (st, Ok (text_width + 2 * self.label_padding,
                 text_height + 2 * self.label_padding)) /\
    forall bbox_bottom center_point position,
      calculate_label_position bbox_bottom center_point (text_width, text_height)
        = Ok position ->
      position !! "width" = Some (text_width + 2 * self.label_padding) /\
      position !! "height" = Some (text_height + 2 * self.label_padding).
Proof.
  cbv zeta.
  assert (H1 : heap (Fake.store (Fake.black 480 640)) !! 0%nat = Some (Fake.black 480 640))
    by reflexivity.
  split; [exact H1 |].
  exact (get_label_dimensions_agrees "ID: 1" 0 _ _ H1).
Defined.

(** X8 on the box of a label of ten characters under a box that ends at
    row 200. *)
Lemma draw_label_background_inside_witness :
  let position : gmap string Z :=
    {[ "x" := 50; "y" := 269; "width" := 250; "height" := 94 ]} in
  let st := Fake.store (Fake.black 480 640) in
  (heap st !! 0%nat = Some (Fake.black 480 640) /\
   position !! "x" = Some 50 /\ position !! "y" = Some 269 /\
   position !! "width" = Some 250 /\ position !! "height" = Some 94 /\
   Forall (fun z => cv2.fits_int z = true) [50; 56; 294; 300; 269; 275; 357; 363]) /\
  exists st' evs,
    draw_label_background 0 position st = (st', Ok 0%nat) /\
    trace st' = (trace st ++ evs)%list /\
    length evs = 6%nat /\
    Forall (within 50 269 250 94) evs.
Proof.
  cbv zeta.
  set (position := ({[ "x" := 50; "y" := 269; "width" := 250; "height" := 94 ]}
                    : gmap string Z)).
  assert (H1 : heap (Fake.store (Fake.black 480 640)) !! 0%nat = Some (Fake.black 480 640))
    by reflexivity.
  assert (Hx : position !! "x" = Some 50) by reflexivity.
  assert (Hy : position !! "y" = Some 269) by reflexivity.
  assert (Hw : position !! "width" = Some 250) by reflexivity.
  assert (Hh : position !! "height" = Some 94) by reflexivity.
  assert (Hfits : Forall (fun z => cv2.fits_int z = true)
                    [50; 56; 294; 300; 269; 275; 357; 363])
    by (repeat constructor).
  split; [repeat split; assumption |].
  pose proof (draw_label_background_inside 0 _ position 50 269 250 94 _ H1 Hx Hy Hw Hh
                Hfits) as K.
  cbv zeta in K. destruct K as (st' & E & T & Hin).
  exists st'. eexists. split; [exact E |]. split; [exact T |]. split; [reflexivity |].
  apply Hin; vm_compute; discriminate.
Defined.

(** X9 on a label of ten characters under a box that ends at row 200 and is
    centred on column 150. *)
Lemma draw_label_text_margins_witness :
  let position : gmap string Z :=
    {[ "x" := 50; "y" := 269; "width" := 250; "height" := 94 ]} in
  let st := Fake.store (Fake.black 480 640) in
  (heap st !! 0%nat = Some (Fake.black 480 640) /\
   calculate_label_position 200 (NInt 150, NInt 150) (200, 44) = Ok position /\
   position !! "x" = Some 50 /\ position !! "y" = Some 269 /\
   position !! "width" = Some 250 /\ position !! "height" = Some 94 /\
   cv2.fits_int (50 + self.label_padding) = true /\
   cv2.fits_int (269 + 44 + self.label_padding) = true) /\
  exists st',
    draw_label_text 0 "ID: 1 | car" position (200, 44) (NInt 2) st = (st', Ok 0%nat) /\
    trace st' =
      [PutText 0 "ID: 1 | car" (75, 338) (NInt 2) self.font_colour self.font_thickness].
Proof.
  cbv zeta.
  set (position := ({[ "x" := 50; "y" := 269; "width" := 250; "height" := 94 ]}
                    : gmap string Z)).
  assert (H1 : heap (Fake.store (Fake.black 480 640)) !! 0%nat = Some (Fake.black 480 640))
    by reflexivity.
  assert (H2 : calculate_label_position 200 (NInt 150, NInt 150) (200, 44) = Ok position)
    by (vm_compute; reflexivity).
  assert (Hx : position !! "x" = Some 50) by reflexivity.
  assert (Hy : position !! "y" = Some 269) by reflexivity.
  assert (Hw : position !! "width" = Some 250) by reflexivity.
  assert (Hh : position !! "height" = Some 94) by reflexivity.
  assert (Fx : cv2.fits_int (50 + self.label_padding) = true) by reflexivity.
  assert (Fy : cv2.fits_int (269 + 44 + self.label_padding) = true) by reflexivity.
  split; [repeat split; assumption |].
  destruct (draw_label_text_margins 0 _ "ID: 1 | car" 200 (NInt 150, NInt 150) 200 44
              (NInt 2) position 50 269 250 94 _ H1 H2 Hx Hy Hw Hh Fx Fy)
    as (st' & text_x & text_y & E & T & M1 & M2 & M3).
  unfold self.label_padding in M1, M3.
  assert (Hxt : text_x = 75) by lia. assert (Hyt : text_y = 338) by lia.
  subst text_x text_y.
  exists st'. split; [exact E | exact T].
Defined.

(** X10 on a trail of three points. *)
Lemma annotate_center_point_trail_draws_witness :
  let st := Fake.store (Fake.black 480 640) in
  heap st !! 0%nat = Some (Fake.black 480 640) /\
  let points := [(10, 10); (20, 25); (40, 30)] in
  Forall (fun p => fits_point p = true) points /\
  exists st',
    annotate_center_point_trail 0 (VList (point_val <$> points)) st = (st', Ok 0%nat) /\
    trace st' = (trace st ++
      map (fun s => Line 0 (fst s) (snd s) (self.bbox_colours !!! "trail")
                      self.trail_thickness) (segments points) ++
      [ Circle 0 (10, 10) self.center_point_radius (self.bbox_colours !!! "offender")
          self.thickness;
        Circle 0 (List.last points (10, 10)) self.center_point_radius
          (self.bbox_colours !!! "offender") self.thickness ])%list.
Proof.
  cbv zeta.
  assert (H1 : heap (Fake.store (Fake.black 480 640)) !! 0%nat = Some (Fake.black 480 640))
    by reflexivity.
  assert (H2 : Forall (fun p => fits_point p = true) [(10, 10); (20, 25); (40, 30)])
    by (repeat constructor).
  split; [exact H1 |]. split; [exact H2 |].
  exact (annotate_center_point_trail_draws 0 _ (10, 10) (20, 25) [(40, 30)] _ H1 H2).
Defined.

(** X11 on a tracked car annotated for speed estimation. *)
Lemma annotate_label_no_trail_witness :
  let detection :=
    <[ "center_points" := VList (point_val <$> [(10, 10); (20, 25); (40, 30)]) ]>
      (Fake.car 100 100 200 200) in
  let st := Fake.store (Fake.black 480 640) in
  let st' := fst (annotate_label 0 detection "speed_estimation" st) in
  ("speed_estimation" <> "object_tracking" /\
   annotate_label 0 detection "speed_estimation" st = (st', Ok 0%nat)) /\
  exists evs, trace st' = (trace st ++ evs)%list /\
              Forall (fun ev => is_trail_event ev = false) evs.
Proof.
  cbv zeta.
  set (detection :=
         <[ "center_points" := VList (point_val <$> [(10, 10); (20, 25); (40, 30)]) ]>
           (Fake.car 100 100 200 200)).
  set (st := Fake.store (Fake.black 480 640)).
  assert (H1 : "speed_estimation" <> "object_tracking") by (vm_compute; discriminate).
  assert (H2 : annotate_label 0 detection "speed_estimation" st
               = (fst (annotate_label 0 detection "speed_estimation" st), Ok 0%nat))
    by (vm_compute; reflexivity).
  split; [split; assumption |].
  exact (annotate_label_no_trail 0 detection "speed_estimation" st _ _ H1 H2).
Defined.

(** X12 on two tracked cars. *)
Lemma annotate_frame_in_place_witness :
  let detections := [Fake.car 100 100 200 200; Fake.car 300 120 420 260] in
  let st := Fake.store (Fake.black 480 640) in
  let st' := fst (annotate_frame 0 detections "object_tracking" st) in
  annotate_frame 0 detections "object_tracking" st = (st', Ok 0%nat) /\
  (forall k, k <> 0%nat -> heap st' !! k = heap st !! k) /\
  (exists evs, trace st' = (trace st ++ evs)%list /\
               Forall (fun ev => forall f, event_frame ev = Some f -> f = 0%nat) evs) /\
  (forall out, Ok 0%nat = Ok out -> out = 0%nat).
Proof.
  cbv zeta.
  set (detections := [Fake.car 100 100 200 200; Fake.car 300 120 420 260]).
  set (st := Fake.store (Fake.black 480 640)).
  assert (H1 : annotate_frame 0 detections "object_tracking" st
               = (fst (annotate_frame 0 detections "object_tracking" st), Ok 0%nat))
    by (vm_compute; reflexivity).
  split; [exact H1 |].
  exact (annotate_frame_in_place 0 detections "object_tracking" st _ _ H1).
Defined.

(** X14 on a detection without a confidence score. *)
Lemma create_label_raises_alike_witness :
  let detection := delete "confidence_score" (Fake.car 100 100 200 200) in
  create_label detection "object_tracking" (VInt 7) = Raise TypeError /\
  create_label detection "traffic_violation" (VInt 7) = Raise TypeError.
Proof.
  cbv zeta.
  assert (H1 : create_label (delete "confidence_score" (Fake.car 100 100 200 200))
                 "object_tracking" (VInt 7) = Raise TypeError)
    by (vm_compute; reflexivity).
  split; [exact H1 |].
  exact (create_label_raises_alike _ "object_tracking" "traffic_violation" (VInt 7) _ H1).
Defined.

(** X15 on a plate reading. *)
Lemma create_label_ignores_timestamp_witness :
  ("plate_reading" <> "traffic_violation" /\
   Py.printable VNone = true /\ Py.printable (VInt 7) = true) /\
  create_label (Fake.car 100 100 200 200) "plate_reading" VNone
  = create_label (Fake.car 100 100 200 200) "plate_reading" (VInt 7).
Proof.
  assert (H1 : "plate_reading" <> "traffic_violation") by (vm_compute; discriminate).
  assert (H2 : Py.printable VNone = true) by reflexivity.
  assert (H3 : Py.printable (VInt 7) = true) by (vm_compute; reflexivity).
  split; [repeat split; assumption |].
  exact (create_label_ignores_timestamp (Fake.car 100 100 200 200) "plate_reading"
           VNone (VInt 7) H1 H2 H3).
Defined.

(** X16 on a speed estimation. *)
Lemma create_label_begins_with_id_witness :
  let detection := Fake.car 100 100 200 200 in
  ("speed_estimation" ∈ vision_types /\
   create_label detection "speed_estimation" VNone = Ok "ID: 1 | Speed: Nonemph") /\
  exists rest,
    "ID: 1 | Speed: Nonemph" = "ID: " +:+ Py.text (Py.get detection "ID") +:+ rest.
Proof.
  cbv zeta.
  assert (H1 : "speed_estimation" ∈ vision_types)
    by (unfold vision_types; set_solver).
  assert (H2 : create_label (Fake.car 100 100 200 200) "speed_estimation" VNone
               = Ok "ID: 1 | Speed: Nonemph")
    by (vm_compute; reflexivity).
  split; [split; assumption |].
  exact (create_label_begins_with_id _ "speed_estimation" VNone _ H1 H2).
Defined.

(** X18 on a car without [y2]. *)
Lemma capture_traffic_violation_needs_box_witness :
  let detection := delete "y2" (Fake.car 100 100 200 200) in
  let st := Fake.store (Fake.black 480 640) in
  ("y2" ∈ ["x1"; "x2"; "y1"; "y2"] /\ detection !! "y2" = None) /\
  let '(st', res) := capture_traffic_violation 0 detection VNone st in
  (exists e, res = Raise e) /\
  heap st' = heap st /\
  trace st' = (trace st ++ [Print detection])%list.
Proof.
  cbv zeta.
  set (detection := delete "y2" (Fake.car 100 100 200 200)).
  assert (H1 : "y2" ∈ ["x1"; "x2"; "y1"; "y2"])
    by set_solver.
  assert (H2 : detection !! "y2" = None) by reflexivity.
  split; [split; assumption |].
  exact (capture_traffic_violation_needs_box 0 detection VNone _ "y2" H1 H2).
Defined.

(** X20 on a car whose plate was read as [None], captured at time 7. *)
Lemma capture_traffic_violation_bars_and_texts_witness :
  let detection :=
    <[ "license_plate" := VDict [("plate_text", VNone)] ]> (Fake.car 100 100 200 200) in
  let st := Fake.store (Fake.black 480 640) in
  let st' := fst (capture_traffic_violation 0 detection (VInt 7) st) in
  capture_traffic_violation 0 detection (VInt 7) st = (st', Ok 1%nat) /\
  exists plate_text plate label before rows cols org scale rows' cols' org' scale',
    Py.val_get (Py.get_default detection "license_plate" (VDict [])) "plate_text" (VStr "")
      = Ok plate_text /\
    (plate_text = VStr plate \/ plate_text = VNone /\ plate = "") /\
    create_label detection "traffic_violation" (VInt 7) = Ok label /\
    trace st' = (before ++
      [ Fill 1 rows cols (0, 0, 0);
        PutText 1 plate org scale self.font_colour self.font_thickness;
        Fill 1 rows' cols' (0, 0, 0);
        PutText 1 label org' scale' self.font_colour self.font_thickness ])%list.
Proof.
  cbv zeta.
  set (st := Fake.store (Fake.black 480 640)).
  set (detection :=
         <[ "license_plate" := VDict [("plate_text", VNone)] ]> (Fake.car 100 100 200 200)).
  assert (H1 : capture_traffic_violation 0 detection (VInt 7) st
               = (fst (capture_traffic_violation 0 detection (VInt 7) st), Ok 1%nat))
    by (vm_compute; reflexivity).
  split; [exact H1 |].
  exact (capture_traffic_violation_bars_and_texts 0 _ (VInt 7) st _ 1%nat H1).
Defined.

End MoreScenarios.
